(** * LinguApp contract tests: a shallow embedding of the TestSprite scripts

    The repository holds black-box HTTP test scripts
    ([testsprite_tests/TC0xx_*.py]).  Every script sends requests to a
    backend with the [requests] library and asserts on the status code and
    on the decoded JSON body of each response.

    The embedding follows the scripts statement by statement:
    - a decoded JSON body is a value of [json] (Python's [None], [bool],
      [int], [float], [str], [list], [dict]);
    - the backend is an arbitrary deterministic function of the exchanges
      made so far and of the incoming request;
    - a script is a computation in the monad [M], which threads the list of
      exchanges and may raise a Python exception ([exn]);
    - [try]/[except], [assert], [for] and the dynamic operators the scripts
      use ([in], subscription, [.get], [==], truthiness) are defined once and
      used as the scripts use them. *)

From Stdlib Require Import ZArith List String Ascii Bool Lia.
From Stdlib Require Import Strings.Byte.
From Stdlib Require Import Floats.SpecFloat.
Import ListNotations.
Set Warnings "-register-all".
Open Scope string_scope.
Open Scope Z_scope.

(** ** Decoded JSON values *)

Inductive json : Type :=
| JNull
| JBool (b : bool)
| JInt (z : Z)
| JFloat (f : spec_float)
| JStr (s : string)
| JList (l : list json)
| JDict (d : list (string * json)).

(** Lookup of a key in a dict, kept as an association list in insertion
    order (the order [dict.items()] iterates in). *)
Fixpoint lookup {A : Type} (k : string) (d : list (string * A)) : option A :=
  match d with
  | [] => None
  | (k', v) :: d' => if String.eqb k' k then Some v else lookup k d'
  end.

Definition has_key {A : Type} (k : string) (d : list (string * A)) : bool :=
  match lookup k d with Some _ => true | None => false end.

Definition keys {A : Type} (d : list (string * A)) : list string :=
  map fst d.

(** *** [isinstance] *)

Definition isinstance_dict (v : json) : bool :=
  match v with JDict _ => true | _ => false end.

Definition isinstance_list (v : json) : bool :=
  match v with JList _ => true | _ => false end.

Definition isinstance_str (v : json) : bool :=
  match v with JStr _ => true | _ => false end.

(** [isinstance(v, (float, int))]: [bool] is a subclass of [int]. *)
Definition isinstance_float_int (v : json) : bool :=
  match v with JBool _ | JInt _ | JFloat _ => true | _ => false end.

Definition is_None (v : json) : bool :=
  match v with JNull => true | _ => false end.

(** *** Numbers: [bool], [int] and [float] compare by value *)

Inductive number : Type :=
| NInt (z : Z)
| NFloat (f : spec_float).

Definition as_number (v : json) : option number :=
  match v with
  | JBool b => Some (NInt (Z.b2z b))
  | JInt z => Some (NInt z)
  | JFloat f => Some (NFloat f)
  | _ => None
  end.

(** The value of a finite float is [(-1)^s * m * 2^e]; Python compares an
    [int] with a [float] exactly. *)
Definition float_cmp_Z (f : spec_float) (z : Z) : option comparison :=
  match f with
  | S754_zero _ => Some (0 ?= z)
  | S754_infinity s => Some (if s then Lt else Gt)
  | S754_nan => None
  | S754_finite s m e =>
      let zm := if s then Z.neg m else Z.pos m in
      Some (if 0 <=? e then (zm * 2 ^ e ?= z) else (zm ?= z * 2 ^ (- e)))
  end.

Definition num_cmp (x y : number) : option comparison :=
  match x, y with
  | NInt a, NInt b => Some (a ?= b)
  | NFloat f, NInt b => float_cmp_Z f b
  | NInt a, NFloat g => option_map CompOpp (float_cmp_Z g a)
  | NFloat f, NFloat g => SFcompare f g
  end.

Definition num_eqb (x y : number) : bool :=
  match num_cmp x y with Some Eq => true | _ => false end.

Definition num_leb (x y : number) : bool :=
  match num_cmp x y with Some (Eq | Lt) => true | _ => false end.

(** *** Python's [==] on decoded values *)

Fixpoint py_eq (a b : json) {struct a} : bool :=
  match a, b with
  | JNull, JNull => true
  | JStr s, JStr t => String.eqb s t
  | JList l, JList m =>
      (fix all2 (l m : list json) {struct l} : bool :=
         match l, m with
         | [], [] => true
         | x :: l', y :: m' => py_eq x y && all2 l' m'
         | _, _ => false
         end) l m
  | JDict d, JDict e =>
      (Nat.eqb (List.length d) (List.length e))
      && (fix sub (d : list (string * json)) {struct d} : bool :=
            match d with
            | [] => true
            | (k, x) :: d' =>
                match lookup k e with
                | Some y => py_eq x y
                | None => false
                end && sub d'
            end) d
  | _, _ =>
      match as_number a, as_number b with
      | Some x, Some y => num_eqb x y
      | _, _ => false
      end
  end.

(** *** Truthiness, as [assert v] and [v and w] test it *)

Definition float_is_zero (f : spec_float) : bool :=
  match f with S754_zero _ => true | _ => false end.

Definition truthy (v : json) : bool :=
  match v with
  | JNull => false
  | JBool b => b
  | JInt z => negb (z =? 0)
  | JFloat f => negb (float_is_zero f)
  | JStr s => negb (String.eqb s "")
  | JList l => match l with [] => false | _ => true end
  | JDict d => match d with [] => false | _ => true end
  end.

(** ** Exceptions and assertion messages

    An f-string message is kept as the list of its parts, interpolated
    values unrendered. *)

Inductive exn : Type :=
| AssertionError (msg : list part)
| ConnectionError (detail : string)
| HTTPError (status : Z)
| JSONDecodeError
| TypeError
| KeyError (key : string)
| IndexError
| AttributeError
| ValueError
| RecursionError
with part : Type :=
| Lit (s : string)
| Val (v : json)
| Keys (ks : list string)
| Exc (e : exn).

(** Class tests used by the [except] clauses.  [ConnectionError] stands for
    any exception [requests] raises while sending (connection error,
    timeout); [HTTPError] is raised by [raise_for_status];
    [requests.exceptions.JSONDecodeError] derives from both
    [RequestException] and [ValueError].  [ValueError] is the plain
    built-in, a [RequestException] in no case; [RecursionError] is a
    [RuntimeError], neither of the two. *)
Definition is_RequestException (e : exn) : bool :=
  match e with
  | ConnectionError _ | HTTPError _ | JSONDecodeError => true
  | _ => false
  end.

Definition is_ValueError (e : exn) : bool :=
  match e with JSONDecodeError | ValueError => true | _ => false end.

Definition is_AssertionError (e : exn) : bool :=
  match e with AssertionError _ => true | _ => false end.

Definition is_Exception (e : exn) : bool := true.

(** [type(e).__name__]: the kind of failure a report of the run shows. *)
Definition class_name (e : exn) : string :=
  match e with
  | AssertionError _ => "AssertionError"
  | ConnectionError _ => "ConnectionError"
  | HTTPError _ => "HTTPError"
  | JSONDecodeError => "JSONDecodeError"
  | TypeError => "TypeError"
  | KeyError _ => "KeyError"
  | IndexError => "IndexError"
  | AttributeError => "AttributeError"
  | ValueError => "ValueError"
  | RecursionError => "RecursionError"
  end.

Inductive Res (A : Type) : Type :=
| Ok (a : A)
| Raised (e : exn).
Arguments Ok {A} a.
Arguments Raised {A} e.

(** *** Dynamic operators *)

(** [k in v] for a string [k]. *)
Definition py_in (k : string) (v : json) : Res bool :=
  match v with
  | JDict d => Ok (has_key k d)
  | JList l => Ok (existsb (fun x => py_eq (JStr k) x) l)
  | JStr s => Ok (match String.index 0 k s with Some _ => true | None => false end)
  | _ => Raised TypeError
  end.

(** [v[k]] for a string [k]. *)
Definition py_getitem (v : json) (k : string) : Res json :=
  match v with
  | JDict d => match lookup k d with Some x => Ok x | None => Raised (KeyError k) end
  | _ => Raised TypeError
  end.

(** [v.get(k, default)]. *)
Definition py_get (v : json) (k : string) (default : json) : Res json :=
  match v with
  | JDict d => Ok (match lookup k d with Some x => x | None => default end)
  | _ => Raised AttributeError
  end.

(** [s.startswith(p)]. *)
Definition startswith (s p : string) : bool := String.prefix p s.

(** ** Requests, responses and the backend *)

Inductive Method : Type := GET | POST | PUT.

Record FilePart : Type := mkFilePart {
  filename : string;
  content : list byte;
  content_type : string
}.

Inductive Payload : Type :=
| NoPayload
| JsonBody (v : json)
| Files (files : list (string * FilePart)).

Record Request : Type := mkRequest {
  method : Method;
  url : string;
  params : list (string * string);
  headers : list (string * string);
  payload : Payload;
  timeout : Z
}.

(** Why [Response.json()] refuses a text: it is not JSON; it is JSON with
    an integer literal longer than the interpreter converts (more than
    4300 digits by default); it is JSON nested deeper than the
    interpreter's recursion limit allows. *)
Inductive DecodeFailure : Type :=
| NotJSON
| IntegerTooLong
| NestingTooDeep.

(** [body] is what [Response.json()] decodes, [None] when the decoder
    refuses the text of the response; [decode_failure] tells why, and is
    read in that case only. *)
Record Response : Type := {
  status_code : Z;
  body : option json;
  decode_failure : DecodeFailure
}.

Definition mkResponse (s : Z) (b : option json) : Response :=
  Build_Response s b NotJSON.

Inductive Outcome : Type :=
| Replied (r : Response)
| Unreachable (detail : string).

Definition Exchange : Type := (Request * Outcome)%type.

(** The backend answers a request knowing the exchanges made before it. *)
Definition Backend : Type := list Exchange -> Request -> Outcome.

(** [os.getenv]. *)
Definition Env : Type := string -> option string.

Definition os_getenv (env : Env) (key default : string) : string :=
  match env key with Some v => v | None => default end.

(** What the decoder raises: [requests] turns the [json] module's
    [JSONDecodeError] into its own, and lets every other exception of the
    decoder through: the [ValueError] of the integer conversion, the
    [RecursionError] of the nested scanner. *)
Definition decode_error (f : DecodeFailure) : exn :=
  match f with
  | NotJSON => JSONDecodeError
  | IntegerTooLong => ValueError
  | NestingTooDeep => RecursionError
  end.

Definition response_json (r : Response) : Res json :=
  match body r with
  | Some v => Ok v
  | None => Raised (decode_error (decode_failure r))
  end.

Definition raise_for_status (r : Response) : Res unit :=
  if (400 <=? status_code r) && (status_code r <? 600)
  then Raised (HTTPError (status_code r))
  else Ok tt.

(** ** The script monad: exchanges so far, and exceptions *)

Definition M (A : Type) : Type := list Exchange -> Res A * list Exchange.

Definition ret {A : Type} (a : A) : M A := fun tr => (Ok a, tr).

Definition raise {A : Type} (e : exn) : M A := fun tr => (Raised e, tr).

Definition bind {A B : Type} (m : M A) (k : A -> M B) : M B :=
  fun tr =>
    match m tr with
    | (Ok a, tr') => k a tr'
    | (Raised e, tr') => (Raised e, tr')
    end.

Definition lift {A : Type} (r : Res A) : M A := fun tr => (r, tr).

Notation "x <- m ;; k" := (bind m (fun x => k))
  (at level 61, m at next level, right associativity).
Notation "m ;; k" := (bind m (fun _ => k))
  (at level 61, right associativity).

(** [try: m except C: h]: [handler e] is [Some h] when a clause matches. *)
Definition try_except {A : Type} (m : M A) (handler : exn -> option (M A)) : M A :=
  fun tr =>
    match m tr with
    | (Ok a, tr') => (Ok a, tr')
    | (Raised e, tr') =>
        match handler e with
        | Some h => h tr'
        | None => (Raised e, tr')
        end
    end.

(** [except C as e: h e]. *)
Definition except {A : Type} (cls : exn -> bool) (h : exn -> M A) (e : exn) : option (M A) :=
  if cls e then Some (h e) else None.

(** [assert c, msg]. *)
Definition assert_ (c : bool) (msg : list part) : M unit :=
  if c then ret tt else raise (AssertionError msg).

(** [for x in l: body x]. *)
Fixpoint for_each {A : Type} (l : list A) (body : A -> M unit) : M unit :=
  match l with
  | [] => ret tt
  | x :: l' => body x ;; for_each l' body
  end.

Definition send (backend : Backend) (rq : Request) : M Response :=
  fun tr =>
    let o := backend tr rq in
    match o with
    | Replied r => (Ok r, (tr ++ [(rq, o)])%list)
    | Unreachable d => (Raised (ConnectionError d), (tr ++ [(rq, o)])%list)
    end.

Definition requests_get (backend : Backend) (u : string)
    (hs : list (string * string)) (ps : list (string * string)) (t : Z) : M Response :=
  send backend (mkRequest GET u ps hs NoPayload t).

Definition requests_post (backend : Backend) (u : string) (p : Payload)
    (hs : list (string * string)) (t : Z) : M Response :=
  send backend (mkRequest POST u [] hs p t).

Definition requests_put (backend : Backend) (u : string) (p : Payload)
    (hs : list (string * string)) (t : Z) : M Response :=
  send backend (mkRequest PUT u [] hs p t).

(** A script passes when it returns without raising. *)
Definition passes {A : Type} (r : Res A * list Exchange) : Prop :=
  exists a, fst r = Ok a.

Definition passesb {A : Type} (r : Res A * list Exchange) : bool :=
  match fst r with Ok _ => true | Raised _ => false end.

(** The requests a run sent, in order. *)
Definition sent (r : list Exchange) : list Request := map fst r.

(** Every request a computation sends satisfies [P], whatever its outcome. *)
Definition sends_only (P : Request -> Prop) {A : Type} (m : M A) : Prop :=
  forall tr res tr',
    m tr = (res, tr') ->
    exists new, tr' = (tr ++ new)%list /\ Forall (fun x => P (fst x)) new.

(** *** More builtins *)

(** [len(v)]. *)
Definition py_len (v : json) : Res Z :=
  match v with
  | JStr s => Ok (Z.of_nat (String.length s))
  | JList l => Ok (Z.of_nat (List.length l))
  | JDict d => Ok (Z.of_nat (List.length d))
  | _ => Raised TypeError
  end.

(** [v[0]]; the scripts subscript a value by [0] only after checking that
    it is a non-empty list. *)
Definition py_first (v : json) : Res json :=
  match v with
  | JList (x :: _) => Ok x
  | JList [] => Raised IndexError
  | JStr (String c _) => Ok (JStr (String c EmptyString))
  | JStr EmptyString => Raised IndexError
  | JDict _ => Raised (KeyError "0")
  | _ => Raised TypeError
  end.

(** The items [for x in v] iterates over. *)
Definition py_iter (v : json) : Res (list json) :=
  match v with
  | JList l => Ok l
  | JDict d => Ok (map JStr (keys d))
  | JStr s => Ok (map (fun c => JStr (String c EmptyString)) (list_ascii_of_string s))
  | _ => Raised TypeError
  end.

(** [any(k in v for k in ks)]. *)
Fixpoint any_in (ks : list string) (v : json) : Res bool :=
  match ks with
  | [] => Ok false
  | k :: ks' =>
      match py_in k v with
      | Ok true => Ok true
      | Ok false => any_in ks' v
      | Raised e => Raised e
      end
  end.

(** [enumerate(l, start)]. *)
Fixpoint enumerate {A : Type} (l : list A) (start : Z) : list (Z * A) :=
  match l with
  | [] => []
  | x :: l' => (start, x) :: enumerate l' (start + 1)
  end.

(** [f"{v}"] for a value the script has checked to be a [str]. *)
Definition format_str (v : json) : string :=
  match v with JStr s => s | _ => "" end.

(** ** TC001: sign-in with valid and invalid credentials *)

Module TC001.
Section Script.
Variable env : Env.
Variable backend : Backend.

Definition BASE_URL : string := os_getenv env "TEST_BASE_URL" "http://localhost:8081".
Definition TIMEOUT : Z := 30.
Definition HEADERS : list (string * string) := [("Content-Type", "application/json")].

Definition signin_url : string := BASE_URL ++ "/auth/signin".

Definition valid_email : string := os_getenv env "TEST_VALID_EMAIL" "test@example.com".
Definition valid_password : string := os_getenv env "TEST_VALID_PASSWORD" "password123".

Definition invalid_email : string := "invaliduser@example.com".
Definition invalid_password : string := "wrongpassword".

Definition valid_payload : json :=
  JDict [("email", JStr valid_email); ("password", JStr valid_password)].

(** The request [requests.post(signin_url, json=p, headers=HEADERS,
    timeout=TIMEOUT)] sends. *)
Definition signin_request (p : json) : Request :=
  mkRequest POST signin_url [] HEADERS (JsonBody p) TIMEOUT.

(** Lines 25-40: the request with valid credentials and its checks. *)
Definition valid_credentials_check : M unit :=
  res_valid <-
    try_except
      (requests_post backend signin_url (JsonBody valid_payload) HEADERS TIMEOUT)
      (except is_RequestException (fun e =>
         raise (AssertionError [Lit "Request with valid credentials failed: "; Exc e]))) ;;
  assert_ (status_code res_valid =? 200)
    [Lit "Expected 200 for valid credentials but got "; Val (JInt (status_code res_valid))] ;;
  json_data <-
    try_except
      (lift (response_json res_valid))
      (except is_ValueError (fun _ =>
         raise (AssertionError [Lit "Response for valid credentials is not valid JSON"]))) ;;
  has_user <- lift (py_in "user" json_data) ;;
  assert_ has_user [Lit "'user' field missing in valid signin response"] ;;
  user <- lift (py_getitem json_data "user") ;;
  assert_ (isinstance_dict user) [Lit "'user' field is not an object"] ;;
  has_token <- lift (py_in "token" json_data) ;;
  assert_ has_token [Lit "'token' field missing in valid signin response"] ;;
  token <- lift (py_getitem json_data "token") ;;
  assert_ (match token with
           | JStr s => 0 <? Z.of_nat (String.length s)
           | _ => false
           end)
    [Lit "Invalid 'token' value"].

Definition invalid_email_payload : json :=
  JDict [("email", JStr invalid_email); ("password", JStr valid_password)].

(** Lines 42-53. *)
Definition invalid_email_check : M Response :=
  res_invalid_email <-
    try_except
      (requests_post backend signin_url (JsonBody invalid_email_payload) HEADERS TIMEOUT)
      (except is_RequestException (fun e =>
         raise (AssertionError [Lit "Request with invalid email failed: "; Exc e]))) ;;
  assert_ (negb (status_code res_invalid_email =? 200))
    [Lit "Signin succeeded with invalid email, expected failure"] ;;
  ret res_invalid_email.

Definition invalid_password_payload : json :=
  JDict [("email", JStr valid_email); ("password", JStr invalid_password)].

(** Lines 55-65. *)
Definition invalid_password_check : M Response :=
  res_invalid_password <-
    try_except
      (requests_post backend signin_url (JsonBody invalid_password_payload) HEADERS TIMEOUT)
      (except is_RequestException (fun e =>
         raise (AssertionError [Lit "Request with invalid password failed: "; Exc e]))) ;;
  assert_ (negb (status_code res_invalid_password =? 200))
    [Lit "Signin succeeded with invalid password, expected failure"] ;;
  ret res_invalid_password.

(** Lines 69-77: the body of the loop over the two error responses. *)
Definition error_structure_check (res : Response) : M unit :=
  try_except
    (json_error <- lift (response_json res) ;;
     assert_ (isinstance_dict json_error) [Lit "Error response is not a JSON object"] ;;
     has_error_msg <- lift (any_in ["error"; "message"; "detail"] json_error) ;;
     n <- lift (py_len json_error) ;;
     assert_ (has_error_msg || (n =? 0)) [Lit "Error response does not contain error info"])
    (except is_ValueError (fun _ => ret tt)).

Definition test_signin_with_valid_and_invalid_credentials : M unit :=
  valid_credentials_check ;;
  res_invalid_email <- invalid_email_check ;;
  res_invalid_password <- invalid_password_check ;;
  for_each [res_invalid_email; res_invalid_password] error_structure_check.

End Script.
End TC001.

(** ** TC002: sign-up with valid and invalid data *)

Module TC002.
Section Script.
Variable env : Env.
Variable backend : Backend.
(** [str(uuid.uuid4())], drawn once per run. *)
Variable uuid : string.

Definition BASE_URL : string := os_getenv env "TEST_BASE_URL" "http://localhost:8081".
Definition TIMEOUT : Z := 30.
Definition HEADERS : list (string * string) := [("Content-Type", "application/json")].

Definition signup_url : string := BASE_URL ++ "/auth/signup".

Definition test_password : string := os_getenv env "TEST_VALID_PASSWORD" "ValidPass123".

Definition valid_user : json :=
  JDict [("name", JStr "Test User");
         ("email", JStr ("testuser_" ++ uuid ++ "@example.com"));
         ("password", JStr test_password)].

(** The request [requests.post(signup_url, json=p, headers=HEADERS,
    timeout=TIMEOUT)] sends. *)
Definition signup_request (p : json) : Request :=
  mkRequest POST signup_url [] HEADERS (JsonBody p) TIMEOUT.

Definition invalid_users : list json :=
  [ JDict [];
    JDict [("name", JStr "NoEmailUser"); ("password", JStr test_password)];
    JDict [("email", JStr "no_name@example.com"); ("password", JStr test_password)];
    JDict [("name", JStr "NoPasswordUser"); ("email", JStr "nopassword@example.com")];
    JDict [("name", JStr "ShortPass"); ("email", JStr "shortpass@example.com");
           ("password", JStr "short")];
    JDict [("name", JStr "InvalidEmail"); ("email", JStr "invalidemail");
           ("password", JStr test_password)] ].

(** Lines 42-45: [user_id], [None] when the response carries no id. *)
Definition capture_user_id (resp_json : json) : Res json :=
  match py_in "id" resp_json with
  | Raised e => Raised e
  | Ok true => py_getitem resp_json "id"
  | Ok false =>
      match py_in "user" resp_json with
      | Raised e => Raised e
      | Ok false => Ok JNull
      | Ok true =>
          match py_getitem resp_json "user" with
          | Raised e => Raised e
          | Ok user =>
              match py_in "id" user with
              | Raised e => Raised e
              | Ok false => Ok JNull
              | Ok true =>
                  match py_getitem resp_json "user" with
                  | Raised e => Raised e
                  | Ok user' => py_getitem user' "id"
                  end
              end
          end
      end
  end.

(** [resp_json.get(k, resp_json.get("user", {}).get(k))]. *)
Definition field_or_user_field (resp_json : json) (k : string) : Res json :=
  match py_get resp_json "user" (JDict []) with
  | Raised e => Raised e
  | Ok user =>
      match py_get user k JNull with
      | Raised e => Raised e
      | Ok nested => py_get resp_json k nested
      end
  end.

(** Lines 35-47: the valid sign-up and its checks. *)
Definition valid_signup_check : M unit :=
  response <- requests_post backend signup_url (JsonBody valid_user) HEADERS TIMEOUT ;;
  assert_ ((status_code response =? 201) || (status_code response =? 200))
    [Lit "Expected 200 or 201, got "; Val (JInt (status_code response))] ;;
  resp_json <- lift (response_json response) ;;
  assert_ (isinstance_dict resp_json) [Lit "Response is not a JSON object"] ;;
  has_id <- lift (py_in "id" resp_json) ;;
  has_user <- lift (py_in "user" resp_json) ;;
  assert_ (has_id || has_user) [Lit "Response missing 'id' or 'user'"] ;;
  user_id <- lift (capture_user_id resp_json) ;;
  name <- lift (field_or_user_field resp_json "name") ;;
  expected_name <- lift (py_getitem valid_user "name") ;;
  assert_ (py_eq name expected_name) [] ;;
  email <- lift (field_or_user_field resp_json "email") ;;
  expected_email <- lift (py_getitem valid_user "email") ;;
  assert_ (py_eq email expected_email) [].

(** Lines 51-53: the body of the loop over [invalid_users]. *)
Definition invalid_signup_check (invalid_user : json) : M unit :=
  resp <- requests_post backend signup_url (JsonBody invalid_user) HEADERS TIMEOUT ;;
  assert_ ((400 <=? status_code resp) && (status_code resp <? 500))
    [Lit "Expected 4xx status code for invalid data, got "; Val (JInt (status_code resp))].

(** The [finally] clause only holds [pass]. *)
Definition test_signup_with_valid_and_invalid_data : M unit :=
  valid_signup_check ;;
  for_each invalid_users invalid_signup_check.

End Script.
End TC002.

(** ** TC003: lessons by level and language *)

Module TC003.
Section Script.
Variable env : Env.
Variable backend : Backend.

Definition BASE_URL : string := os_getenv env "TEST_BASE_URL" "http://localhost:8081".
Definition TIMEOUT : Z := 30.
Definition headers : list (string * string) := [("Accept", "application/json")].

Definition valid_level : string := "B1".
Definition valid_language : string := "English".
Definition params_valid : list (string * string) :=
  [("level", valid_level); ("language", valid_language)].

(** The request [requests.get(f"{BASE_URL}/lessons", headers=headers,
    params=ps, timeout=TIMEOUT)] sends. *)
Definition lessons_request (ps : list (string * string)) : Request :=
  mkRequest GET (BASE_URL ++ "/lessons") ps headers NoPayload TIMEOUT.

(** Lines 33-39: the body of the loop over the lessons. *)
Definition lesson_check (lesson : json) : M unit :=
  assert_ (isinstance_dict lesson) [Lit "Each lesson should be a dictionary"] ;;
  has_level <- lift (py_in "level" lesson) ;;
  assert_ has_level [Lit "Lesson missing 'level' field"] ;;
  has_title <- lift (py_in "title" lesson) ;;
  assert_ has_title [Lit "Lesson missing 'title' field"] ;;
  has_id <- lift (py_in "lessonId" lesson) ;;
  assert_ has_id [Lit "Lesson missing 'lessonId' field"] ;;
  level <- lift (py_getitem lesson "level") ;;
  assert_ (py_eq level (JStr valid_level))
    [Lit "Lesson level "; Val level; Lit " does not match requested level "; Lit valid_level].

(** Lines 22-39: the request with level and language, and the filter check. *)
Definition level_filter_check : M unit :=
  response <- requests_get backend (BASE_URL ++ "/lessons") headers params_valid TIMEOUT ;;
  assert_ (status_code response =? 200)
    [Lit "Expected status 200, got "; Val (JInt (status_code response))] ;;
  lessons <- lift (response_json response) ;;
  assert_ (isinstance_list lessons) [Lit "Expected response to be a list"] ;;
  items <- lift (py_iter lessons) ;;
  for_each items lesson_check.

(** Lines 42-74: the three requests that only expect a list. *)
Definition list_check (ps : list (string * string)) : M unit :=
  response <- requests_get backend (BASE_URL ++ "/lessons") headers ps TIMEOUT ;;
  assert_ (status_code response =? 200) [] ;;
  lessons <- lift (response_json response) ;;
  assert_ (isinstance_list lessons) [].

Definition params_level_only : list (string * string) := [("level", valid_level)].
Definition params_language_only : list (string * string) := [("language", valid_language)].

(** Lines 76-95 and 97-114: a request with a malformed parameter. *)
Definition malformed_param_check (ps : list (string * string)) : M unit :=
  response <- requests_get backend (BASE_URL ++ "/lessons") headers ps TIMEOUT ;;
  assert_ ((status_code response =? 200) || (status_code response =? 400)) [] ;;
  if status_code response =? 200 then
    lessons <- lift (response_json response) ;;
    assert_ (isinstance_list lessons) []
  else
    error_json <-
      try_except (lift (response_json response))
        (except is_Exception (fun _ => ret JNull)) ;;
    assert_ (negb (is_None error_json)) [Lit "Error response missing JSON body"].

Definition params_invalid_level : list (string * string) :=
  [("level", "Z9"); ("language", valid_language)].
Definition params_invalid_language : list (string * string) :=
  [("level", valid_level); ("language", "1234$%")].

Definition test_get_lessons_with_valid_level_and_language_parameters : M unit :=
  try_except
    (level_filter_check ;;
     list_check params_level_only ;;
     list_check params_language_only ;;
     list_check [] ;;
     malformed_param_check params_invalid_level ;;
     malformed_param_check params_invalid_language)
    (except is_RequestException (fun e =>
       raise (AssertionError [Lit "Request failed: "; Exc e]))).

End Script.
End TC003.

(** ** TC004: start a lesson with a valid and an invalid lessonId *)

Module TC004.
Section Script.
Variable env : Env.
Variable backend : Backend.

Definition BASE_URL : string := os_getenv env "TEST_BASE_URL" "http://localhost:8081".
Definition TIMEOUT : Z := 30.

Definition lessons_request : Request :=
  mkRequest GET (BASE_URL ++ "/lessons") [] [] NoPayload TIMEOUT.

Definition start_request (lesson_id : string) : Request :=
  mkRequest POST (BASE_URL ++ "/lessons/" ++ lesson_id ++ "/start") [] [] NoPayload TIMEOUT.

(** The precursor data of the script: the string ["lessonId"] of the first
    item of a body that is a list, if there is one. *)
Definition first_lesson_id (b : option json) : option string :=
  match b with
  | Some (JList (JDict d :: _)) =>
      match lookup "lessonId" d with
      | Some (JStr s) => Some s
      | _ => None
      end
  | _ => None
  end.

(** Lines 11-18: fetch the lessons and take the first lesson's id. *)
Definition fetch_valid_lesson_id : M json :=
  lessons_resp <- requests_get backend (BASE_URL ++ "/lessons") [] [] TIMEOUT ;;
  lift (raise_for_status lessons_resp) ;;
  lessons <- lift (response_json lessons_resp) ;;
  assert_ (isinstance_list lessons) [Lit "Lessons response should be a list"] ;;
  n <- lift (py_len lessons) ;;
  assert_ (0 <? n) [Lit "No lessons available to test"] ;;
  first <- lift (py_first lessons) ;;
  valid_lesson_id <- lift (py_get first "lessonId" JNull) ;;
  assert_ (truthy valid_lesson_id && isinstance_str valid_lesson_id)
    [Lit "Invalid lessonId from lessons list"] ;;
  ret valid_lesson_id.

(** Lines 21-22. *)
Definition valid_start_check (valid_lesson_id : json) : M unit :=
  start_resp <-
    requests_post backend (BASE_URL ++ "/lessons/" ++ format_str valid_lesson_id ++ "/start")
      NoPayload [] TIMEOUT ;;
  assert_ (status_code start_resp =? 200)
    [Lit "Expected 200 for valid lessonId, got "; Val (JInt (status_code start_resp))].

Definition invalid_lesson_ids : list string :=
  [""; "invalidLesson123"; "00000000-0000-0000-0000-000000000000"].

(** Lines 27-29: the body of the loop over [invalid_lesson_ids]. *)
Definition invalid_start_check (invalid_id : string) : M unit :=
  resp <-
    requests_post backend (BASE_URL ++ "/lessons/" ++ invalid_id ++ "/start")
      NoPayload [] TIMEOUT ;;
  assert_ ((status_code resp =? 400) || (status_code resp =? 404))
    [Lit "Expected 400 or 404 for invalid lessonId '"; Lit invalid_id; Lit "', got ";
     Val (JInt (status_code resp))].

(** Lines 31-34: the two [except] clauses; each re-raises an
    [AssertionError]. *)
Definition handlers (e : exn) : option (M unit) :=
  if is_RequestException e then
    Some (raise (AssertionError [Lit "HTTP request failed: "; Exc e]))
  else if is_AssertionError e then
    Some (raise (AssertionError [Lit "Assertion failed: "; Exc e]))
  else None.

Definition test_start_lesson_with_valid_and_invalid_lessonid : M unit :=
  try_except
    (valid_lesson_id <- fetch_valid_lesson_id ;;
     valid_start_check valid_lesson_id ;;
     for_each invalid_lesson_ids invalid_start_check)
    handlers.

End Script.
End TC004.

(** ** TC007: supported languages *)

Module TC007.
Section Script.
Variable env : Env.
Variable backend : Backend.

Definition BASE_URL : string := os_getenv env "TEST_BASE_URL" "http://localhost:8081".
Definition TIMEOUT : Z := 30.

Definition url : string := BASE_URL ++ "/languages".
Definition headers : list (string * string) := [("Accept", "application/json")].

Definition languages_request : Request :=
  mkRequest GET url [] headers NoPayload TIMEOUT.

Definition required_keys : list string := ["code"; "name"; "nativeName"; "flag"].

(** [required_keys.issubset(lang_keys)] and [required_keys - lang_keys]. *)
Definition issubset (ks lang_keys : list string) : bool :=
  forallb (fun k => existsb (String.eqb k) lang_keys) ks.

Definition difference (ks lang_keys : list string) : list string :=
  filter (fun k => negb (existsb (String.eqb k) lang_keys)) ks.

(** [isinstance(lang[k], str) and lang[k]]. *)
Definition nonempty_str_field (lang : json) (k : string) : Res bool :=
  match py_getitem lang k with
  | Raised e => Raised e
  | Ok v => Ok (isinstance_str v && truthy v)
  end.

(** Lines 28-35: the body of the loop over the languages. *)
Definition language_check (lang : json) : M unit :=
  assert_ (isinstance_dict lang) [Lit "Each language entry should be a dict"] ;;
  let lang_keys := match lang with JDict d => keys d | _ => [] end in
  assert_ (issubset required_keys lang_keys)
    [Lit "Language object missing required keys: "; Keys (difference required_keys lang_keys)] ;;
  c <- lift (nonempty_str_field lang "code") ;;
  assert_ c [Lit "Language code must be a non-empty string"] ;;
  c <- lift (nonempty_str_field lang "name") ;;
  assert_ c [Lit "Language name must be a non-empty string"] ;;
  c <- lift (nonempty_str_field lang "nativeName") ;;
  assert_ c [Lit "nativeName must be a non-empty string"] ;;
  c <- lift (nonempty_str_field lang "flag") ;;
  assert_ c [Lit "Flag must be a non-empty string"].

Definition expected_language_codes : list string := ["en"; "es"; "fr"; "it"; "hr"; "zh"].

(** [{lang["code"] for lang in languages}]. *)
Fixpoint found_codes (languages : list json) : Res (list json) :=
  match languages with
  | [] => Ok []
  | lang :: rest =>
      match py_getitem lang "code" with
      | Raised e => Raised e
      | Ok c =>
          match found_codes rest with
          | Raised e => Raised e
          | Ok cs => Ok (c :: cs)
          end
      end
  end.

(** [expected_language_codes - found_codes]. *)
Definition missing_codes (found : list json) : list string :=
  filter (fun c => negb (existsb (py_eq (JStr c)) found)) expected_language_codes.

Definition test_get_supported_languages : M unit :=
  response <-
    try_except
      (response <- requests_get backend url headers [] TIMEOUT ;;
       lift (raise_for_status response) ;;
       ret response)
      (except is_RequestException (fun e =>
         raise (AssertionError [Lit "GET /languages request failed: "; Exc e]))) ;;
  languages <-
    try_except (lift (response_json response))
      (except is_ValueError (fun _ =>
         raise (AssertionError [Lit "Response is not valid JSON"]))) ;;
  assert_ (isinstance_list languages) [Lit "Response should be a list"] ;;
  items <- lift (py_iter languages) ;;
  for_each items language_check ;;
  found <- lift (found_codes items) ;;
  assert_ (match missing_codes found with [] => true | _ => false end)
    [Lit "Missing expected language codes: "; Keys (missing_codes found)].

End Script.
End TC007.

(** ** TC008: update the user's language settings *)

Module TC008.
Section Script.
Variable env : Env.
Variable backend : Backend.

Definition BASE_URL : string := os_getenv env "TEST_BASE_URL" "http://localhost:8081".
Definition TIMEOUT : Z := 30.

Definition url : string := BASE_URL ++ "/user/language-settings".
Definition headers : list (string * string) := [("Content-Type", "application/json")].

Definition valid_payload : list (string * json) :=
  [("mainLanguage", JStr "en");
   ("targetLanguage", JStr "fr");
   ("showTranslations", JBool true);
   ("showPhonetics", JBool false)].

Definition put_request (p : json) : Request :=
  mkRequest PUT url [] headers (JsonBody p) TIMEOUT.

(** Lines 28-29: the body of the loop over [valid_payload.items()]. *)
Definition echo_check (resp_json : json) (item : string * json) : M unit :=
  let (key, value) := item in
  has_key <- lift (py_in key resp_json) ;;
  assert_ has_key [Lit "Response missing '"; Lit key; Lit "'"] ;;
  got <- lift (py_getitem resp_json key) ;;
  assert_ (py_eq got value)
    [Lit "Expected "; Lit key; Lit "="; Val value; Lit ", got "; Val got].

(** Lines 24-29: the valid update and the echo of its fields. *)
Definition valid_update_check : M unit :=
  response <- requests_put backend url (JsonBody (JDict valid_payload)) headers TIMEOUT ;;
  assert_ (status_code response =? 200)
    [Lit "Expected status 200, got "; Val (JInt (status_code response))] ;;
  resp_json <- lift (response_json response) ;;
  for_each valid_payload (echo_check resp_json).

Definition invalid_payloads : list json :=
  [ JDict [];
    JDict [("mainLanguage", JInt 123); ("targetLanguage", JStr "fr");
           ("showTranslations", JBool true); ("showPhonetics", JBool false)];
    JDict [("mainLanguage", JStr "en"); ("targetLanguage", JNull);
           ("showTranslations", JBool true); ("showPhonetics", JBool false)];
    JDict [("mainLanguage", JStr "en"); ("targetLanguage", JStr "fr");
           ("showTranslations", JStr "yes"); ("showPhonetics", JBool false)];
    JDict [("mainLanguage", JStr "en"); ("targetLanguage", JStr "fr");
           ("showTranslations", JBool true)] ].

(** Lines 41-42: the body of the loop over the invalid payloads. *)
Definition invalid_update_check (item : Z * json) : M unit :=
  let (idx, inval_payload) := item in
  r <- requests_put backend url (JsonBody inval_payload) headers TIMEOUT ;;
  assert_ ((400 <=? status_code r) && (status_code r <? 500))
    [Lit "Invalid payload "; Val (JInt idx); Lit " expected 4xx error, got ";
     Val (JInt (status_code r))].

Definition test_update_user_language_settings : M unit :=
  try_except
    (valid_update_check ;;
     for_each (enumerate invalid_payloads 1) invalid_update_check)
    (except is_RequestException (fun e =>
       raise (AssertionError [Lit "Request failed: "; Exc e]))).

End Script.
End TC008.

(** ** TC009: speech to text *)

Module TC009.
Section Script.
Variable env : Env.
Variable backend : Backend.

Definition BASE_URL : string := os_getenv env "TEST_BASE_URL" "http://localhost:8081".
Definition TIMEOUT : Z := 30.

Definition url : string := BASE_URL ++ "/speech/recognize".
Definition headers : list (string * string) := [].

Definition valid_audio_content : list byte :=
  (list_byte_of_string "RIFF$" ++ [x00; x00; x00]
   ++ list_byte_of_string "WAVEfmt " ++ [x10; x00; x00; x00; x01; x00; x01; x00]
   ++ [x40; x1f; x00; x00; x80] ++ list_byte_of_string ">"
   ++ [x00; x00; x00; x00; x00; x00] ++ list_byte_of_string "data"
   ++ [x00; x00; x00; x00])%list.

Definition files_valid : list (string * FilePart) :=
  [("audio", mkFilePart "test.wav" valid_audio_content "audio/wav")].

Definition float_zero : spec_float := S754_zero false.
(** [1.0] in binary64: mantissa [2^52], exponent [-52]. *)
Definition float_one : spec_float := S754_finite false 4503599627370496 (-52).

(** [0.0 <= v <= 1.0] for a number [v]. *)
Definition in_unit_interval (v : json) : bool :=
  match as_number v with
  | Some x => num_leb (NFloat float_zero) x && num_leb x (NFloat float_one)
  | None => false
  end.

(** The handler of the three [try] blocks. *)
Definition reraise (prefix : string) : exn -> option (M unit) :=
  except (fun e => is_RequestException e || is_AssertionError e)
    (fun e => raise (AssertionError [Lit prefix; Exc e])).

(** Lines 22-33: the upload of a valid audio file. *)
Definition valid_audio_check : M unit :=
  try_except
    (response <- requests_post backend url (Files files_valid) headers TIMEOUT ;;
     assert_ (status_code response =? 200)
       [Lit "Expected 200, got "; Val (JInt (status_code response))] ;;
     json_data <- lift (response_json response) ;;
     has_text <- lift (py_in "text" json_data) ;;
     assert_ has_text [Lit "Response JSON missing 'text' field"] ;;
     text <- lift (py_getitem json_data "text") ;;
     assert_ (isinstance_str text) [Lit "'text' field is not a string"] ;;
     has_confidence <- lift (py_in "confidence" json_data) ;;
     assert_ has_confidence [Lit "Response JSON missing 'confidence' field"] ;;
     confidence <- lift (py_getitem json_data "confidence") ;;
     assert_ (isinstance_float_int confidence) [Lit "'confidence' field is not a number"] ;;
     assert_ (in_unit_interval confidence) [Lit "'confidence' is out of range 0.0 to 1.0"])
    (reraise "Valid audio upload failed: ").

Definition files_invalid : list (string * FilePart) :=
  [("audio", mkFilePart "test.txt" (list_byte_of_string "This is not audio data") "text/plain")].

Definition invalid_audio_request : Request :=
  mkRequest POST url [] headers (Files files_invalid) TIMEOUT.

(** Lines 37-51: the upload of a file that is not audio. *)
Definition invalid_audio_check : M unit :=
  try_except
    (response <- requests_post backend url (Files files_invalid) headers TIMEOUT ;;
     assert_ (negb (status_code response =? 500)) [Lit "Server error on invalid audio input"] ;;
     if status_code response =? 200 then
       json_data <- lift (response_json response) ;;
       text <- lift (py_get json_data "text" JNull) ;;
       confidence <- lift (py_get json_data "confidence" JNull) ;;
       assert_ ((is_None text || py_eq text (JStr ""))
                || (is_None confidence || py_eq confidence (JInt 0)))
         [Lit "Invalid audio should not produce valid text or confidence"]
     else
       assert_ ((400 <=? status_code response) && (status_code response <? 500))
         [Lit "Expected client error status for invalid audio"])
    (reraise "Invalid audio upload handling failed: ").

(** Lines 54-61: the request without a file. *)
Definition missing_audio_check : M unit :=
  try_except
    (response <- requests_post backend url (Files []) headers TIMEOUT ;;
     assert_ (negb (status_code response =? 500)) [Lit "Server error on missing audio input"] ;;
     assert_ ((400 <=? status_code response) && (status_code response <? 500))
       [Lit "Expected client error status for missing audio"])
    (reraise "Missing audio handling failed: ").

Definition test_speech_to_text_conversion : M unit :=
  valid_audio_check ;;
  invalid_audio_check ;;
  missing_audio_check.

End Script.
End TC009.

(** ** TC010: text to speech *)

Module TC010.
Section Script.
Variable env : Env.
Variable backend : Backend.

Definition BASE_URL : string := os_getenv env "TEST_BASE_URL" "http://localhost:8081".
Definition TIMEOUT : Z := 30.
Definition HEADERS : list (string * string) := [("Content-Type", "application/json")].

Definition synthesize_url : string := BASE_URL ++ "/speech/synthesize".

Definition synthesize_request (p : json) : Request :=
  mkRequest POST synthesize_url [] HEADERS (JsonBody p) TIMEOUT.

Definition valid_payload : json :=
  JDict [("text", JStr "Hello, world!"); ("language", JStr "en"); ("voice", JStr "default")].

(** Every [try] block of the script ends in [except Exception as e]. *)
Definition on_exception (prefix : string) : exn -> option (M unit) :=
  except is_Exception (fun e => raise (AssertionError [Lit prefix; Exc e])).

(** Lines 19-27: the valid request. *)
Definition valid_synthesis_check : M unit :=
  try_except
    (response <- requests_post backend synthesize_url (JsonBody valid_payload) HEADERS TIMEOUT ;;
     assert_ (status_code response =? 200)
       [Lit "Expected 200, got "; Val (JInt (status_code response))] ;;
     json_resp <- lift (response_json response) ;;
     has_url <- lift (py_in "audioUrl" json_resp) ;;
     assert_ has_url [Lit "Response JSON missing 'audioUrl'"] ;;
     audio_url <- lift (py_getitem json_resp "audioUrl") ;;
     assert_ (match audio_url with JStr s => startswith s "http" | _ => false end)
       [Lit "'audioUrl' should be a valid URL string"])
    (on_exception "Exception during valid synthesis request: ").

(** Lines 34-38, 45-49, 56-60, 68-72 and 80-84: a request that must be
    refused, with the text of its assertion and of its handler. *)
Definition refused_check (p : json) (what during : string) : M unit :=
  try_except
    (response <- requests_post backend synthesize_url (JsonBody p) HEADERS TIMEOUT ;;
     assert_ (400 <=? status_code response) [Lit ("Expected client error status for " ++ what)])
    (on_exception ("Exception during " ++ during ++ " request: ")).

Definition missing_text_payload : json :=
  JDict [("language", JStr "en"); ("voice", JStr "default")].
Definition missing_language_payload : json :=
  JDict [("text", JStr "Hello again"); ("voice", JStr "default")].
Definition missing_voice_payload : json :=
  JDict [("text", JStr "Hello once more"); ("language", JStr "en")].
Definition invalid_language_payload : json :=
  JDict [("text", JStr "Bonjour"); ("language", JStr "xx-invalid"); ("voice", JStr "default")].
Definition invalid_voice_payload : json :=
  JDict [("text", JStr "Hola"); ("language", JStr "es"); ("voice", JStr "unknown-voice")].

Definition test_text_to_speech_synthesis : M unit :=
  valid_synthesis_check ;;
  refused_check missing_text_payload "missing 'text'" "missing 'text'" ;;
  refused_check missing_language_payload "missing 'language'" "missing 'language'" ;;
  refused_check missing_voice_payload "missing 'voice'" "missing 'voice'" ;;
  refused_check invalid_language_payload "invalid 'language' value" "invalid 'language'" ;;
  refused_check invalid_voice_payload "invalid 'voice' value" "invalid 'voice'".

End Script.
End TC010.

(** ** TC005: the gamification state *)

Module TC005.
Section Script.
Variable env : Env.
Variable backend : Backend.

Definition BASE_URL : string := os_getenv env "TEST_BASE_URL" "http://localhost:8081".
Definition TIMEOUT : Z := 30.

Definition url : string := BASE_URL ++ "/gamification/state".
Definition headers : list (string * string) := [("Accept", "application/json")].

Definition state_request : Request :=
  mkRequest GET url [] headers NoPayload TIMEOUT.

(** The two classes [expected_fields] names. *)
Inductive py_type : Type := T_int | T_list.

(** [isinstance(v, t)]: [bool] is a subclass of [int]. *)
Definition isinstance_of (v : json) (t : py_type) : bool :=
  match t with
  | T_int => match v with JBool _ | JInt _ => true | _ => false end
  | T_list => isinstance_list v
  end.

(** [t.__name__]. *)
Definition type_name (t : py_type) : string :=
  match t with T_int => "int" | T_list => "list" end.

Definition expected_fields : list (string * py_type) :=
  [("xp", T_int); ("level", T_int); ("streak", T_int); ("hearts", T_int);
   ("gems", T_int); ("achievements", T_list)].

(** Lines 32-33: the body of the loop over [expected_fields.items()]. *)
Definition field_check (json_data : json) (item : string * py_type) : M unit :=
  let (field, expected_type) := item in
  has_field <- lift (py_in field json_data) ;;
  assert_ has_field [Lit "Missing field '"; Lit field; Lit "' in response"] ;;
  value <- lift (py_getitem json_data field) ;;
  assert_ (isinstance_of value expected_type)
    [Lit "Field '"; Lit field; Lit "' is not of type "; Lit (type_name expected_type)].

(** Line 37: the body of the loop over the achievements. *)
Definition achievement_check (achievement : json) : M unit :=
  assert_ (isinstance_str achievement) [Lit "Achievement item is not a string"].

Definition test_get_user_gamification_state : M unit :=
  response <-
    try_except
      (response <- requests_get backend url headers [] TIMEOUT ;;
       lift (raise_for_status response) ;;
       ret response)
      (except is_RequestException (fun e =>
         raise (AssertionError [Lit "Request to "; Lit url; Lit " failed: "; Exc e]))) ;;
  json_data <- lift (response_json response) ;;
  assert_ (isinstance_dict json_data) [Lit "Response is not a JSON object"] ;;
  for_each expected_fields (field_check json_data) ;;
  achievements <- lift (py_getitem json_data "achievements") ;;
  items <- lift (py_iter achievements) ;;
  for_each items achievement_check.

End Script.
End TC005.

(** ** TC006: the list of achievements *)

Module TC006.
Section Script.
Variable env : Env.
Variable backend : Backend.

Definition BASE_URL : string := os_getenv env "TEST_BASE_URL" "http://localhost:8081".
Definition TIMEOUT : Z := 30.

Definition url : string := BASE_URL ++ "/gamification/achievements".
Definition headers : list (string * string) := [("Accept", "application/json")].

Definition achievements_request : Request :=
  mkRequest GET url [] headers NoPayload TIMEOUT.

Definition isinstance_bool (v : json) : bool :=
  match v with JBool _ => true | _ => false end.

(** [k in achievement and isinstance(achievement[k], cls)]. *)
Definition has_field_of (cls : json -> bool) (achievement : json) (k : string) : Res bool :=
  match py_in k achievement with
  | Raised e => Raised e
  | Ok false => Ok false
  | Ok true =>
      match py_getitem achievement k with
      | Raised e => Raised e
      | Ok v => Ok (cls v)
      end
  end.

(** Lines 26-31: the body of the loop over the achievements. *)
Definition achievement_check (achievement : json) : M unit :=
  assert_ (isinstance_dict achievement) [Lit "Achievement item is not a dictionary"] ;;
  c <- lift (has_field_of isinstance_str achievement "id") ;;
  assert_ c [Lit "Achievement missing 'id' or not a string"] ;;
  c <- lift (has_field_of isinstance_str achievement "name") ;;
  assert_ c [Lit "Achievement missing 'name' or not a string"] ;;
  c <- lift (has_field_of isinstance_str achievement "description") ;;
  assert_ c [Lit "Achievement missing 'description' or not a string"] ;;
  c <- lift (has_field_of isinstance_str achievement "icon") ;;
  assert_ c [Lit "Achievement missing 'icon' or not a string"] ;;
  c <- lift (has_field_of isinstance_bool achievement "unlocked") ;;
  assert_ c [Lit "Achievement missing 'unlocked' or not a boolean"].

Definition test_get_user_achievements_list : M unit :=
  response <-
    try_except
      (response <- requests_get backend url headers [] TIMEOUT ;;
       lift (raise_for_status response) ;;
       ret response)
      (except is_RequestException (fun e =>
         raise (AssertionError [Lit "Request to /gamification/achievements failed: "; Exc e]))) ;;
  data <- lift (response_json response) ;;
  assert_ (isinstance_list data) [Lit "Response is not a list of achievements"] ;;
  items <- lift (py_iter data) ;;
  for_each items achievement_check.

End Script.
End TC006.

(** ** Exceptions a computation may raise *)

(** Every exception a computation raises satisfies [P]. *)
Definition raises_only (P : exn -> Prop) {A : Type} (m : M A) : Prop :=
  forall tr e tr', m tr = (Raised e, tr') -> P e.

(** ** Concrete environments and backends, used to run the scripts *)

Module Backends.

(** No variable of the environment is set. *)
Definition default_env : Env := fun _ => None.

Definition reply (s : Z) (v : json) : Outcome := Replied (mkResponse s (Some v)).

(** A backend that answers the [n]-th request of a run with the [n]-th
    outcome of a list, whatever the request. *)
Definition scripted (rs : list Outcome) : Backend :=
  fun tr _ => nth (List.length tr) rs (Unreachable "connection refused").

(** Sign-in succeeds. *)
Definition signin_ok : Outcome :=
  reply 200 (JDict [("user", JDict [("id", JInt 1)]); ("token", JStr "abc")]).

Definition unauthorized : Outcome :=
  reply 401 (JDict [("error", JStr "invalid credentials")]).

Definition signin_backend : Backend := scripted [signin_ok; unauthorized; unauthorized].

(** The settings endpoint echoes the submitted fields. *)
Definition exact_echo : Backend :=
  scripted [reply 200 (JDict [("mainLanguage", JStr "en"); ("targetLanguage", JStr "fr");
                              ("showTranslations", JBool true); ("showPhonetics", JBool false)])].

(** The settings endpoint answers with numbers where booleans were sent. *)
Definition numeric_echo : Backend :=
  scripted [reply 200 (JDict [("mainLanguage", JStr "en"); ("targetLanguage", JStr "fr");
                              ("showTranslations", JInt 1); ("showPhonetics", JInt 0)])].

(** Sign-in accepts the test credentials, and an empty object as well. *)
Definition lenient_signin : Backend :=
  fun _ rq =>
    match payload rq with
    | JsonBody (JDict []) => signin_ok
    | JsonBody (JDict d) =>
        match lookup "email" d, lookup "password" d with
        | Some (JStr e), Some (JStr p) =>
            if String.eqb e "test@example.com" && String.eqb p "password123"
            then signin_ok else unauthorized
        | _, _ => unauthorized
        end
    | _ => unauthorized
    end.

Definition created : Outcome :=
  reply 201 (JDict [("id", JInt 7); ("name", JStr "Test User");
                    ("email", JStr "testuser_0000@example.com")]).

Definition bad_request : Outcome :=
  reply 400 (JDict [("error", JStr "invalid request")]).

(** Sign-up creates the user, then refuses the six invalid payloads. *)
Definition signup_backend : Backend :=
  scripted [created; bad_request; bad_request; bad_request; bad_request; bad_request;
            bad_request].

(** The settings endpoint echoes the valid update, then refuses the five
    invalid payloads. *)
Definition settings_backend : Backend :=
  scripted [reply 200 (JDict [("mainLanguage", JStr "en"); ("targetLanguage", JStr "fr");
                              ("showTranslations", JBool true); ("showPhonetics", JBool false)]);
            bad_request; bad_request; bad_request; bad_request; bad_request].

(** Every request is answered with status 200 and an empty object. *)
Definition accepts_everything : Backend :=
  fun _ _ => reply 200 (JDict []).

(** The lessons endpoint answers with an empty list. *)
Definition no_lessons : Backend := scripted [reply 200 (JList [])].

Definition one_lesson : Outcome :=
  reply 200 (JList [JDict [("lessonId", JStr "lesson-1"); ("title", JStr "Greetings");
                           ("level", JStr "A1")]]).

(** The lessons endpoint answers with one lesson; starting it fails. *)
Definition start_fails : Backend := scripted [one_lesson; reply 500 (JDict [])].

(** No request reaches the backend. *)
Definition unreachable : Backend := scripted [].

(** The lessons endpoint answers with two lessons of level B1. *)
Definition b1_lessons : Backend :=
  scripted [reply 200 (JList [JDict [("lessonId", JStr "lesson-7"); ("title", JStr "Travel");
                                     ("level", JStr "B1")];
                              JDict [("lessonId", JStr "lesson-8"); ("title", JStr "Work");
                                     ("level", JStr "B1")]])].

Definition language (code name native flag : string) : json :=
  JDict [("code", JStr code); ("name", JStr name); ("nativeName", JStr native);
         ("flag", JStr flag)].

Definition six_languages : json :=
  JList [language "en" "English" "English" "gb";
         language "es" "Spanish" "Espanol" "es";
         language "fr" "French" "Francais" "fr";
         language "it" "Italian" "Italiano" "it";
         language "hr" "Croatian" "Hrvatski" "hr";
         language "zh" "Chinese" "Zhongwen" "cn"].

(** The languages endpoint answers with the six languages. *)
Definition languages_backend : Backend := scripted [reply 200 six_languages].

(** The same answer, with status 201. *)
Definition languages_201 : Backend := scripted [reply 201 six_languages].

(** Speech recognition answers the text file with a null text and
    confidence 1. *)
Definition null_text : Backend :=
  scripted [reply 200 (JDict [("text", JNull); ("confidence", JInt 1)])].

(** Speech recognition answers the text file with an empty list. *)
Definition list_body : Backend := scripted [reply 200 (JList [])].

(** Speech recognition answers the text file with a recognized text and
    confidence 0. *)
Definition zero_confidence : Backend :=
  scripted [reply 200 (JDict [("text", JStr "hello"); ("confidence", JInt 0)])].

(** Speech synthesis answers the valid request, and every other request
    with status 500. *)
Definition server_errors : Backend :=
  scripted [reply 200 (JDict [("audioUrl", JStr "http://cdn.example.com/a.mp3")]);
            reply 500 (JDict []); reply 500 (JDict []); reply 500 (JDict []);
            reply 500 (JDict []); reply 500 (JDict [])].

End Backends.

(** More backends, one per script that needs a passing run. *)
Module Flows.

(** Lessons: a filtered list, three lists, a refusal of the invalid level
    and an empty list for the invalid language. *)
Definition lessons_flow : Backend :=
  Backends.scripted
    [Backends.reply 200
       (JList [JDict [("lessonId", JStr "lesson-7"); ("title", JStr "Travel");
                      ("level", JStr "B1")]]);
     Backends.reply 200 (JList []); Backends.reply 200 (JList []);
     Backends.reply 200 (JList []);
     Backends.bad_request; Backends.reply 200 (JList [])].

(** Lesson start: one lesson, which starts; the invalid ids are refused. *)
Definition start_flow : Backend :=
  Backends.scripted
    [Backends.one_lesson; Backends.reply 200 (JDict []);
     Backends.reply 404 (JDict []); Backends.reply 400 (JDict []);
     Backends.reply 404 (JDict [])].

(** Gamification state, with a boolean where an integer is expected. *)
Definition state_with_bool : Backend :=
  Backends.scripted
    [Backends.reply 200
       (JDict [("xp", JBool true); ("level", JInt 3); ("streak", JInt 0);
               ("hearts", JInt 5); ("gems", JInt 10);
               ("achievements", JList [JStr "first-lesson"])])].

(** An answer whose body the decoder refuses. *)
Definition refused (s : Z) (f : DecodeFailure) : Outcome :=
  Replied (Build_Response s None f).

(** Lessons: a body nested deeper than the decoder follows. *)
Definition deep_lessons : Backend := Backends.scripted [refused 200 NestingTooDeep].

(** Lessons: a body with an integer of more digits than the decoder
    converts. *)
Definition long_integer_lessons : Backend :=
  Backends.scripted [refused 200 IntegerTooLong].

(** Sign-in succeeds, then is refused twice, the first time with a body
    nested too deep. *)
Definition deep_error_body : Backend :=
  Backends.scripted [Backends.signin_ok; refused 401 NestingTooDeep; Backends.unauthorized].

(** Sign-in succeeds, then is refused twice, with a body that is not JSON
    and with one that holds an integer too long. *)
Definition refused_error_bodies : Backend :=
  Backends.scripted [Backends.signin_ok; refused 401 NotJSON; refused 401 IntegerTooLong].

(** Gamification state: a body nested too deep. *)
Definition deep_state : Backend := Backends.scripted [refused 200 NestingTooDeep].

End Flows.

(** * Properties *)

(** ** Inversion of runs that return *)

Lemma passes_inv {A : Type} (r : Res A * list Exchange) :
  passes r -> exists a tr', r = (Ok a, tr').
Proof.
  intros [a H]. destruct r as [res tr']. cbn in H. subst res. now exists a, tr'.
Qed.

Lemma passes_intro {A : Type} (r : Res A * list Exchange) (a : A) (tr' : list Exchange) :
  r = (Ok a, tr') -> passes r.
Proof.
  intros ->. now exists a.
Qed.

Lemma bind_ok {A B : Type} (m : M A) (k : A -> M B) tr b tr' :
  bind m k tr = (Ok b, tr') ->
  exists a tr1, m tr = (Ok a, tr1) /\ k a tr1 = (Ok b, tr').
Proof.
  unfold bind. destruct (m tr) as [[a|e] tr1]; intros H.
  - now exists a, tr1.
  - discriminate H.
Qed.

Lemma bind_raised {A B : Type} (m : M A) (k : A -> M B) tr e tr' :
  m tr = (Raised e, tr') -> bind m k tr = (Raised e, tr').
Proof.
  unfold bind. now intros ->.
Qed.

Lemma bind_eq {A B : Type} (m : M A) (k : A -> M B) tr a tr1 :
  m tr = (Ok a, tr1) -> bind m k tr = k a tr1.
Proof.
  unfold bind. now intros ->.
Qed.

Lemma ret_ok {A : Type} (a b : A) tr tr' :
  ret a tr = (Ok b, tr') -> b = a /\ tr' = tr.
Proof.
  unfold ret. intros H. now inversion H.
Qed.

Lemma lift_ok {A : Type} (r : Res A) a tr tr' :
  lift r tr = (Ok a, tr') -> r = Ok a /\ tr' = tr.
Proof.
  unfold lift. intros H. now inversion H.
Qed.

Lemma assert_ok c msg u tr tr' :
  assert_ c msg tr = (Ok u, tr') -> c = true /\ tr' = tr.
Proof.
  unfold assert_, ret, raise. destruct c; intros H; inversion H. now split.
Qed.

Lemma send_ok backend rq r tr tr' :
  send backend rq tr = (Ok r, tr') ->
  backend tr rq = Replied r /\ tr' = (tr ++ [(rq, Replied r)])%list.
Proof.
  unfold send. destruct (backend tr rq) as [r0|d]; intros H; inversion H. now split.
Qed.

Lemma send_replied backend rq r tr :
  backend tr rq = Replied r ->
  send backend rq tr = (Ok r, (tr ++ [(rq, Replied r)])%list).
Proof.
  unfold send. now intros ->.
Qed.

Lemma try_except_ok {A : Type} (m : M A) handler a tr tr' :
  try_except m handler tr = (Ok a, tr') ->
  m tr = (Ok a, tr') \/
  exists e tr1 h, m tr = (Raised e, tr1) /\ handler e = Some h /\ h tr1 = (Ok a, tr').
Proof.
  unfold try_except. destruct (m tr) as [[a0|e] tr1]; intros H.
  - now left.
  - destruct (handler e) as [h|] eqn:E; [|discriminate H].
    right. now exists e, tr1, h.
Qed.

(** A handler that re-raises cannot make a run return. *)
Lemma except_raise_ok {A : Type} cls (f : exn -> exn) e (h : M A) a tr tr' :
  except cls (fun e => raise (f e)) e = Some h -> h tr = (Ok a, tr') -> False.
Proof.
  unfold except, raise. destruct (cls e); intros H; inversion H; subst. discriminate.
Qed.

Lemma try_reraise_ok {A : Type} (m : M A) cls (f : exn -> exn) a tr tr' :
  try_except m (except cls (fun e => raise (f e))) tr = (Ok a, tr') ->
  m tr = (Ok a, tr').
Proof.
  intros H. apply try_except_ok in H. destruct H as [H|(e & tr1 & h & _ & Hh & Hk)].
  - exact H.
  - exfalso. exact (except_raise_ok _ _ _ _ _ _ _ Hh Hk).
Qed.

(** ** Inversion of the dynamic operators *)

Lemma py_getitem_ok v k x :
  py_getitem v k = Ok x -> exists d, v = JDict d /\ lookup k d = Some x.
Proof.
  destruct v; cbn; try discriminate.
  destruct (lookup k d) eqn:E; intros H; inversion H; subst. now exists d.
Qed.

Lemma py_get_ok v k dflt x :
  py_get v k dflt = Ok x ->
  exists d, v = JDict d /\ x = match lookup k d with Some y => y | None => dflt end.
Proof.
  destruct v; cbn; try discriminate. intros H; inversion H. now exists d.
Qed.

Lemma py_eq_str v s :
  py_eq v (JStr s) = true -> v = JStr s.
Proof.
  destruct v; cbn; try discriminate.
  intros H. apply String.eqb_eq in H. now subst.
Qed.

Lemma str_py_eq s v :
  py_eq (JStr s) v = true -> v = JStr s.
Proof.
  destruct v; cbn; try discriminate.
  intros H. apply String.eqb_eq in H. now subst.
Qed.

Lemma response_json_ok r v :
  response_json r = Ok v -> body r = Some v.
Proof.
  unfold response_json. destruct (body r); intros H; inversion H. reflexivity.
Qed.

Lemma py_eq_bool v b :
  py_eq v (JBool b) = true ->
  exists n, as_number v = Some n /\ num_eqb n (NInt (Z.b2z b)) = true.
Proof.
  destruct v; cbn; try discriminate; intros H; eexists; (split; [reflexivity|exact H]).
Qed.

Lemma passes_run {A : Type} (r : Res A * list Exchange) :
  passesb r = true -> passes r.
Proof.
  unfold passesb, passes. destruct (fst r) as [a|e]; [now exists a | discriminate].
Qed.

(** One step of inversion on a hypothesis that says a run returned. *)
Ltac inv_ok :=
  match goal with
  | H : bind _ _ _ = (Ok _, _) |- _ =>
      apply bind_ok in H; destruct H as (? & ? & ? & H)
  | H : assert_ _ _ _ = (Ok _, _) |- _ =>
      apply assert_ok in H; destruct H as [? ?]; subst
  | H : lift _ _ = (Ok _, _) |- _ =>
      apply lift_ok in H; destruct H as [? ?]; subst
  | H : ret _ _ = (Ok _, _) |- _ =>
      apply ret_ok in H; destruct H as [? ?]; subst
  | H : try_except _ (except _ (fun e => raise _)) _ = (Ok _, _) |- _ =>
      apply try_reraise_ok in H
  | H : send _ _ _ = (Ok _, _) |- _ =>
      apply send_ok in H; destruct H as [? ?]; subst
  | H : py_getitem _ _ = Ok _ |- _ =>
      apply py_getitem_ok in H; destruct H as (? & H & ?);
      first [ injection H as H; subst | subst ]
  | H : response_json _ = Ok _ |- _ =>
      apply response_json_ok in H
  end.

(** ** TC001: the sign-in checks *)

(** C1.  With the default credentials, the valid-credentials check of the
    sign-in script returns if and only if the backend answers the POST of
    [{"email": "test@example.com", "password": "password123"}] to
    [/auth/signin] with status 200 and a JSON object whose ["user"] is an
    object and whose ["token"] is a non-empty string; and each of the two
    invalid-credentials checks returns only if the answer to its payload has
    a status other than 200. *)
Theorem signin_checks (env : Env) (backend : Backend) (tr : list Exchange) :
  env "TEST_VALID_EMAIL" = None ->
  env "TEST_VALID_PASSWORD" = None ->
  let post p :=
    mkRequest POST (TC001.BASE_URL env ++ "/auth/signin") []
      [("Content-Type", "application/json")] (JsonBody p) 30 in
  (passes (TC001.valid_credentials_check env backend tr) <->
   exists r d user token,
     backend tr (post (JDict [("email", JStr "test@example.com");
                              ("password", JStr "password123")])) = Replied r /\
     status_code r = 200 /\
     body r = Some (JDict d) /\
     lookup "user" d = Some (JDict user) /\
     lookup "token" d = Some (JStr token) /\
     token <> "")
  /\ (passes (TC001.invalid_email_check env backend tr) ->
      exists r,
        backend tr (post (JDict [("email", JStr "invaliduser@example.com");
                                 ("password", JStr "password123")])) = Replied r /\
        status_code r <> 200)
  /\ (passes (TC001.invalid_password_check env backend tr) ->
      exists r,
        backend tr (post (JDict [("email", JStr "test@example.com");
                                 ("password", JStr "wrongpassword")])) = Replied r /\
        status_code r <> 200).
Proof.
  intros He Hp post.
  assert (Hemail : TC001.valid_email env = "test@example.com")
    by (unfold TC001.valid_email, os_getenv; now rewrite He).
  assert (Hpass : TC001.valid_password env = "password123")
    by (unfold TC001.valid_password, os_getenv; now rewrite Hp).
  repeat split.
  - unfold TC001.valid_credentials_check, requests_post, TC001.valid_payload, TC001.signin_url.
    rewrite Hemail, Hpass.
    intros H. apply passes_inv in H. destruct H as ([] & tr' & H).
    repeat inv_ok.
    match goal with
    | Hu : isinstance_dict ?u = true, Ht : match ?t with _ => _ end = true |- _ =>
        destruct u as [ | | | | | |user]; try discriminate Hu;
        destruct t as [ | | | |token| | ]; try discriminate Ht;
        destruct token as [|c token]; [discriminate Ht|]
    end.
    match goal with
    | Hb : backend tr _ = Replied ?r, Hd : body ?r = Some (JDict ?d) |- _ =>
        exists r, d, user, (String c token)
    end.
    repeat split; auto.
    + now apply Z.eqb_eq.
    + discriminate.
  - intros (r & d & user & token & Hb & Hs & Hbody & Hu & Ht & Hne).
    apply passes_intro with (a := tt) (tr' := (tr ++ [(post (TC001.valid_payload env), Replied r)])%list).
    unfold TC001.valid_credentials_check, requests_post, TC001.valid_payload, TC001.signin_url,
      TC001.HEADERS, TC001.TIMEOUT.
    rewrite Hemail, Hpass.
    unfold bind, try_except, lift, assert_, ret, raise, response_json.
    subst post. cbv beta in *.
    rewrite (send_replied _ _ _ _ Hb), Hs, Hbody. cbn.
    unfold has_key. rewrite Hu, Ht. cbn.
    destruct token; [congruence|]. reflexivity.
  - unfold TC001.invalid_email_check, requests_post, TC001.invalid_email_payload,
      TC001.signin_url, TC001.invalid_email.
    rewrite Hpass.
    intros H. apply passes_inv in H. destruct H as (r0 & tr' & H).
    repeat inv_ok.
    match goal with Hb : backend _ _ = Replied ?r |- _ => exists r; split; [exact Hb|] end.
    match goal with Hn : negb (_ =? 200) = true |- _ =>
      apply negb_true_iff, Z.eqb_neq in Hn; exact Hn end.
  - unfold TC001.invalid_password_check, requests_post, TC001.invalid_password_payload,
      TC001.signin_url, TC001.invalid_password.
    rewrite Hemail.
    intros H. apply passes_inv in H. destruct H as (r0 & tr' & H).
    repeat inv_ok.
    match goal with Hb : backend _ _ = Replied ?r |- _ => exists r; split; [exact Hb|] end.
    match goal with Hn : negb (_ =? 200) = true |- _ =>
      apply negb_true_iff, Z.eqb_neq in Hn; exact Hn end.
Qed.

(** The hypotheses of [signin_checks] hold in the default environment, and
    the valid-credentials check returns on a backend that signs the user
    in. *)
Lemma signin_checks_witness :
  Backends.default_env "TEST_VALID_EMAIL" = None /\
  Backends.default_env "TEST_VALID_PASSWORD" = None /\
  passes (TC001.valid_credentials_check Backends.default_env Backends.signin_backend []).
Proof.
  split; [reflexivity|]. split; [reflexivity|].
  apply (proj1 (signin_checks Backends.default_env Backends.signin_backend []
                  eq_refl eq_refl)).
  exists (mkResponse 200 (Some (JDict [("user", JDict [("id", JInt 1)]); ("token", JStr "abc")]))),
    [("user", JDict [("id", JInt 1)]); ("token", JStr "abc")], [("id", JInt 1)], "abc".
  repeat split; try reflexivity. discriminate.
Defined.

(** ** TC008: the echo of the language settings *)

(** C2, as amended.  The valid update of the settings returns only if the
    answer to the PUT has status 200 and its body is an object that holds
    the four submitted keys with values equal to the submitted ones under
    Python's [==]: the two language codes are the submitted strings, and
    the two flags are numbers (booleans included) equal to 1 and to 0. *)
Theorem settings_echo (env : Env) (backend : Backend) (tr : list Exchange) :
  passes (TC008.valid_update_check env backend tr) ->
  exists r d,
    backend tr
      (TC008.put_request env
         (JDict [("mainLanguage", JStr "en"); ("targetLanguage", JStr "fr");
                 ("showTranslations", JBool true); ("showPhonetics", JBool false)]))
    = Replied r /\
    status_code r = 200 /\
    body r = Some (JDict d) /\
    lookup "mainLanguage" d = Some (JStr "en") /\
    lookup "targetLanguage" d = Some (JStr "fr") /\
    (exists v n, lookup "showTranslations" d = Some v /\
                 as_number v = Some n /\ num_eqb n (NInt 1) = true) /\
    (exists v n, lookup "showPhonetics" d = Some v /\
                 as_number v = Some n /\ num_eqb n (NInt 0) = true).
Proof.
  intros H. apply passes_inv in H. destruct H as ([] & tr' & H).
  unfold TC008.valid_update_check, requests_put in H.
  unfold TC008.valid_payload at 2 in H. cbn [for_each] in H.
  unfold TC008.echo_check in H.
  repeat inv_ok.
  repeat match goal with
  | Hs : py_eq ?v (JStr _) = true |- _ => apply py_eq_str in Hs; subst v
  | Hb : py_eq ?v (JBool _) = true |- _ => apply py_eq_bool in Hb; destruct Hb as (? & ? & Hb)
  end.
  match goal with
  | Hb : backend tr _ = Replied ?r, Hd : body ?r = Some (JDict ?d) |- _ => exists r, d
  end.
  repeat split; try assumption.
  - now apply Z.eqb_eq.
  - eexists _, _. repeat split; eassumption.
  - eexists _, _. repeat split; eassumption.
Qed.

(** [settings_echo] applies to a backend that echoes the fields. *)
Lemma settings_echo_witness :
  passes (TC008.valid_update_check Backends.default_env Backends.exact_echo []) /\
  exists r d,
    Backends.exact_echo []
      (TC008.put_request Backends.default_env
         (JDict [("mainLanguage", JStr "en"); ("targetLanguage", JStr "fr");
                 ("showTranslations", JBool true); ("showPhonetics", JBool false)]))
    = Replied r /\
    status_code r = 200 /\
    body r = Some (JDict d) /\
    lookup "mainLanguage" d = Some (JStr "en") /\
    lookup "targetLanguage" d = Some (JStr "fr") /\
    (exists v n, lookup "showTranslations" d = Some v /\
                 as_number v = Some n /\ num_eqb n (NInt 1) = true) /\
    (exists v n, lookup "showPhonetics" d = Some v /\
                 as_number v = Some n /\ num_eqb n (NInt 0) = true).
Proof.
  assert (Hp : passes (TC008.valid_update_check Backends.default_env Backends.exact_echo []))
    by (apply passes_run; vm_compute; reflexivity).
  split; [exact Hp|].
  exact (settings_echo Backends.default_env Backends.exact_echo [] Hp).
Defined.

(** C2 as stated fails: the update check returns on an answer whose
    ["showTranslations"] is the number 1, which is not the submitted
    [true]. *)
Lemma settings_echo_not_exact :
  passes (TC008.valid_update_check Backends.default_env Backends.numeric_echo []) /\
  exists r d,
    Backends.numeric_echo []
      (TC008.put_request Backends.default_env (JDict TC008.valid_payload)) = Replied r /\
    status_code r = 200 /\
    body r = Some (JDict d) /\
    In ("showTranslations", JBool true) TC008.valid_payload /\
    lookup "showTranslations" d = Some (JInt 1) /\
    JInt 1 <> JBool true.
Proof.
  split.
  - apply passes_run. vm_compute. reflexivity.
  - eexists _, _. split; [reflexivity|]. split; [reflexivity|]. split; [reflexivity|].
    split; [cbn; auto|]. split; [reflexivity|discriminate].
Qed.

(** ** What a script sends *)

Lemma sends_only_ret P {A : Type} (a : A) : sends_only P (ret a).
Proof.
  intros tr res tr' H. inversion H; subst. exists []. now rewrite app_nil_r.
Qed.

Lemma sends_only_raise P {A : Type} (e : exn) : sends_only P (@raise A e).
Proof.
  intros tr res tr' H. inversion H; subst. exists []. now rewrite app_nil_r.
Qed.

Lemma sends_only_lift P {A : Type} (r : Res A) : sends_only P (lift r).
Proof.
  intros tr res tr' H. inversion H; subst. exists []. now rewrite app_nil_r.
Qed.

Lemma sends_only_assert P c msg : sends_only P (assert_ c msg).
Proof.
  unfold assert_. destruct c; [apply sends_only_ret | apply sends_only_raise].
Qed.

Lemma sends_only_send (P : Request -> Prop) backend rq :
  P rq -> sends_only P (send backend rq).
Proof.
  intros HP tr res tr' H. unfold send in H.
  exists [(rq, backend tr rq)].
  destruct (backend tr rq); inversion H; subst; (split; [reflexivity|]);
    constructor; auto.
Qed.

Lemma sends_only_bind P {A B : Type} (m : M A) (k : A -> M B) :
  sends_only P m -> (forall a, sends_only P (k a)) -> sends_only P (bind m k).
Proof.
  intros Hm Hk tr res tr' H. unfold bind in H.
  destruct (m tr) as [[a|e] tr1] eqn:E.
  - destruct (Hm _ _ _ E) as (n1 & -> & F1).
    destruct (Hk a _ _ _ H) as (n2 & -> & F2).
    exists (n1 ++ n2)%list. split; [now rewrite app_assoc|].
    apply Forall_app. now split.
  - inversion H; subst. exact (Hm _ _ _ E).
Qed.

Lemma sends_only_try P {A : Type} (m : M A) handler :
  sends_only P m ->
  (forall e h, handler e = Some h -> sends_only P h) ->
  sends_only P (try_except m handler).
Proof.
  intros Hm Hh tr res tr' H. unfold try_except in H.
  destruct (m tr) as [[a|e] tr1] eqn:E.
  - inversion H; subst. exact (Hm _ _ _ E).
  - destruct (handler e) as [h|] eqn:Eh.
    + destruct (Hm _ _ _ E) as (n1 & -> & F1).
      destruct (Hh _ _ Eh _ _ _ H) as (n2 & -> & F2).
      exists (n1 ++ n2)%list. split; [now rewrite app_assoc|].
      apply Forall_app. now split.
    + inversion H; subst. exact (Hm _ _ _ E).
Qed.

Lemma sends_only_except P {A : Type} cls (f : exn -> M A) e h :
  (forall e, sends_only P (f e)) -> except cls f e = Some h -> sends_only P h.
Proof.
  unfold except. intros Hf H. destruct (cls e); inversion H; subst. apply Hf.
Qed.

Lemma sends_only_for_each P {A : Type} (l : list A) (f : A -> M unit) :
  (forall x, sends_only P (f x)) -> sends_only P (for_each l f).
Proof.
  intros Hf. induction l as [|x l IH]; cbn [for_each].
  - apply sends_only_ret.
  - apply sends_only_bind; auto.
Qed.

(** Decomposes a goal [sends_only P m] along the structure of [m]. *)
Ltac sends_only_tac :=
  repeat first
    [ apply sends_only_ret
    | apply sends_only_raise
    | apply sends_only_lift
    | apply sends_only_assert
    | apply sends_only_bind; [|intros ?]
    | apply sends_only_try; [|intros ? ? ?; eapply sends_only_except; [intros ?|eassumption]]
    | apply sends_only_for_each; intros ? ].

(** ** Empty objects: TC002, TC008 and TC001 *)

Lemma range_4xx s : ((400 <=? s) && (s <? 500)) = true -> 400 <= s < 500.
Proof.
  intros H. apply andb_true_iff in H. destruct H as [H1 H2].
  apply Z.leb_le in H1. apply Z.ltb_lt in H2. lia.
Qed.

(** C3, as amended.  The sign-up script and the settings script each send
    an empty object as their second request, and return only if the answer
    to it has a status in [400,500).  The sign-in script sends no request
    whose body is an empty object. *)
Theorem empty_object_rejected (env : Env) (backend : Backend) (uuid : string)
    (tr : list Exchange) :
  (passes (TC002.test_signup_with_valid_and_invalid_data env backend uuid tr) ->
   exists r0 r,
     backend tr (TC002.signup_request env (TC002.valid_user env uuid)) = Replied r0 /\
     backend (tr ++ [(TC002.signup_request env (TC002.valid_user env uuid), Replied r0)])%list
       (TC002.signup_request env (JDict [])) = Replied r /\
     400 <= status_code r < 500)
  /\ (passes (TC008.test_update_user_language_settings env backend tr) ->
      exists r0 r,
        backend tr (TC008.put_request env (JDict TC008.valid_payload)) = Replied r0 /\
        backend (tr ++ [(TC008.put_request env (JDict TC008.valid_payload), Replied r0)])%list
          (TC008.put_request env (JDict [])) = Replied r /\
        400 <= status_code r < 500)
  /\ sends_only (fun rq => payload rq <> JsonBody (JDict []))
       (TC001.test_signin_with_valid_and_invalid_credentials env backend).
Proof.
  repeat split.
  - intros H. apply passes_inv in H. destruct H as ([] & tr' & H).
    unfold TC002.test_signup_with_valid_and_invalid_data in H.
    apply bind_ok in H. destruct H as ([] & tr1 & Hv & H).
    unfold TC002.invalid_users in H. cbn [for_each] in H.
    apply bind_ok in H. destruct H as ([] & tr2 & He & _).
    unfold TC002.valid_signup_check, requests_post in Hv.
    apply bind_ok in Hv. destruct Hv as (r0 & tr0 & Hs & Hv).
    apply send_ok in Hs. destruct Hs as [Hb0 ->].
    assert (tr1 = (tr ++ [(TC002.signup_request env (TC002.valid_user env uuid),
                           Replied r0)])%list) as ->.
    { repeat inv_ok. reflexivity. }
    unfold TC002.invalid_signup_check, requests_post in He.
    repeat inv_ok.
    match goal with Hb : backend (_ ++ _)%list _ = Replied ?r |- _ => exists r0, r end.
    repeat split; try assumption; now apply range_4xx.
  - intros H. apply passes_inv in H. destruct H as ([] & tr' & H).
    unfold TC008.test_update_user_language_settings in H.
    apply try_reraise_ok in H.
    apply bind_ok in H. destruct H as ([] & tr1 & Hv & H).
    unfold TC008.invalid_payloads in H. cbn [for_each enumerate] in H.
    apply bind_ok in H. destruct H as ([] & tr2 & He & _).
    unfold TC008.valid_update_check, requests_put in Hv.
    apply bind_ok in Hv. destruct Hv as (r0 & tr0 & Hs & Hv).
    apply send_ok in Hs. destruct Hs as [Hb0 ->].
    assert (tr1 = (tr ++ [(TC008.put_request env (JDict TC008.valid_payload),
                           Replied r0)])%list) as ->.
    { unfold TC008.valid_payload at 1 in Hv. cbn [for_each] in Hv.
      unfold TC008.echo_check in Hv. repeat inv_ok. reflexivity. }
    unfold TC008.invalid_update_check, requests_put in He.
    repeat inv_ok.
    match goal with Hb : backend (_ ++ _)%list _ = Replied ?r |- _ => exists r0, r end.
    repeat split; try assumption; now apply range_4xx.
  - unfold TC001.test_signin_with_valid_and_invalid_credentials,
      TC001.valid_credentials_check, TC001.invalid_email_check, TC001.invalid_password_check,
      TC001.error_structure_check, requests_post.
    sends_only_tac; apply sends_only_send; cbn; discriminate.
Qed.

(** [empty_object_rejected] applies to a backend on which the sign-up
    script returns. *)
Lemma empty_object_rejected_witness :
  passes (TC002.test_signup_with_valid_and_invalid_data
            Backends.default_env Backends.signup_backend "0000" []) /\
  exists r0 r,
    Backends.signup_backend []
      (TC002.signup_request Backends.default_env
         (TC002.valid_user Backends.default_env "0000")) = Replied r0 /\
    Backends.signup_backend
      [(TC002.signup_request Backends.default_env
          (TC002.valid_user Backends.default_env "0000"), Replied r0)]
      (TC002.signup_request Backends.default_env (JDict [])) = Replied r /\
    400 <= status_code r < 500.
Proof.
  assert (Hp : passes (TC002.test_signup_with_valid_and_invalid_data
                         Backends.default_env Backends.signup_backend "0000" []))
    by (apply passes_run; vm_compute; reflexivity).
  split; [exact Hp|].
  exact (proj1 (empty_object_rejected Backends.default_env Backends.signup_backend "0000" [])
           Hp).
Defined.

(** C3 as stated fails for sign-in: the sign-in script returns on a backend
    that answers an empty object with status 200, and none of the requests
    of that run carries an empty object. *)
Lemma signin_empty_object_unchecked :
  passes (TC001.test_signin_with_valid_and_invalid_credentials
            Backends.default_env Backends.lenient_signin []) /\
  (exists r,
     Backends.lenient_signin
       (snd (TC001.test_signin_with_valid_and_invalid_credentials
               Backends.default_env Backends.lenient_signin []))
       (TC001.signin_request Backends.default_env (JDict [])) = Replied r /\
     status_code r = 200 /\ ~ 400 <= status_code r < 500) /\
  ~ In (TC001.signin_request Backends.default_env (JDict []))
      (sent (snd (TC001.test_signin_with_valid_and_invalid_credentials
                    Backends.default_env Backends.lenient_signin []))).
Proof.
  split; [apply passes_run; vm_compute; reflexivity|]. split.
  - eexists. split; [reflexivity|]. cbn. split; [reflexivity|lia].
  - vm_compute. intros [H|[H|[H|[]]]]; discriminate H.
Qed.

(** ** A failed check ends the script *)

Lemma for_each_app {A : Type} (l1 l2 : list A) (f : A -> M unit) tr tr1 :
  for_each l1 f tr = (Ok tt, tr1) ->
  for_each (l1 ++ l2) f tr = for_each l2 f tr1.
Proof.
  revert tr. induction l1 as [|x l1 IH]; intros tr H; cbn [for_each app] in *.
  - unfold ret in H. now inversion H.
  - apply bind_ok in H. destruct H as ([] & tr0 & Hx & H).
    rewrite (bind_eq _ _ _ _ _ Hx). now apply IH.
Qed.

(** C9, as amended.  A failure ends the script in which it occurs: when a
    check of the sign-in script or of the sign-up script raises, the script
    raises the same exception and its exchanges are those made up to the
    failed check, so that the checks after it are not executed. *)
Theorem first_failure_aborts (env : Env) (backend : Backend) (uuid : string)
    (tr tr' : list Exchange) (e : exn) :
  (TC001.valid_credentials_check env backend tr = (Raised e, tr') ->
   TC001.test_signin_with_valid_and_invalid_credentials env backend tr = (Raised e, tr'))
  /\ (forall tr1,
        TC001.valid_credentials_check env backend tr = (Ok tt, tr1) ->
        TC001.invalid_email_check env backend tr1 = (Raised e, tr') ->
        TC001.test_signin_with_valid_and_invalid_credentials env backend tr = (Raised e, tr'))
  /\ (forall tr1 r1 tr2,
        TC001.valid_credentials_check env backend tr = (Ok tt, tr1) ->
        TC001.invalid_email_check env backend tr1 = (Ok r1, tr2) ->
        TC001.invalid_password_check env backend tr2 = (Raised e, tr') ->
        TC001.test_signin_with_valid_and_invalid_credentials env backend tr = (Raised e, tr'))
  /\ (TC002.valid_signup_check env backend uuid tr = (Raised e, tr') ->
      TC002.test_signup_with_valid_and_invalid_data env backend uuid tr = (Raised e, tr'))
  /\ (forall tr1 checked x rest tr2,
        TC002.invalid_users env = (checked ++ x :: rest)%list ->
        TC002.valid_signup_check env backend uuid tr = (Ok tt, tr1) ->
        for_each checked (TC002.invalid_signup_check env backend) tr1 = (Ok tt, tr2) ->
        TC002.invalid_signup_check env backend x tr2 = (Raised e, tr') ->
        TC002.test_signup_with_valid_and_invalid_data env backend uuid tr = (Raised e, tr')).
Proof.
  repeat split.
  - intros H. unfold TC001.test_signin_with_valid_and_invalid_credentials.
    now apply bind_raised.
  - intros tr1 H1 H2. unfold TC001.test_signin_with_valid_and_invalid_credentials.
    rewrite (bind_eq _ _ _ _ _ H1). now apply bind_raised.
  - intros tr1 r1 tr2 H1 H2 H3. unfold TC001.test_signin_with_valid_and_invalid_credentials.
    rewrite (bind_eq _ _ _ _ _ H1), (bind_eq _ _ _ _ _ H2). now apply bind_raised.
  - intros H. unfold TC002.test_signup_with_valid_and_invalid_data.
    now apply bind_raised.
  - intros tr1 checked x rest tr2 Hl H1 H2 H3.
    unfold TC002.test_signup_with_valid_and_invalid_data.
    rewrite (bind_eq _ _ _ _ _ H1), Hl, (for_each_app _ _ _ _ _ H2).
    cbn [for_each]. now apply bind_raised.
Qed.

(** [first_failure_aborts] applies to a backend on which the first check of
    the sign-in script fails. *)
Lemma first_failure_aborts_witness :
  TC001.valid_credentials_check Backends.default_env Backends.accepts_everything []
  = (Raised (AssertionError [Lit "'user' field missing in valid signin response"]),
     [(TC001.signin_request Backends.default_env (TC001.valid_payload Backends.default_env),
       Backends.reply 200 (JDict []))]) /\
  TC001.test_signin_with_valid_and_invalid_credentials
    Backends.default_env Backends.accepts_everything []
  = (Raised (AssertionError [Lit "'user' field missing in valid signin response"]),
     [(TC001.signin_request Backends.default_env (TC001.valid_payload Backends.default_env),
       Backends.reply 200 (JDict []))]).
Proof.
  split; [reflexivity|].
  exact (proj1 (first_failure_aborts Backends.default_env Backends.accepts_everything
                  "0000" [] _ _) eq_refl).
Defined.

(** C9 as stated fails: on a backend that accepts every sign-in, the
    sign-in script stops at its first failed check; the request of the
    invalid-email check is never sent, and the failure that check would
    have found is not reported. *)
Lemma first_failure_hides_the_rest :
  TC001.test_signin_with_valid_and_invalid_credentials
    Backends.default_env Backends.accepts_everything []
  = (Raised (AssertionError [Lit "'user' field missing in valid signin response"]),
     [(TC001.signin_request Backends.default_env (TC001.valid_payload Backends.default_env),
       Backends.reply 200 (JDict []))]) /\
  ~ In (TC001.signin_request Backends.default_env
          (TC001.invalid_email_payload Backends.default_env))
      (sent (snd (TC001.test_signin_with_valid_and_invalid_credentials
                    Backends.default_env Backends.accepts_everything []))) /\
  fst (TC001.invalid_email_check Backends.default_env Backends.accepts_everything
         (snd (TC001.test_signin_with_valid_and_invalid_credentials
                 Backends.default_env Backends.accepts_everything [])))
  = Raised (AssertionError [Lit "Signin succeeded with invalid email, expected failure"]).
Proof.
  split; [reflexivity|]. split; [|reflexivity].
  vm_compute. intros [H|[]]. discriminate H.
Qed.

(** ** TC004: the precursor of the lesson start *)

(** C7, as amended.  When the answer to GET [/lessons] carries no precursor
    data (its body does not decode, is not a list, is an empty list, or its
    first item has no string ["lessonId"]), the script fails right after
    that exchange, before any lesson is started.  With a decoded body the
    failure is an [AssertionError], the class the script also raises for
    transport failures and for contract violations, or an [AttributeError]
    when the first item is not an object.  With a body the decoder refuses
    it is an [AssertionError] again, or the decoder's own [ValueError]
    (integer too long) or [RecursionError] (nesting too deep), which
    neither [except] clause catches. *)
Theorem precursor_unavailable_fails (env : Env) (backend : Backend) (tr : list Exchange)
    (r : Response) :
  backend tr (TC004.lessons_request env) = Replied r ->
  TC004.first_lesson_id (body r) = None ->
  exists e,
    TC004.test_start_lesson_with_valid_and_invalid_lessonid env backend tr
    = (Raised e, (tr ++ [(TC004.lessons_request env, Replied r)])%list) /\
    match body r with
    | Some _ => class_name e = "AssertionError" \/ class_name e = "AttributeError"
    | None =>
        class_name e = "AssertionError" \/
        (e = ValueError /\ decode_failure r = IntegerTooLong) \/
        (e = RecursionError /\ decode_failure r = NestingTooDeep)
    end.
Proof.
  intros Hb Hf.
  unfold TC004.test_start_lesson_with_valid_and_invalid_lessonid, TC004.fetch_valid_lesson_id,
    requests_get.
  unfold try_except, bind.
  change (mkRequest GET (TC004.BASE_URL env ++ "/lessons") [] [] NoPayload TC004.TIMEOUT)
    with (TC004.lessons_request env).
  rewrite (send_replied _ _ _ _ Hb).
  unfold lift, raise_for_status, response_json, assert_, ret, raise, TC004.handlers.
  destruct r as [st b f]. cbn [status_code body decode_failure] in *.
  destruct ((400 <=? st) && (st <? 600)).
  { cbn. eexists; split; [reflexivity|destruct b; auto]. }
  destruct b as [v|]; [|destruct f; cbn; (eexists; split; [reflexivity|auto])].
  destruct v; try (cbn; eexists; split; [reflexivity|now auto]).
  destruct l as [|x l]; [cbn; eexists; split; [reflexivity|now auto]|].
  cbn [isinstance_list py_len].
  replace (0 <? Z.of_nat (Datatypes.length (x :: l))) with true
    by (symmetry; apply Z.ltb_lt; cbn [Datatypes.length]; lia).
  cbn [py_first].
  destruct x; try (cbn; eexists; split; [reflexivity|now auto]).
  cbn [py_get]. cbn in Hf.
  destruct (lookup "lessonId" d) as [v|].
  - destruct v; try discriminate Hf; cbn [truthy isinstance_str]; rewrite ?andb_false_r;
      cbn; (eexists; split; [reflexivity|now auto]).
  - cbn; eexists; split; [reflexivity|now auto].
Qed.

(** [precursor_unavailable_fails] applies to a backend without lessons. *)
Lemma precursor_unavailable_fails_witness :
  Backends.no_lessons [] (TC004.lessons_request Backends.default_env)
  = Replied (mkResponse 200 (Some (JList []))) /\
  TC004.first_lesson_id (body (mkResponse 200 (Some (JList [])))) = None /\
  exists e,
    TC004.test_start_lesson_with_valid_and_invalid_lessonid
      Backends.default_env Backends.no_lessons []
    = (Raised e,
       [(TC004.lessons_request Backends.default_env,
         Replied (mkResponse 200 (Some (JList []))))]) /\
    (class_name e = "AssertionError" \/ class_name e = "AttributeError").
Proof.
  split; [reflexivity|]. split; [reflexivity|].
  exact (precursor_unavailable_fails Backends.default_env Backends.no_lessons []
           (mkResponse 200 (Some (JList []))) eq_refl eq_refl).
Defined.

(** What the decoder raises on the lessons leaves TC004 as it is: neither
    the [except requests.RequestException] nor the [except AssertionError]
    clause applies. *)
Lemma lessons_refused_by_decoder :
  TC004.test_start_lesson_with_valid_and_invalid_lessonid
    Backends.default_env Flows.deep_lessons []
  = (Raised RecursionError,
     [(TC004.lessons_request Backends.default_env, Flows.refused 200 NestingTooDeep)]) /\
  TC004.test_start_lesson_with_valid_and_invalid_lessonid
    Backends.default_env Flows.long_integer_lessons []
  = (Raised ValueError,
     [(TC004.lessons_request Backends.default_env, Flows.refused 200 IntegerTooLong)]).
Proof. split; reflexivity. Qed.

(** C7 as stated fails: the script has no failure kind of its own for a
    missing precursor.  With an empty lesson list, with a lesson that fails
    to start (a contract violation) and with an unreachable backend (a
    transport failure), it raises an exception of the same class. *)
Lemma precursor_failure_not_distinct :
  TC004.first_lesson_id (Some (JList [])) = None /\
  exists e_precursor e_contract e_transport,
    fst (TC004.test_start_lesson_with_valid_and_invalid_lessonid
           Backends.default_env Backends.no_lessons []) = Raised e_precursor /\
    fst (TC004.test_start_lesson_with_valid_and_invalid_lessonid
           Backends.default_env Backends.start_fails []) = Raised e_contract /\
    fst (TC004.test_start_lesson_with_valid_and_invalid_lessonid
           Backends.default_env Backends.unreachable []) = Raised e_transport /\
    e_precursor
    = AssertionError [Lit "Assertion failed: ";
                      Exc (AssertionError [Lit "No lessons available to test"])] /\
    e_contract
    = AssertionError [Lit "Assertion failed: ";
                      Exc (AssertionError [Lit "Expected 200 for valid lessonId, got ";
                                           Val (JInt 500)])] /\
    e_transport
    = AssertionError [Lit "HTTP request failed: ";
                      Exc (ConnectionError "connection refused")] /\
    class_name e_precursor = class_name e_contract /\
    class_name e_precursor = class_name e_transport.
Proof.
  split; [reflexivity|].
  eexists _, _, _.
  split; [vm_compute; reflexivity|].
  split; [vm_compute; reflexivity|].
  split; [vm_compute; reflexivity|].
  repeat split.
Qed.

(** ** Loops *)

Lemma for_each_Forall {A : Type} (P : A -> Prop) (l : list A) (f : A -> M unit) tr u tr' :
  (forall x t v t', f x t = (Ok v, t') -> P x) ->
  for_each l f tr = (Ok u, tr') -> Forall P l.
Proof.
  intros Hf. revert tr. induction l as [|x l IH]; intros tr H; cbn [for_each] in H.
  - constructor.
  - apply bind_ok in H. destruct H as (v & t1 & Hx & H).
    constructor; [exact (Hf _ _ _ _ Hx) | exact (IH _ H)].
Qed.

(** ** TC003: the level filter and the malformed parameters *)

Lemma lesson_check_ok lesson t v t' :
  TC003.lesson_check lesson t = (Ok v, t') ->
  exists d, lesson = JDict d /\ has_key "lessonId" d = true /\ has_key "title" d = true /\
            lookup "level" d = Some (JStr "B1").
Proof.
  unfold TC003.lesson_check. intros H. repeat inv_ok.
  match goal with He : py_eq _ (JStr _) = true |- _ => apply py_eq_str in He; subst end.
  repeat match goal with Hi : py_in _ (JDict _) = Ok true |- _ => cbn in Hi; injection Hi as Hi end.
  eexists. repeat split; eassumption.
Qed.

(** C6.  The level-filter check of the lessons script returns only if the
    answer to GET [/lessons] with [level=B1] and the language parameter has
    status 200 and a body that is a list, every item of which is an object
    that holds the keys ["lessonId"], ["title"] and ["level"], with
    ["level"] equal to ["B1"]. *)
Theorem level_filter (env : Env) (backend : Backend) (tr : list Exchange) :
  passes (TC003.level_filter_check env backend tr) ->
  exists r lessons,
    backend tr (TC003.lessons_request env [("level", "B1"); ("language", "English")])
    = Replied r /\
    status_code r = 200 /\
    body r = Some (JList lessons) /\
    Forall (fun lesson =>
              exists d, lesson = JDict d /\
                        has_key "lessonId" d = true /\ has_key "title" d = true /\
                        lookup "level" d = Some (JStr "B1")) lessons.
Proof.
  intros H. apply passes_inv in H. destruct H as ([] & tr' & H).
  unfold TC003.level_filter_check, requests_get in H.
  repeat inv_ok.
  match goal with Hl : isinstance_list ?l = true |- _ =>
    destruct l; try discriminate Hl end.
  match goal with Hi : py_iter _ = Ok _ |- _ => cbn in Hi; injection Hi as <- end.
  match goal with Hb : backend tr _ = Replied ?r |- _ => exists r, l end.
  repeat split; try assumption.
  - now apply Z.eqb_eq.
  - eapply for_each_Forall; [|eassumption]. intros. eapply lesson_check_ok; eassumption.
Qed.

(** [level_filter] applies to a backend that answers with lessons of
    level B1. *)
Lemma level_filter_witness :
  passes (TC003.level_filter_check Backends.default_env Backends.b1_lessons []) /\
  exists r lessons,
    Backends.b1_lessons []
      (TC003.lessons_request Backends.default_env [("level", "B1"); ("language", "English")])
    = Replied r /\
    status_code r = 200 /\
    body r = Some (JList lessons) /\
    Forall (fun lesson =>
              exists d, lesson = JDict d /\
                        has_key "lessonId" d = true /\ has_key "title" d = true /\
                        lookup "level" d = Some (JStr "B1")) lessons.
Proof.
  assert (Hp : passes (TC003.level_filter_check Backends.default_env Backends.b1_lessons []))
    by (apply passes_run; vm_compute; reflexivity).
  split; [exact Hp|].
  exact (level_filter Backends.default_env Backends.b1_lessons [] Hp).
Defined.

(** C8.  A request to GET [/lessons] with a malformed parameter (the script
    makes two, with [params_invalid_level] and [params_invalid_language]) is
    accepted only with status 200 or 400: with status 200 the body must be a
    list, with status 400 the body must decode as JSON.  Both statuses are
    accepted: 200 with any list, 400 with any decoded body other than
    [null]. *)
Theorem malformed_param_statuses (env : Env) (backend : Backend)
    (ps : list (string * string)) (tr : list Exchange) :
  (passes (TC003.malformed_param_check env backend ps tr) ->
   exists r,
     backend tr (TC003.lessons_request env ps) = Replied r /\
     (status_code r = 200 \/ status_code r = 400) /\
     (status_code r = 200 -> exists l, body r = Some (JList l)) /\
     (status_code r = 400 -> exists v, body r = Some v))
  /\ (forall r l,
        backend tr (TC003.lessons_request env ps) = Replied r ->
        status_code r = 200 -> body r = Some (JList l) ->
        passes (TC003.malformed_param_check env backend ps tr))
  /\ (forall r v,
        backend tr (TC003.lessons_request env ps) = Replied r ->
        status_code r = 400 -> body r = Some v -> v <> JNull ->
        passes (TC003.malformed_param_check env backend ps tr)).
Proof.
  repeat split.
  - intros H. apply passes_inv in H. destruct H as ([] & tr' & H).
    unfold TC003.malformed_param_check, requests_get in H.
    apply bind_ok in H. destruct H as (r & tr1 & Hs & H).
    apply send_ok in Hs. destruct Hs as [Hb ->].
    apply bind_ok in H. destruct H as ([] & tr2 & Ha & H).
    apply assert_ok in Ha. destruct Ha as [Ha ->].
    exists r. split; [exact Hb|].
    destruct (Z.eqb_spec (status_code r) 200) as [E|E].
    + repeat inv_ok.
      match goal with Hl : isinstance_list ?l = true |- _ =>
        destruct l; try discriminate Hl end.
      repeat split; [now left| intros _; eexists; eassumption | lia].
    + cbn in Ha. apply Z.eqb_eq in Ha.
      apply bind_ok in H. destruct H as (v & tr3 & Hj & H).
      apply assert_ok in H. destruct H as [Hn _].
      repeat split; [now right|lia|]. intros _.
      unfold try_except, lift, response_json in Hj.
      destruct (body r) as [w|]; [now exists w|].
      cbn in Hj. inversion Hj; subst. discriminate Hn.
  - intros r l Hb Hs Hbody.
    apply passes_intro with (a := tt) (tr' := (tr ++ [(TC003.lessons_request env ps, Replied r)])%list).
    unfold TC003.malformed_param_check, requests_get, bind.
    change (mkRequest GET (TC003.BASE_URL env ++ "/lessons") ps TC003.headers NoPayload TC003.TIMEOUT)
      with (TC003.lessons_request env ps).
    rewrite (send_replied _ _ _ _ Hb), Hs. cbn.
    unfold lift, response_json. rewrite Hbody. reflexivity.
  - intros r v Hb Hs Hbody Hn.
    apply passes_intro with (a := tt) (tr' := (tr ++ [(TC003.lessons_request env ps, Replied r)])%list).
    unfold TC003.malformed_param_check, requests_get, bind.
    change (mkRequest GET (TC003.BASE_URL env ++ "/lessons") ps TC003.headers NoPayload TC003.TIMEOUT)
      with (TC003.lessons_request env ps).
    rewrite (send_replied _ _ _ _ Hb), Hs. cbn.
    unfold try_except, lift, response_json. rewrite Hbody.
    destruct v; try reflexivity. congruence.
Qed.

(** [malformed_param_statuses] applies to a backend that refuses the
    invalid level with status 400 and an error object. *)
Lemma malformed_param_statuses_witness :
  Backends.scripted [Backends.bad_request] []
    (TC003.lessons_request Backends.default_env TC003.params_invalid_level)
  = Backends.bad_request /\
  passes (TC003.malformed_param_check Backends.default_env
            (Backends.scripted [Backends.bad_request]) TC003.params_invalid_level []).
Proof.
  split; [reflexivity|].
  refine (proj2 (proj2 (malformed_param_statuses Backends.default_env
                          (Backends.scripted [Backends.bad_request])
                          TC003.params_invalid_level []))
            (mkResponse 400 (Some (JDict [("error", JStr "invalid request")])))
            (JDict [("error", JStr "invalid request")]) eq_refl eq_refl eq_refl _).
  discriminate.
Defined.

(** ** TC007: the supported languages *)

Lemma nonempty_str_field_ok lang k :
  TC007.nonempty_str_field lang k = Ok true ->
  exists d s, lang = JDict d /\ lookup k d = Some (JStr s) /\ s <> "".
Proof.
  unfold TC007.nonempty_str_field.
  destruct (py_getitem lang k) as [v|e] eqn:E; [|discriminate].
  apply py_getitem_ok in E. destruct E as (d & -> & Hl).
  intros H. injection H as H. apply andb_true_iff in H. destruct H as [Hs Ht].
  destruct v; try discriminate Hs.
  exists d, s. repeat split; [assumption|].
  intros ->. discriminate Ht.
Qed.

Lemma language_check_ok lang t v t' :
  TC007.language_check lang t = (Ok v, t') ->
  exists d, lang = JDict d /\
            forall k, In k ["code"; "name"; "nativeName"; "flag"] ->
                      exists s, lookup k d = Some (JStr s) /\ s <> "".
Proof.
  unfold TC007.language_check. intros H. repeat inv_ok.
  repeat match goal with
  | Hf : TC007.nonempty_str_field _ _ = Ok true |- _ =>
      apply nonempty_str_field_ok in Hf; destruct Hf as (? & ? & ? & ? & ?)
  end.
  subst.
  repeat match goal with
  | Hd : JDict _ = JDict _ |- _ => injection Hd as Hd; subst
  end.
  eexists. split; [reflexivity|].
  intros k [<-|[<-|[<-|[<-|[]]]]]; eexists; split; eassumption.
Qed.

Lemma found_codes_In languages found x :
  TC007.found_codes languages = Ok found -> In x found ->
  exists d, In (JDict d) languages /\ lookup "code" d = Some x.
Proof.
  revert found. induction languages as [|lang rest IH]; intros found H Hin; cbn in H.
  - injection H as <-. destruct Hin.
  - destruct (py_getitem lang "code") as [c|] eqn:E; [|discriminate H].
    destruct (TC007.found_codes rest) as [cs|] eqn:Er; [|discriminate H].
    injection H as <-. destruct Hin as [<-|Hin].
    + apply py_getitem_ok in E. destruct E as (d & -> & Hl).
      exists d. split; [now left|assumption].
    + destruct (IH cs eq_refl Hin) as (d & Hd & Hl).
      exists d. split; [now right|assumption].
Qed.

Lemma missing_codes_nil found c :
  TC007.missing_codes found = [] -> In c TC007.expected_language_codes ->
  In (JStr c) found.
Proof.
  unfold TC007.missing_codes. intros H Hc.
  destruct (existsb (py_eq (JStr c)) found) eqn:E.
  - apply existsb_exists in E. destruct E as (x & Hx & He).
    apply str_py_eq in He. now subst.
  - assert (Hin : In c (filter (fun c => negb (existsb (py_eq (JStr c)) found))
                          TC007.expected_language_codes)).
    { apply filter_In. split; [assumption|]. now rewrite E. }
    rewrite H in Hin. destruct Hin.
Qed.

(** C5, as amended.  The supported-languages script returns only if the
    answer to GET [/languages] has a status that [raise_for_status] lets
    through (none in [400,600)), its body is a list of objects that each
    hold a non-empty string under ["code"], ["name"], ["nativeName"] and
    ["flag"], and the codes of the list include en, es, fr, it, hr and
    zh. *)
Theorem supported_languages (env : Env) (backend : Backend) (tr : list Exchange) :
  passes (TC007.test_get_supported_languages env backend tr) ->
  exists r languages,
    backend tr (TC007.languages_request env) = Replied r /\
    ~ 400 <= status_code r < 600 /\
    body r = Some (JList languages) /\
    Forall (fun lang =>
              exists d, lang = JDict d /\
                        forall k, In k ["code"; "name"; "nativeName"; "flag"] ->
                                  exists s, lookup k d = Some (JStr s) /\ s <> "")
           languages /\
    forall c, In c ["en"; "es"; "fr"; "it"; "hr"; "zh"] ->
              exists d, In (JDict d) languages /\ lookup "code" d = Some (JStr c).
Proof.
  intros H. apply passes_inv in H. destruct H as ([] & tr' & H).
  unfold TC007.test_get_supported_languages, requests_get in H.
  repeat inv_ok.
  match goal with Hl : isinstance_list ?l = true |- _ =>
    destruct l; try discriminate Hl end.
  match goal with Hi : py_iter _ = Ok _ |- _ => cbn in Hi; injection Hi as <- end.
  match goal with Hb : backend tr _ = Replied ?r |- _ => exists r, l end.
  split; [assumption|]. split.
  - match goal with Hr : raise_for_status ?r0 = Ok _ |- _ =>
      unfold raise_for_status in Hr;
      destruct ((400 <=? status_code r0) && (status_code r0 <? 600)) eqn:E; [discriminate Hr|]
    end.
    intros [Hlo Hhi]. apply Z.leb_le in Hlo. apply Z.ltb_lt in Hhi. rewrite Hlo, Hhi in E.
    discriminate E.
  - split; [assumption|]. split.
    + eapply for_each_Forall; [|eassumption]. intros. eapply language_check_ok; eassumption.
    + intros c Hc.
      match goal with Hm : match TC007.missing_codes ?f with _ => _ end = true |- _ =>
        destruct (TC007.missing_codes f) eqn:Em; [|discriminate Hm] end.
      eapply found_codes_In; [eassumption|].
      eapply missing_codes_nil; eassumption.
Qed.

(** [supported_languages] applies to a backend that answers with the six
    languages. *)
Lemma supported_languages_witness :
  passes (TC007.test_get_supported_languages
            Backends.default_env Backends.languages_backend []) /\
  exists r languages,
    Backends.languages_backend [] (TC007.languages_request Backends.default_env)
    = Replied r /\
    ~ 400 <= status_code r < 600 /\
    body r = Some (JList languages) /\
    Forall (fun lang =>
              exists d, lang = JDict d /\
                        forall k, In k ["code"; "name"; "nativeName"; "flag"] ->
                                  exists s, lookup k d = Some (JStr s) /\ s <> "")
           languages /\
    forall c, In c ["en"; "es"; "fr"; "it"; "hr"; "zh"] ->
              exists d, In (JDict d) languages /\ lookup "code" d = Some (JStr c).
Proof.
  assert (Hp : passes (TC007.test_get_supported_languages
                         Backends.default_env Backends.languages_backend []))
    by (apply passes_run; vm_compute; reflexivity).
  split; [exact Hp|].
  exact (supported_languages Backends.default_env Backends.languages_backend [] Hp).
Defined.

(** C5 as stated fails: the script returns on an answer with status 201. *)
Lemma supported_languages_status_201 :
  passes (TC007.test_get_supported_languages
            Backends.default_env Backends.languages_201 []) /\
  exists r,
    Backends.languages_201 [] (TC007.languages_request Backends.default_env) = Replied r /\
    status_code r = 201 /\
    status_code r <> 200.
Proof.
  split; [apply passes_run; vm_compute; reflexivity|].
  eexists. split; [reflexivity|]. cbn. split; [reflexivity|discriminate].
Qed.

(** ** TC009: the upload of a file that is not audio *)

(** The condition the script asserts on a decoded object. *)
Lemma no_text_or_confidence d :
  ((is_None (match lookup "text" d with Some x => x | None => JNull end)
    || py_eq (match lookup "text" d with Some x => x | None => JNull end) (JStr ""))
   || (is_None (match lookup "confidence" d with Some x => x | None => JNull end)
       || py_eq (match lookup "confidence" d with Some x => x | None => JNull end) (JInt 0)))
  = true <->
  (lookup "text" d = None \/ lookup "text" d = Some JNull \/ lookup "text" d = Some (JStr "") \/
   lookup "confidence" d = None \/ lookup "confidence" d = Some JNull \/
   exists v, lookup "confidence" d = Some v /\ py_eq v (JInt 0) = true).
Proof.
  split.
  - intros H. apply orb_true_iff in H. destruct H as [H|H]; apply orb_true_iff in H.
    + destruct (lookup "text" d) as [x|]; [|now left].
      destruct H as [H|H].
      * destruct x; try discriminate H. right; now left.
      * apply py_eq_str in H. subst. right; right; now left.
    + destruct (lookup "confidence" d) as [x|]; [|right; right; right; now left].
      destruct H as [H|H].
      * destruct x; try discriminate H. right; right; right; right; now left.
      * right; right; right; right; right. now exists x.
  - intros [H|[H|[H|[H|[H|(v & H & Hv)]]]]]; rewrite H; cbn [is_None orb];
      rewrite ?Hv, ?orb_true_r; reflexivity.
Qed.

Lemma invalid_audio_check_iff (env : Env) (backend : Backend) (tr : list Exchange) :
  passes (TC009.invalid_audio_check env backend tr) <->
  exists r,
    backend tr (TC009.invalid_audio_request env) = Replied r /\
    (400 <= status_code r < 500 \/
     (status_code r = 200 /\
      exists d,
        body r = Some (JDict d) /\
        (lookup "text" d = None \/ lookup "text" d = Some JNull \/
         lookup "text" d = Some (JStr "") \/
         lookup "confidence" d = None \/ lookup "confidence" d = Some JNull \/
         exists v, lookup "confidence" d = Some v /\ py_eq v (JInt 0) = true))).
Proof.
  split.
  - intros H. apply passes_inv in H. destruct H as ([] & tr' & H).
    unfold TC009.invalid_audio_check, TC009.reraise, requests_post in H.
    apply try_reraise_ok in H.
    apply bind_ok in H. destruct H as (r & tr1 & Hs & H).
    apply send_ok in Hs. destruct Hs as [Hb ->].
    apply bind_ok in H. destruct H as ([] & tr2 & Ha & H).
    apply assert_ok in Ha. destruct Ha as [Ha ->].
    exists r. split; [exact Hb|].
    destruct (Z.eqb_spec (status_code r) 200) as [E|E].
    + right. split; [exact E|].
      apply bind_ok in H. destruct H as (j & t1 & Hj & H).
      apply lift_ok in Hj. destruct Hj as [Hj ->]. apply response_json_ok in Hj.
      apply bind_ok in H. destruct H as (text & t2 & Ht & H).
      apply lift_ok in Ht. destruct Ht as [Ht ->].
      apply py_get_ok in Ht. destruct Ht as (d & -> & ->).
      apply bind_ok in H. destruct H as (conf & t3 & Hc & H).
      apply lift_ok in Hc. destruct Hc as [Hc ->].
      cbn in Hc. injection Hc as <-.
      apply assert_ok in H. destruct H as [H _].
      exists d. split; [exact Hj|]. now apply no_text_or_confidence.
    + left. apply assert_ok in H. destruct H as [H _]. now apply range_4xx.
  - intros (r & Hb & H).
    apply passes_intro with (a := tt)
      (tr' := (tr ++ [(TC009.invalid_audio_request env, Replied r)])%list).
    unfold TC009.invalid_audio_check, TC009.reraise, requests_post, try_except, bind.
    change (mkRequest POST (TC009.url env) [] TC009.headers (Files TC009.files_invalid)
              TC009.TIMEOUT) with (TC009.invalid_audio_request env).
    rewrite (send_replied _ _ _ _ Hb).
    destruct H as [[Hlo Hhi]|(Hs & d & Hbody & H)].
    + unfold assert_.
      replace (status_code r =? 500) with false by (symmetry; apply Z.eqb_neq; lia).
      replace (status_code r =? 200) with false by (symmetry; apply Z.eqb_neq; lia).
      cbn.
      replace (400 <=? status_code r) with true by (symmetry; apply Z.leb_le; lia).
      replace (status_code r <? 500) with true by (symmetry; apply Z.ltb_lt; lia).
      reflexivity.
    + rewrite Hs. cbn. unfold lift, response_json. rewrite Hbody. cbn.
      apply no_text_or_confidence in H. unfold assert_. rewrite H. reflexivity.
Qed.

(** C10, as amended.  The check of the invalid audio file accepts any
    status in [400,500) and rejects status 500.  It accepts a status-200
    answer exactly when the body is a JSON object whose ["text"] is
    missing, [null] or the empty string, or whose ["confidence"] is
    missing, [null] or equal to 0 under Python's [==]; so an answer with a
    non-empty text and confidence 0 is accepted. *)
Theorem invalid_audio_accepted (env : Env) (backend : Backend) (tr : list Exchange) :
  (passes (TC009.invalid_audio_check env backend tr) <->
   exists r,
     backend tr (TC009.invalid_audio_request env) = Replied r /\
     (400 <= status_code r < 500 \/
      (status_code r = 200 /\
       exists d,
         body r = Some (JDict d) /\
         (lookup "text" d = None \/ lookup "text" d = Some JNull \/
          lookup "text" d = Some (JStr "") \/
          lookup "confidence" d = None \/ lookup "confidence" d = Some JNull \/
          exists v, lookup "confidence" d = Some v /\ py_eq v (JInt 0) = true))))
  /\ (forall r,
        backend tr (TC009.invalid_audio_request env) = Replied r ->
        status_code r = 500 ->
        ~ passes (TC009.invalid_audio_check env backend tr))
  /\ (forall r d text,
        backend tr (TC009.invalid_audio_request env) = Replied r ->
        status_code r = 200 ->
        body r = Some (JDict d) ->
        lookup "text" d = Some (JStr text) ->
        lookup "confidence" d = Some (JInt 0) ->
        passes (TC009.invalid_audio_check env backend tr)).
Proof.
  split; [apply invalid_audio_check_iff|]. split.
  - intros r Hb Hs Hp. apply invalid_audio_check_iff in Hp.
    destruct Hp as (r' & Hb' & H). rewrite Hb in Hb'. injection Hb' as <-.
    destruct H as [H|[H _]]; lia.
  - intros r d text Hb Hs Hbody Ht Hc. apply invalid_audio_check_iff.
    exists r. split; [exact Hb|]. right. split; [exact Hs|].
    exists d. split; [exact Hbody|].
    right; right; right; right; right. exists (JInt 0). now split.
Qed.

(** [invalid_audio_accepted] applies to a backend that answers with a
    recognized text and confidence 0. *)
Lemma invalid_audio_accepted_witness :
  Backends.zero_confidence [] (TC009.invalid_audio_request Backends.default_env)
  = Replied (mkResponse 200 (Some (JDict [("text", JStr "hello"); ("confidence", JInt 0)]))) /\
  passes (TC009.invalid_audio_check Backends.default_env Backends.zero_confidence []).
Proof.
  split; [reflexivity|].
  exact (proj2 (proj2 (invalid_audio_accepted Backends.default_env Backends.zero_confidence []))
           (mkResponse 200 (Some (JDict [("text", JStr "hello"); ("confidence", JInt 0)])))
           [("text", JStr "hello"); ("confidence", JInt 0)] "hello"
           eq_refl eq_refl eq_refl eq_refl eq_refl).
Defined.

(** C10 as stated fails.  A status-200 answer whose ["text"] is present
    with value [null] and whose ["confidence"] is 1 is accepted, although
    neither field is missing, the text is not the empty string and the
    confidence is not 0; and a status-200 answer whose body is a list, which
    has no ["text"] field, is rejected with an [AttributeError]. *)
Lemma invalid_audio_null_text :
  (passes (TC009.invalid_audio_check Backends.default_env Backends.null_text []) /\
   exists r d,
     Backends.null_text [] (TC009.invalid_audio_request Backends.default_env) = Replied r /\
     status_code r = 200 /\
     body r = Some (JDict d) /\
     has_key "text" d = true /\
     lookup "text" d <> Some (JStr "") /\
     has_key "confidence" d = true /\
     lookup "confidence" d = Some (JInt 1) /\
     py_eq (JInt 1) (JInt 0) = false) /\
  (exists r,
     Backends.list_body [] (TC009.invalid_audio_request Backends.default_env) = Replied r /\
     status_code r = 200 /\
     body r = Some (JList []) /\
     fst (TC009.invalid_audio_check Backends.default_env Backends.list_body [])
     = Raised AttributeError).
Proof.
  split.
  - split; [apply passes_run; vm_compute; reflexivity|].
    eexists _, _. split; [reflexivity|]. cbn.
    repeat split; try reflexivity. discriminate.
  - eexists. split; [reflexivity|]. cbn. repeat split.
Qed.

(** ** TC010: requests that speech synthesis must refuse *)

(** X17.  What the script checks: a request that must be refused passes
    exactly when it is answered with a status of at least 400. *)
Lemma refused_check_iff (env : Env) (backend : Backend) (p : json) (what during : string)
    (tr : list Exchange) :
  passes (TC010.refused_check env backend p what during tr) <->
  exists r, backend tr (TC010.synthesize_request env p) = Replied r /\ 400 <= status_code r.
Proof.
  unfold TC010.refused_check, TC010.on_exception, requests_post. split.
  - intros H. apply passes_inv in H. destruct H as ([] & tr' & H).
    repeat inv_ok.
    match goal with Hb : backend tr _ = Replied ?r |- _ => exists r; split; [exact Hb|] end.
    now apply Z.leb_le.
  - intros (r & Hb & Hs).
    apply passes_intro with (a := tt)
      (tr' := (tr ++ [(TC010.synthesize_request env p, Replied r)])%list).
    unfold try_except, bind.
    change (mkRequest POST (TC010.synthesize_url env) [] TC010.HEADERS (JsonBody p)
              TC010.TIMEOUT) with (TC010.synthesize_request env p).
    rewrite (send_replied _ _ _ _ Hb). unfold assert_.
    replace (400 <=? status_code r) with true by (symmetry; now apply Z.leb_le).
    reflexivity.
Qed.

(** The valid request passes only with status 200 and an object whose
    ["audioUrl"] is a string that starts with ["http"]. *)
Lemma valid_synthesis_check_ok (env : Env) (backend : Backend) (tr : list Exchange) :
  passes (TC010.valid_synthesis_check env backend tr) ->
  exists r d s,
    backend tr (TC010.synthesize_request env TC010.valid_payload) = Replied r /\
    status_code r = 200 /\
    body r = Some (JDict d) /\
    lookup "audioUrl" d = Some (JStr s) /\
    startswith s "http" = true.
Proof.
  unfold TC010.valid_synthesis_check, TC010.on_exception, requests_post.
  intros H. apply passes_inv in H. destruct H as ([] & tr' & H).
  repeat inv_ok.
  match goal with
  | Hb : backend tr _ = Replied ?r, Hd : body ?r = Some (JDict ?d),
    Ha : match ?a with _ => _ end = true |- _ =>
      destruct a as [ | | | |s| | ]; try discriminate Ha; exists r, d, s
  end.
  repeat split; try assumption. now apply Z.eqb_eq.
Qed.

(** C4 fails on the code: the script returns on a backend that answers the
    request without ["text"] (and the four other requests it must refuse)
    with status 500, which is not in [400,500). *)
Theorem synthesis_accepts_server_error :
  passes (TC010.test_text_to_speech_synthesis Backends.default_env Backends.server_errors []) /\
  exists r,
    In (TC010.synthesize_request Backends.default_env TC010.missing_text_payload, Replied r)
       (snd (TC010.test_text_to_speech_synthesis
               Backends.default_env Backends.server_errors [])) /\
    status_code r = 500 /\
    ~ 400 <= status_code r < 500.
Proof.
  split; [apply passes_run; vm_compute; reflexivity|].
  exists (mkResponse 500 (Some (JDict []))).
  split; [vm_compute; right; left; reflexivity|].
  cbn. split; [reflexivity|lia].
Qed.

(** * Further properties of the scripts *)

(** ** Runs, loops and exceptions *)

Lemma py_eq_str_iff v s : py_eq v (JStr s) = true <-> v = JStr s.
Proof.
  split; [apply py_eq_str|]. intros ->. cbn. apply String.eqb_refl.
Qed.

Lemma send_unreachable backend rq d tr :
  backend tr rq = Unreachable d ->
  send backend rq tr = (Raised (ConnectionError d), (tr ++ [(rq, Unreachable d)])%list).
Proof.
  unfold send. now intros ->.
Qed.

Lemma status_ok_false s :
  ~ 400 <= s < 600 -> ((400 <=? s) && (s <? 600)) = false.
Proof.
  intros H. apply andb_false_iff.
  destruct (Z.leb_spec 400 s); [|now left]. right. apply Z.ltb_ge. lia.
Qed.

Lemma raise_for_status_ok r u :
  raise_for_status r = Ok u -> ~ 400 <= status_code r < 600.
Proof.
  unfold raise_for_status.
  destruct ((400 <=? status_code r) && (status_code r <? 600)) eqn:E; [discriminate|].
  intros _ [Hlo Hhi]. apply Z.leb_le in Hlo. apply Z.ltb_lt in Hhi.
  rewrite Hlo, Hhi in E. discriminate E.
Qed.

(** The request-and-[raise_for_status] block of TC005, TC006 and TC007. *)
Lemma fetch_ok (backend : Backend) (rq : Request) (f : exn -> exn) tr r tr' :
  try_except
    (response <- send backend rq ;; lift (raise_for_status response) ;; ret response)
    (except is_RequestException (fun e => raise (f e))) tr = (Ok r, tr') <->
  backend tr rq = Replied r /\ ~ 400 <= status_code r < 600 /\
  tr' = (tr ++ [(rq, Replied r)])%list.
Proof.
  split.
  - intros H. apply try_reraise_ok in H.
    apply bind_ok in H. destruct H as (r0 & t1 & Hs & H).
    apply send_ok in Hs. destruct Hs as [Hb ->].
    apply bind_ok in H. destruct H as ([] & t2 & Hr & H).
    apply lift_ok in Hr. destruct Hr as [Hr ->].
    apply ret_ok in H. destruct H as [-> ->].
    split; [assumption|split; [eapply raise_for_status_ok; eassumption | reflexivity]].
  - intros (Hb & Hs & ->). unfold try_except, bind, lift, ret, raise_for_status.
    rewrite (send_replied _ _ _ _ Hb), (status_ok_false _ Hs). reflexivity.
Qed.

(** A loop whose body makes one exchange per item. *)
Lemma for_each_exchanges {A : Type} (P : Response -> Prop) (rq : A -> Request)
    (f : A -> M unit) (l : list A) tr tr' :
  (forall x t t', f x t = (Ok tt, t') ->
                  exists r, P r /\ t' = (t ++ [(rq x, Replied r)])%list) ->
  for_each l f tr = (Ok tt, tr') ->
  exists rs,
    List.length rs = List.length l /\ Forall P rs /\
    tr' = (tr ++ combine (map rq l) (map Replied rs))%list.
Proof.
  intros Hf. revert tr. induction l as [|x l IH]; intros tr H; cbn [for_each] in H.
  - unfold ret in H. injection H as <-. exists []. cbn. now rewrite app_nil_r.
  - apply bind_ok in H. destruct H as ([] & t1 & Hx & H).
    destruct (Hf _ _ _ Hx) as (r & Hr & ->).
    destruct (IH _ H) as (rs & Hlen & HP & ->).
    exists (r :: rs). cbn [List.length map combine]. repeat split.
    + now rewrite Hlen.
    + now constructor.
    + now rewrite <- app_assoc.
Qed.

Lemma for_each_unchanged {A : Type} (l : list A) (f : A -> M unit) tr u tr' :
  (forall x t v t', f x t = (Ok v, t') -> t' = t) ->
  for_each l f tr = (Ok u, tr') -> tr' = tr.
Proof.
  intros Hf. revert tr. induction l as [|x l IH]; intros tr H; cbn [for_each] in H.
  - unfold ret in H. now injection H as _ <-.
  - apply bind_ok in H. destruct H as (v & t1 & Hx & H).
    apply Hf in Hx. subst t1. now apply IH.
Qed.

Lemma for_each_all_ok {A : Type} (l : list A) (f : A -> M unit) tr :
  (forall x, In x l -> f x tr = (Ok tt, tr)) ->
  for_each l f tr = (Ok tt, tr).
Proof.
  induction l as [|x l IH]; intros H; cbn [for_each].
  - reflexivity.
  - rewrite (bind_eq _ _ _ _ _ (H x (or_introl eq_refl))).
    apply IH. intros y Hy. apply H. now right.
Qed.

Lemma map_snd_enumerate {A : Type} (l : list A) (start : Z) :
  map snd (enumerate l start) = l.
Proof.
  revert start. induction l as [|x l IH]; intros start; cbn; [reflexivity|].
  now rewrite IH.
Qed.

Lemma raises_only_ret P {A : Type} (a : A) : raises_only P (ret a).
Proof. intros tr e tr' H. discriminate H. Qed.

Lemma raises_only_raise (P : exn -> Prop) {A : Type} (e : exn) :
  P e -> raises_only P (@raise A e).
Proof. intros HP tr e' tr' H. injection H as <- _. exact HP. Qed.

Lemma raises_only_assert (P : exn -> Prop) c msg :
  P (AssertionError msg) -> raises_only P (assert_ c msg).
Proof.
  intros HP. unfold assert_. destruct c; [apply raises_only_ret | now apply raises_only_raise].
Qed.

Lemma raises_only_send (P : exn -> Prop) backend rq :
  (forall d, P (ConnectionError d)) -> raises_only P (send backend rq).
Proof.
  intros HP tr e tr' H. unfold send in H.
  destruct (backend tr rq); [discriminate H|]. injection H as <- _. apply HP.
Qed.

Lemma raises_only_bind P {A B : Type} (m : M A) (k : A -> M B) :
  raises_only P m -> (forall a, raises_only P (k a)) -> raises_only P (bind m k).
Proof.
  intros Hm Hk tr e tr' H. unfold bind in H.
  destruct (m tr) as [[a|e0] t] eqn:E.
  - exact (Hk a _ _ _ H).
  - injection H as <- _. exact (Hm _ _ _ E).
Qed.

Lemma raises_only_for_each P {A : Type} (l : list A) (f : A -> M unit) :
  (forall x, raises_only P (f x)) -> raises_only P (for_each l f).
Proof.
  intros Hf. induction l as [|x l IH]; cbn [for_each].
  - apply raises_only_ret.
  - apply raises_only_bind; auto.
Qed.

Lemma raises_only_try (Q P : exn -> Prop) {A : Type} (m : M A) handler :
  raises_only Q m ->
  (forall e, Q e -> match handler e with
                    | Some h => raises_only P h
                    | None => P e
                    end) ->
  raises_only P (try_except m handler).
Proof.
  intros Hm Hh tr e tr' H. unfold try_except in H.
  destruct (m tr) as [[a|e0] t] eqn:E; [discriminate H|].
  specialize (Hh e0 (Hm _ _ _ E)).
  destruct (handler e0) as [h|].
  - exact (Hh _ _ _ H).
  - injection H as <- _. exact Hh.
Qed.

Lemma raises_only_any_try P {A : Type} (m : M A) (f : exn -> exn) :
  (forall e, P (f e)) ->
  raises_only P (try_except m (except is_Exception (fun e => raise (f e)))).
Proof.
  intros HP tr e tr' H. unfold try_except, except, is_Exception, raise in H.
  destruct (m tr) as [[a|e0] t]; [discriminate H|]. injection H as <- _. apply HP.
Qed.

Lemma prefix_app a b : String.prefix a (a ++ b) = true.
Proof.
  induction a as [|c a IH]; cbn.
  - destruct b; reflexivity.
  - destruct (ascii_dec c c); [exact IH | congruence].
Qed.

Lemma sends_only_if P {A : Type} (c : bool) (m1 m2 : M A) :
  sends_only P m1 -> sends_only P m2 -> sends_only P (if c then m1 else m2).
Proof. destruct c; auto. Qed.

(** One step of the decomposition of a goal [sends_only P m] where [P]
    asks for the timeout and the base URL. *)
Ltac sends_step :=
  first
    [ apply sends_only_ret
    | apply sends_only_raise
    | apply sends_only_lift
    | apply sends_only_assert
    | apply sends_only_send; split; [reflexivity | apply prefix_app]
    | apply sends_only_bind; [|intros ?]
    | apply sends_only_if
    | apply sends_only_try; [|intros ? ? ?; eapply sends_only_except; [intros ?|eassumption]]
    | apply sends_only_for_each; intros ? ].

(** ** TC001: the error bodies, the whole script, its failures *)

Lemma error_structure_check_eq (res : Response) (tr : list Exchange) :
  TC001.error_structure_check res tr =
  (match body res with
   | None =>
       match decode_failure res with
       | NestingTooDeep => Raised RecursionError
       | _ => Ok tt
       end
   | Some (JDict d) =>
       if has_key "error" d || has_key "message" d || has_key "detail" d
          || (Z.of_nat (List.length d) =? 0)
       then Ok tt
       else Raised (AssertionError [Lit "Error response does not contain error info"])
   | Some _ => Raised (AssertionError [Lit "Error response is not a JSON object"])
   end, tr).
Proof.
  unfold TC001.error_structure_check, try_except, bind, lift, response_json, except,
    assert_, ret, raise.
  destruct (body res) as [v|]; [|destruct (decode_failure res); reflexivity].
  destruct v; try reflexivity.
  cbn. destruct (has_key "error" d); [reflexivity|].
  destruct (has_key "message" d); [reflexivity|].
  destruct (has_key "detail" d); cbn; [reflexivity|].
  destruct (Z.of_nat (Datatypes.length d) =? 0); reflexivity.
Qed.

(** X1.  The check of an error response (the loop body of lines 68-77)
    returns exactly when the decoder refuses the body with a [ValueError]
    (the text is not JSON, or holds an integer too long to convert), or the
    body decodes to an object that is empty or holds one of the keys
    ["error"], ["message"], ["detail"]; a decoded body that is not an
    object fails it.  The check sends nothing.  It fails with an
    [AssertionError], or with the decoder's [RecursionError] when the body
    is nested too deep: [except ValueError] does not catch that one. *)
Lemma error_structure_check_iff (res : Response) (tr : list Exchange) :
  (passes (TC001.error_structure_check res tr) <->
   (body res = None /\ decode_failure res <> NestingTooDeep) \/
   exists d, body res = Some (JDict d) /\
             (d = [] \/ has_key "error" d = true \/ has_key "message" d = true \/
              has_key "detail" d = true))
  /\ snd (TC001.error_structure_check res tr) = tr
  /\ (forall e, fst (TC001.error_structure_check res tr) = Raised e ->
                (class_name e = "AssertionError" /\ exists v, body res = Some v) \/
                (e = RecursionError /\ body res = None /\
                 decode_failure res = NestingTooDeep)).
Proof.
  rewrite error_structure_check_eq. unfold passes. cbn [fst snd].
  split; [|split; [reflexivity|]].
  - destruct (body res) as [v|].
    2:{ destruct (decode_failure res);
          (split;
           [ intros [a H]; first [discriminate H | left; split; [reflexivity|discriminate]]
           | intros [[_ H]|(d & H & _)];
             [first [now exists tt | now contradiction H] | discriminate H] ]). }
    destruct v; try (split; [intros [a H]; discriminate H
                            | intros [[H _]|(d & H & _)]; discriminate H]).
    destruct (has_key "error" d) eqn:E1; cbn [orb].
    { split; [intros _; right; exists d; auto | intros _; now exists tt]. }
    destruct (has_key "message" d) eqn:E2; cbn [orb].
    { split; [intros _; right; exists d; auto | intros _; now exists tt]. }
    destruct (has_key "detail" d) eqn:E3; cbn [orb].
    { split; [intros _; right; exists d; auto 6 | intros _; now exists tt]. }
    destruct d as [|p d].
    { split; [intros _; right; exists []; auto | intros _; now exists tt]. }
    replace (Z.of_nat (Datatypes.length (p :: d)) =? 0) with false
      by (symmetry; apply Z.eqb_neq; cbn [Datatypes.length]; lia).
    split; [intros [a H]; discriminate H|].
    intros [[H _]|(d' & H & H')]; [discriminate H|].
    injection H as <-. destruct H' as [H'|[H'|[H'|H']]]; congruence.
  - destruct (body res) as [v|].
    2:{ destruct (decode_failure res); try discriminate.
        intros e H; injection H as <-. right. auto. }
    destruct v; try (intros e H; injection H as <-; left; split; [reflexivity|eauto]).
    destruct (_ || _); [discriminate|].
    intros e H; injection H as <-; left; split; [reflexivity|eauto].
Qed.

Lemma valid_credentials_check_ok (env : Env) (backend : Backend) (tr tr' : list Exchange) :
  TC001.valid_credentials_check env backend tr = (Ok tt, tr') <->
  exists r d user token,
    backend tr (TC001.signin_request env (TC001.valid_payload env)) = Replied r /\
    status_code r = 200 /\
    body r = Some (JDict d) /\
    lookup "user" d = Some (JDict user) /\
    lookup "token" d = Some (JStr token) /\
    token <> "" /\
    tr' = (tr ++ [(TC001.signin_request env (TC001.valid_payload env), Replied r)])%list.
Proof.
  unfold TC001.valid_credentials_check, requests_post.
  change (mkRequest POST (TC001.signin_url env) [] TC001.HEADERS
            (JsonBody (TC001.valid_payload env)) TC001.TIMEOUT)
    with (TC001.signin_request env (TC001.valid_payload env)).
  split.
  - intros H. repeat inv_ok.
    match goal with
    | Hu : isinstance_dict ?u = true, Ht : match ?t with _ => _ end = true |- _ =>
        destruct u as [ | | | | | |user]; try discriminate Hu;
        destruct t as [ | | | |token| | ]; try discriminate Ht;
        destruct token as [|c token]; [discriminate Ht|]
    end.
    match goal with
    | Hb : backend tr _ = Replied ?r, Hd : body ?r = Some (JDict ?d) |- _ =>
        exists r, d, user, (String c token)
    end.
    repeat split; auto; [now apply Z.eqb_eq | discriminate].
  - intros (r & d & user & token & Hb & Hs & Hbody & Hu & Ht & Hne & ->).
    unfold bind, try_except, lift, assert_, ret, raise, response_json.
    rewrite (send_replied _ _ _ _ Hb), Hs, Hbody. cbn.
    unfold has_key. rewrite Hu, Ht. cbn.
    destruct token; [congruence|]. reflexivity.
Qed.

(** The shape of the two invalid-credentials checks. *)
Lemma rejected_signin_ok (backend : Backend) (rq : Request) msg1 msg2 tr r tr' :
  (res <- try_except (send backend rq)
            (except is_RequestException (fun e => raise (AssertionError [Lit msg1; Exc e]))) ;;
   assert_ (negb (status_code res =? 200)) [Lit msg2] ;;
   ret res) tr = (Ok r, tr') <->
  backend tr rq = Replied r /\ status_code r <> 200 /\
  tr' = (tr ++ [(rq, Replied r)])%list.
Proof.
  split.
  - intros H. repeat inv_ok.
    match goal with Hn : negb _ = true |- _ => apply negb_true_iff, Z.eqb_neq in Hn end.
    auto.
  - intros (Hb & Hs & ->).
    unfold bind, try_except, assert_, ret.
    rewrite (send_replied _ _ _ _ Hb).
    apply Z.eqb_neq in Hs. rewrite Hs. reflexivity.
Qed.

Lemma error_structure_check_ok (res : Response) (tr tr' : list Exchange) :
  TC001.error_structure_check res tr = (Ok tt, tr') <->
  ((body res = None /\ decode_failure res <> NestingTooDeep) \/
   exists d, body res = Some (JDict d) /\
             (d = [] \/ has_key "error" d = true \/ has_key "message" d = true \/
              has_key "detail" d = true)) /\ tr' = tr.
Proof.
  split.
  - intros H. split.
    + apply (proj1 (error_structure_check_iff res tr)). rewrite H. now exists tt.
    + pose proof (proj1 (proj2 (error_structure_check_iff res tr))) as Hs.
      rewrite H in Hs. exact Hs.
  - intros [H ->]. apply (proj1 (error_structure_check_iff res tr)) in H.
    pose proof (proj1 (proj2 (error_structure_check_iff res tr))) as Hs.
    destruct (TC001.error_structure_check res tr) as [[[]|e] t]; cbn in *.
    + now subst.
    + destruct H as [a H]. discriminate H.
Qed.

(** X2.  The sign-in script returns exactly when its three requests, sent
    in the order valid credentials, invalid email, invalid password, are
    answered: the first with status 200 and an object with an object
    ["user"] and a non-empty string ["token"]; the two others with a status
    other than 200 and a body that passes the error-response check: one
    the decoder refuses with a [ValueError], or an object that is empty or
    holds ["error"], ["message"] or ["detail"].  A passing run made exactly
    these three exchanges. *)
Theorem signin_script_passes_iff (env : Env) (backend : Backend) (tr : list Exchange) :
  let error_info r :=
    (body r = None /\ decode_failure r <> NestingTooDeep) \/
    exists d, body r = Some (JDict d) /\
              (d = [] \/ has_key "error" d = true \/ has_key "message" d = true \/
               has_key "detail" d = true) in
  let rq1 := TC001.signin_request env (TC001.valid_payload env) in
  let rq2 := TC001.signin_request env (TC001.invalid_email_payload env) in
  let rq3 := TC001.signin_request env (TC001.invalid_password_payload env) in
  passes (TC001.test_signin_with_valid_and_invalid_credentials env backend tr) <->
  exists r1 r2 r3 d user token,
    backend tr rq1 = Replied r1 /\
    status_code r1 = 200 /\ body r1 = Some (JDict d) /\
    lookup "user" d = Some (JDict user) /\ lookup "token" d = Some (JStr token) /\
    token <> "" /\
    backend (tr ++ [(rq1, Replied r1)])%list rq2 = Replied r2 /\
    status_code r2 <> 200 /\ error_info r2 /\
    backend (tr ++ [(rq1, Replied r1); (rq2, Replied r2)])%list rq3 = Replied r3 /\
    status_code r3 <> 200 /\ error_info r3 /\
    snd (TC001.test_signin_with_valid_and_invalid_credentials env backend tr)
    = (tr ++ [(rq1, Replied r1); (rq2, Replied r2); (rq3, Replied r3)])%list.
Proof.
  intros error_info rq1 rq2 rq3.
  unfold TC001.test_signin_with_valid_and_invalid_credentials.
  split.
  - intros H. apply passes_inv in H. destruct H as ([] & tr' & H).
    pose proof H as Hrun.
    apply bind_ok in H. destruct H as ([] & t1 & H1 & H).
    apply bind_ok in H. destruct H as (r2 & t2 & H2 & H).
    apply bind_ok in H. destruct H as (r3 & t3 & H3 & H).
    apply valid_credentials_check_ok in H1.
    destruct H1 as (r1 & d & user & token & Hb1 & Hs1 & Hd & Hu & Ht & Hne & ->).
    apply rejected_signin_ok in H2. destruct H2 as (Hb2 & Hs2 & ->).
    apply rejected_signin_ok in H3. destruct H3 as (Hb3 & Hs3 & ->).
    cbn [for_each] in H.
    apply bind_ok in H. destruct H as ([] & t4 & He2 & H).
    apply bind_ok in H. destruct H as ([] & t5 & He3 & H).
    apply error_structure_check_ok in He2. destruct He2 as [He2 ->].
    apply error_structure_check_ok in He3. destruct He3 as [He3 ->].
    unfold ret in H. injection H as <-.
    rewrite <- app_assoc in Hb3. cbn [app] in Hb3.
    exists r1, r2, r3, d, user, token.
    repeat split; try assumption.
    rewrite Hrun. cbn [snd]. rewrite <- !app_assoc. reflexivity.
  - intros (r1 & r2 & r3 & d & user & token & Hb1 & Hs1 & Hd & Hu & Ht & Hne & Hb2 & Hs2 &
            He2 & Hb3 & Hs3 & He3 & _).
    assert (H1 : TC001.valid_credentials_check env backend tr
                 = (Ok tt, (tr ++ [(rq1, Replied r1)])%list)).
    { apply valid_credentials_check_ok. exists r1, d, user, token. repeat split; assumption. }
    assert (H2 : TC001.invalid_email_check env backend (tr ++ [(rq1, Replied r1)])%list
                 = (Ok r2, ((tr ++ [(rq1, Replied r1)]) ++ [(rq2, Replied r2)])%list)).
    { apply rejected_signin_ok. repeat split; assumption. }
    assert (H3 : TC001.invalid_password_check env backend
                   ((tr ++ [(rq1, Replied r1)]) ++ [(rq2, Replied r2)])%list
                 = (Ok r3, (((tr ++ [(rq1, Replied r1)]) ++ [(rq2, Replied r2)])
                            ++ [(rq3, Replied r3)])%list)).
    { apply rejected_signin_ok. rewrite <- app_assoc. repeat split; assumption. }
    rewrite (bind_eq _ _ _ _ _ H1), (bind_eq _ _ _ _ _ H2), (bind_eq _ _ _ _ _ H3).
    cbn [for_each].
    rewrite (bind_eq _ _ _ _ _ (proj2 (error_structure_check_ok r2 _ _) (conj He2 eq_refl))).
    rewrite (bind_eq _ _ _ _ _ (proj2 (error_structure_check_ok r3 _ _) (conj He3 eq_refl))).
    now exists tt.
Qed.

Lemma valid_credentials_check_raises (env : Env) (backend : Backend) :
  raises_only (fun e => class_name e = "AssertionError" \/ class_name e = "TypeError" \/
                        class_name e = "RecursionError")
    (TC001.valid_credentials_check env backend).
Proof.
  intros tr e tr'.
  unfold TC001.valid_credentials_check, requests_post, bind, try_except, except, send, lift,
    response_json, assert_, ret, raise.
  destruct (backend tr _) as [r|d]; [|cbn; intros H; injection H as <- _; now left].
  destruct r as [st b f]. cbn [status_code body decode_failure].
  destruct (st =? 200); [|intros H; injection H as <- _; now left].
  destruct b as [v|]; [|destruct f; cbn; intros H; injection H as <- _; auto].
  cbn [is_ValueError].
  destruct v; try (cbn; intros H; injection H as <- _; now auto).
  - (* a string *)
    cbn [py_in].
    destruct (String.index 0 "user" s); intros H; injection H as <- _; auto.
  - (* a list *)
    cbn [py_in].
    destruct (existsb _ l); intros H; injection H as <- _; auto.
  - (* an object *)
    cbn [py_in py_getitem]. unfold has_key.
    destruct (lookup "user" d) as [u|]; [|intros H; injection H as <- _; now left].
    destruct (isinstance_dict u); [|intros H; injection H as <- _; now left].
    destruct (lookup "token" d) as [t|]; [|intros H; injection H as <- _; now left].
    destruct (match t with JStr s => _ | _ => false end); [discriminate|].
    intros H; injection H as <- _; now left.
Qed.

Lemma rejected_signin_raises (backend : Backend) (rq : Request) msg1 msg2 :
  raises_only (fun e => class_name e = "AssertionError" \/ class_name e = "TypeError" \/
                        class_name e = "RecursionError")
    (res <- try_except (send backend rq)
              (except is_RequestException (fun e => raise (AssertionError [Lit msg1; Exc e]))) ;;
     assert_ (negb (status_code res =? 200)) [Lit msg2] ;;
     ret res).
Proof.
  apply raises_only_bind.
  - apply raises_only_try with (Q := fun e => is_RequestException e = true).
    + apply raises_only_send. reflexivity.
    + intros e He. unfold except. rewrite He. apply raises_only_raise. now left.
  - intros r. apply raises_only_bind; [apply raises_only_assert; now left|].
    intros _. apply raises_only_ret.
Qed.

(** X3.  Whatever the backend answers, the sign-in script fails only with
    an [AssertionError], with a [TypeError] when the body of the valid
    sign-in decodes to a value that is not an object, or with the
    [RecursionError] of the decoder on a body nested too deep, which the
    [except ValueError] clauses of lines 34 and 75 do not catch.  The
    decoder's plain [ValueError] never leaves the script: line 34 turns it
    into an [AssertionError], line 75 drops it. *)
Theorem signin_script_failure_classes (env : Env) (backend : Backend)
    (tr tr' : list Exchange) (e : exn) :
  TC001.test_signin_with_valid_and_invalid_credentials env backend tr = (Raised e, tr') ->
  class_name e = "AssertionError" \/ class_name e = "TypeError" \/
  class_name e = "RecursionError".
Proof.
  revert tr e tr'.
  change (raises_only (fun e => class_name e = "AssertionError" \/ class_name e = "TypeError" \/
                                class_name e = "RecursionError")
            (TC001.test_signin_with_valid_and_invalid_credentials env backend)).
  unfold TC001.test_signin_with_valid_and_invalid_credentials.
  apply raises_only_bind; [apply valid_credentials_check_raises|]. intros _.
  apply raises_only_bind; [apply rejected_signin_raises|]. intros r2.
  apply raises_only_bind; [apply rejected_signin_raises|]. intros r3.
  apply raises_only_for_each. intros r t e t' H.
  rewrite error_structure_check_eq in H.
  destruct (body r) as [v|].
  2:{ destruct (decode_failure r); try discriminate H. injection H as <- _. auto. }
  left.
  destruct v; try (injection H as <- _; reflexivity).
  destruct (_ || _); [discriminate H|]. injection H as <- _. reflexivity.
Qed.

(** [signin_script_failure_classes] applies to the run on a backend that
    refuses the invalid email with a body nested too deep: the three
    requests are sent, then the error-response check ends the script with
    the decoder's [RecursionError]. *)
Lemma signin_script_failure_classes_witness :
  TC001.test_signin_with_valid_and_invalid_credentials
    Backends.default_env Flows.deep_error_body []
  = (Raised RecursionError,
     [(TC001.signin_request Backends.default_env (TC001.valid_payload Backends.default_env),
       Backends.signin_ok);
      (TC001.signin_request Backends.default_env
         (TC001.invalid_email_payload Backends.default_env),
       Flows.refused 401 NestingTooDeep);
      (TC001.signin_request Backends.default_env
         (TC001.invalid_password_payload Backends.default_env),
       Backends.unauthorized)]) /\
  (class_name RecursionError = "AssertionError" \/
   class_name RecursionError = "TypeError" \/
   class_name RecursionError = "RecursionError").
Proof.
  split; [reflexivity|].
  exact (signin_script_failure_classes Backends.default_env Flows.deep_error_body
           [] _ _ eq_refl).
Defined.

(** Error bodies the decoder refuses with a [ValueError] are let through
    by line 75: the script returns. *)
Lemma signin_refused_error_bodies :
  fst (TC001.test_signin_with_valid_and_invalid_credentials
         Backends.default_env Flows.refused_error_bodies []) = Ok tt.
Proof. reflexivity. Qed.

(** ** TC002: the valid sign-up and the whole script *)

Lemma field_or_user_field_eq d k :
  TC002.field_or_user_field (JDict d) k =
  match lookup "user" d with
  | None => Ok (match lookup k d with Some x => x | None => JNull end)
  | Some (JDict u) =>
      Ok (match lookup k d with
          | Some x => x
          | None => match lookup k u with Some y => y | None => JNull end
          end)
  | Some _ => Raised AttributeError
  end.
Proof.
  unfold TC002.field_or_user_field. cbn.
  destruct (lookup "user" d) as [u|]; cbn.
  - destruct u; reflexivity.
  - destruct (lookup k d); reflexivity.
Qed.

Lemma capture_user_id_total d :
  (lookup "user" d = None \/ exists u, lookup "user" d = Some (JDict u)) ->
  exists v, TC002.capture_user_id (JDict d) = Ok v.
Proof.
  intros H. unfold TC002.capture_user_id. cbn. unfold has_key.
  destruct (lookup "id" d) as [i|]; [now exists i|].
  destruct H as [H|(u & H)]; rewrite H; [now exists JNull|].
  cbn. unfold has_key. destruct (lookup "id" u) as [i|]; [now exists i | now exists JNull].
Qed.

(** The name (or the email) of the created user is the top-level field,
    or else the field of the ["user"] object. *)
Lemma field_is_str d k s :
  (lookup "user" d = None \/ exists u, lookup "user" d = Some (JDict u)) ->
  (exists x, TC002.field_or_user_field (JDict d) k = Ok x /\ py_eq x (JStr s) = true) <->
  (lookup k d = Some (JStr s) \/
   (lookup k d = None /\
    exists u, lookup "user" d = Some (JDict u) /\ lookup k u = Some (JStr s))).
Proof.
  intros Hu. rewrite field_or_user_field_eq. split.
  - intros (x & Hx & He). apply py_eq_str in He. subst x.
    destruct Hu as [Hu|(u & Hu)]; rewrite Hu in Hx.
    + destruct (lookup k d); [left; congruence | discriminate].
    + destruct (lookup k d); [left; congruence|].
      right. split; [reflexivity|]. exists u. split; [assumption|].
      destruct (lookup k u); [congruence | discriminate].
  - intros [H|(H & u & Hu' & Hk)].
    + exists (JStr s). split; [|now apply py_eq_str_iff].
      rewrite H. destruct Hu as [Hu|(u & Hu)]; rewrite Hu; reflexivity.
    + exists (JStr s). split; [|now apply py_eq_str_iff].
      rewrite Hu', H, Hk. reflexivity.
Qed.

(** X4.  The valid sign-up check returns exactly when the answer has status
    200 or 201 and a JSON object that holds ["id"] or ["user"], whose
    ["user"], if present, is an object, and whose name and email (the
    top-level field or else the field of ["user"]) are the submitted name
    and email.  A ["user"] that is present but is not an object fails the
    check even when the name and the email are at the top level. *)
Theorem valid_signup_check_iff (env : Env) (backend : Backend) (uuid : string)
    (tr : list Exchange) :
  let field d k s :=
    lookup k d = Some (JStr s) \/
    (lookup k d = None /\
     exists u, lookup "user" d = Some (JDict u) /\ lookup k u = Some (JStr s)) in
  passes (TC002.valid_signup_check env backend uuid tr) <->
  exists r d,
    backend tr (TC002.signup_request env (TC002.valid_user env uuid)) = Replied r /\
    (status_code r = 200 \/ status_code r = 201) /\
    body r = Some (JDict d) /\
    (has_key "id" d = true \/ has_key "user" d = true) /\
    (lookup "user" d = None \/ exists u, lookup "user" d = Some (JDict u)) /\
    field d "name" "Test User" /\
    field d "email" ("testuser_" ++ uuid ++ "@example.com").
Proof.
  intros field.
  unfold TC002.valid_signup_check, requests_post.
  change (mkRequest POST (TC002.signup_url env) [] TC002.HEADERS
            (JsonBody (TC002.valid_user env uuid)) TC002.TIMEOUT)
    with (TC002.signup_request env (TC002.valid_user env uuid)).
  split.
  - intros H. apply passes_inv in H. destruct H as ([] & tr' & H).
    apply bind_ok in H. destruct H as (r & t1 & Hs & H).
    apply send_ok in Hs. destruct Hs as [Hb ->].
    apply bind_ok in H. destruct H as ([] & t2 & Hst & H).
    apply assert_ok in Hst. destruct Hst as [Hst ->].
    apply bind_ok in H. destruct H as (j & t3 & Hj & H).
    apply lift_ok in Hj. destruct Hj as [Hj ->]. apply response_json_ok in Hj.
    apply bind_ok in H. destruct H as ([] & t4 & Hd & H).
    apply assert_ok in Hd. destruct Hd as [Hd ->].
    destruct j as [ | | | | | |d]; try discriminate Hd.
    apply bind_ok in H. destruct H as (hid & t5 & Hi & H).
    apply lift_ok in Hi. destruct Hi as [Hi ->]. cbn in Hi. injection Hi as <-.
    apply bind_ok in H. destruct H as (hus & t6 & Hu & H).
    apply lift_ok in Hu. destruct Hu as [Hu ->]. cbn in Hu. injection Hu as <-.
    apply bind_ok in H. destruct H as ([] & t7 & Ha & H).
    apply assert_ok in Ha. destruct Ha as [Ha ->].
    apply bind_ok in H. destruct H as (uid & t8 & Hc & H).
    apply lift_ok in Hc. destruct Hc as [Hc ->].
    apply bind_ok in H. destruct H as (name & t9 & Hn & H).
    apply lift_ok in Hn. destruct Hn as [Hn ->].
    apply bind_ok in H. destruct H as (en & t10 & Hen & H).
    apply lift_ok in Hen. destruct Hen as [Hen ->]. cbn in Hen. injection Hen as <-.
    apply bind_ok in H. destruct H as ([] & t11 & Hne & H).
    apply assert_ok in Hne. destruct Hne as [Hne ->].
    apply bind_ok in H. destruct H as (email & t12 & Hem & H).
    apply lift_ok in Hem. destruct Hem as [Hem ->].
    apply bind_ok in H. destruct H as (ee & t13 & Hee & H).
    apply lift_ok in Hee. destruct Hee as [Hee ->]. cbn in Hee. injection Hee as <-.
    apply assert_ok in H. destruct H as [Hee _].
    assert (Huser : lookup "user" d = None \/ exists u, lookup "user" d = Some (JDict u)).
    { rewrite field_or_user_field_eq in Hn.
      destruct (lookup "user" d) as [u|]; [|now left].
      destruct u; try discriminate Hn. right. eauto. }
    exists r, d. repeat split; try assumption.
    + apply orb_true_iff in Hst. destruct Hst as [E|E]; apply Z.eqb_eq in E; auto.
    + now apply orb_true_iff.
    + apply (field_is_str d "name" "Test User" Huser). eauto.
    + apply (field_is_str d "email" _ Huser). eauto.
  - intros (r & d & Hb & Hst & Hbody & Hid & Huser & Hn & He).
    apply (field_is_str d "name" "Test User" Huser) in Hn. destruct Hn as (n & Hn & Hn').
    apply (field_is_str d "email" _ Huser) in He. destruct He as (e & He & He').
    destruct (capture_user_id_total d Huser) as (uid & Huid).
    apply passes_intro with (a := tt)
      (tr' := (tr ++ [(TC002.signup_request env (TC002.valid_user env uuid), Replied r)])%list).
    unfold bind, lift, assert_, ret, raise, response_json.
    rewrite (send_replied _ _ _ _ Hb), Hbody.
    replace ((status_code r =? 201) || (status_code r =? 200)) with true
      by (symmetry; apply orb_true_iff; destruct Hst as [E|E]; rewrite E; auto).
    cbn [isinstance_dict py_in].
    replace (has_key "id" d || has_key "user" d) with true
      by (symmetry; now apply orb_true_iff).
    rewrite Huid, Hn, He.
    change (py_getitem (TC002.valid_user env uuid) "name") with (Ok (JStr "Test User")).
    change (py_getitem (TC002.valid_user env uuid) "email")
      with (Ok (JStr ("testuser_" ++ uuid ++ "@example.com"))).
    cbv iota beta. rewrite Hn'. cbv iota beta. rewrite He'. reflexivity.
Qed.

Lemma invalid_signup_check_ok (env : Env) (backend : Backend) x t t' :
  TC002.invalid_signup_check env backend x t = (Ok tt, t') ->
  exists r, 400 <= status_code r < 500 /\
            t' = (t ++ [(TC002.signup_request env x, Replied r)])%list.
Proof.
  unfold TC002.invalid_signup_check, requests_post. intros H. repeat inv_ok.
  match goal with Hb : backend _ _ = Replied ?r |- _ => exists r end.
  split; [now apply range_4xx | reflexivity].
Qed.

(** X5.  A passing run of the sign-up script made exactly seven exchanges:
    the valid sign-up, then the six invalid payloads in the order of
    [invalid_users], each answered with a status in [400,500). *)
Theorem signup_script_exchanges (env : Env) (backend : Backend) (uuid : string)
    (tr : list Exchange) :
  passes (TC002.test_signup_with_valid_and_invalid_data env backend uuid tr) ->
  exists r0 rs,
    List.length rs = 6%nat /\
    Forall (fun r => 400 <= status_code r < 500) rs /\
    snd (TC002.test_signup_with_valid_and_invalid_data env backend uuid tr)
    = (tr ++ (TC002.signup_request env (TC002.valid_user env uuid), Replied r0)
          :: combine (map (TC002.signup_request env) (TC002.invalid_users env))
                     (map Replied rs))%list.
Proof.
  intros H. apply passes_inv in H. destruct H as ([] & tr' & H).
  rewrite H. cbn [snd].
  unfold TC002.test_signup_with_valid_and_invalid_data in H.
  apply bind_ok in H. destruct H as ([] & t1 & Hv & H).
  assert (Ht1 : exists r0,
             t1 = (tr ++ [(TC002.signup_request env (TC002.valid_user env uuid),
                           Replied r0)])%list).
  { unfold TC002.valid_signup_check, requests_post in Hv.
    apply bind_ok in Hv. destruct Hv as (r0 & t0 & Hs & Hv).
    apply send_ok in Hs. destruct Hs as [_ ->].
    exists r0. repeat inv_ok. reflexivity. }
  destruct Ht1 as (r0 & ->).
  apply (for_each_exchanges (fun r => 400 <= status_code r < 500)
           (TC002.signup_request env)) in H;
    [|apply invalid_signup_check_ok].
  destruct H as (rs & Hlen & HP & ->).
  exists r0, rs. repeat split; [exact Hlen | exact HP |].
  now rewrite <- app_assoc.
Qed.

(** [signup_script_exchanges] applies to a backend on which the sign-up
    script returns. *)
Lemma signup_script_exchanges_witness :
  passes (TC002.test_signup_with_valid_and_invalid_data
            Backends.default_env Backends.signup_backend "0000" []) /\
  exists r0 rs,
    List.length rs = 6%nat /\
    Forall (fun r => 400 <= status_code r < 500) rs /\
    snd (TC002.test_signup_with_valid_and_invalid_data
           Backends.default_env Backends.signup_backend "0000" [])
    = ([] ++ (TC002.signup_request Backends.default_env
                (TC002.valid_user Backends.default_env "0000"), Replied r0)
          :: combine (map (TC002.signup_request Backends.default_env)
                        (TC002.invalid_users Backends.default_env))
                     (map Replied rs))%list.
Proof.
  assert (Hp : passes (TC002.test_signup_with_valid_and_invalid_data
                         Backends.default_env Backends.signup_backend "0000" []))
    by (apply passes_run; vm_compute; reflexivity).
  split; [exact Hp|].
  exact (signup_script_exchanges Backends.default_env Backends.signup_backend "0000" [] Hp).
Defined.

(** ** TC003: the list checks and the whole script *)

Lemma lesson_check_unchanged lesson t v t' :
  TC003.lesson_check lesson t = (Ok v, t') -> t' = t.
Proof.
  unfold TC003.lesson_check. intros H. repeat inv_ok. reflexivity.
Qed.

Lemma level_filter_check_exchange (env : Env) (backend : Backend) t t' :
  TC003.level_filter_check env backend t = (Ok tt, t') ->
  exists r l, status_code r = 200 /\ body r = Some (JList l) /\
              t' = (t ++ [(TC003.lessons_request env TC003.params_valid, Replied r)])%list.
Proof.
  unfold TC003.level_filter_check, requests_get. intros H.
  apply bind_ok in H. destruct H as (r & t1 & Hs & H).
  apply send_ok in Hs. destruct Hs as [_ ->].
  apply bind_ok in H. destruct H as ([] & t2 & Hst & H).
  apply assert_ok in Hst. destruct Hst as [Hst ->].
  apply bind_ok in H. destruct H as (j & t3 & Hj & H).
  apply lift_ok in Hj. destruct Hj as [Hj ->]. apply response_json_ok in Hj.
  apply bind_ok in H. destruct H as ([] & t4 & Hl & H).
  apply assert_ok in Hl. destruct Hl as [Hl ->].
  destruct j as [ | | | | |l| ]; try discriminate Hl.
  apply bind_ok in H. destruct H as (items & t5 & Hi & H).
  apply lift_ok in Hi. destruct Hi as [_ ->].
  apply for_each_unchanged in H; [|apply lesson_check_unchanged]. subst t'.
  exists r, l. repeat split; [now apply Z.eqb_eq | assumption].
Qed.

(** X6.  A request of the lessons script that only expects a list (level
    only, language only, no parameter) returns exactly when it is answered
    with status 200 and a body that is a list; it makes one exchange. *)
Theorem list_check_iff (env : Env) (backend : Backend) (ps : list (string * string))
    (tr tr' : list Exchange) :
  TC003.list_check env backend ps tr = (Ok tt, tr') <->
  exists r l,
    backend tr (TC003.lessons_request env ps) = Replied r /\
    status_code r = 200 /\
    body r = Some (JList l) /\
    tr' = (tr ++ [(TC003.lessons_request env ps, Replied r)])%list.
Proof.
  unfold TC003.list_check, requests_get.
  change (mkRequest GET (TC003.BASE_URL env ++ "/lessons") ps TC003.headers NoPayload
            TC003.TIMEOUT) with (TC003.lessons_request env ps).
  split.
  - intros H. repeat inv_ok.
    match goal with Hl : isinstance_list ?j = true |- _ =>
      destruct j as [ | | | | |l| ]; try discriminate Hl end.
    match goal with Hb : backend tr _ = Replied ?r |- _ => exists r, l end.
    repeat split; try assumption. now apply Z.eqb_eq.
  - intros (r & l & Hb & Hs & Hbody & ->).
    unfold bind, lift, assert_, ret, response_json.
    rewrite (send_replied _ _ _ _ Hb), Hs, Hbody. reflexivity.
Qed.

Lemma malformed_param_check_exchange (env : Env) (backend : Backend) ps t t' :
  TC003.malformed_param_check env backend ps t = (Ok tt, t') ->
  exists r, (status_code r = 200 \/ status_code r = 400) /\
            t' = (t ++ [(TC003.lessons_request env ps, Replied r)])%list.
Proof.
  unfold TC003.malformed_param_check, requests_get. intros H.
  apply bind_ok in H. destruct H as (r & t1 & Hs & H).
  apply send_ok in Hs. destruct Hs as [_ ->].
  apply bind_ok in H. destruct H as ([] & t2 & Hst & H).
  apply assert_ok in Hst. destruct Hst as [Hst ->].
  exists r. split.
  - apply orb_true_iff in Hst. destruct Hst as [E|E]; apply Z.eqb_eq in E; auto.
  - destruct (status_code r =? 200).
    + repeat inv_ok. reflexivity.
    + apply bind_ok in H. destruct H as (j & t3 & Hj & H).
      apply assert_ok in H. destruct H as [_ ->].
      unfold try_except, lift, except in Hj.
      destruct (response_json r); cbn in Hj; now injection Hj as _ <-.
Qed.

(** X7.  A passing run of the lessons script made exactly six exchanges, in
    the order: level and language, level only, language only, no parameter,
    invalid level, invalid language.  The first four were answered with
    status 200 and a list, the last two with status 200 or 400. *)
Theorem lessons_script_exchanges (env : Env) (backend : Backend) (tr : list Exchange) :
  passes (TC003.test_get_lessons_with_valid_level_and_language_parameters env backend tr) ->
  exists r1 r2 r3 r4 r5 r6,
    Forall (fun r => status_code r = 200 /\ exists l, body r = Some (JList l))
           [r1; r2; r3; r4] /\
    Forall (fun r => status_code r = 200 \/ status_code r = 400) [r5; r6] /\
    snd (TC003.test_get_lessons_with_valid_level_and_language_parameters env backend tr)
    = (tr ++ [(TC003.lessons_request env [("level", "B1"); ("language", "English")],
               Replied r1);
              (TC003.lessons_request env [("level", "B1")], Replied r2);
              (TC003.lessons_request env [("language", "English")], Replied r3);
              (TC003.lessons_request env [], Replied r4);
              (TC003.lessons_request env [("level", "Z9"); ("language", "English")],
               Replied r5);
              (TC003.lessons_request env [("level", "B1"); ("language", "1234$%")],
               Replied r6)])%list.
Proof.
  intros H. apply passes_inv in H. destruct H as ([] & tr' & H).
  rewrite H. cbn [snd].
  unfold TC003.test_get_lessons_with_valid_level_and_language_parameters in H.
  apply try_reraise_ok in H.
  apply bind_ok in H. destruct H as ([] & t1 & H1 & H).
  apply bind_ok in H. destruct H as ([] & t2 & H2 & H).
  apply bind_ok in H. destruct H as ([] & t3 & H3 & H).
  apply bind_ok in H. destruct H as ([] & t4 & H4 & H).
  apply bind_ok in H. destruct H as ([] & t5 & H5 & H6).
  apply level_filter_check_exchange in H1. destruct H1 as (r1 & l1 & S1 & B1 & ->).
  apply list_check_iff in H2. destruct H2 as (r2 & l2 & _ & S2 & B2 & ->).
  apply list_check_iff in H3. destruct H3 as (r3 & l3 & _ & S3 & B3 & ->).
  apply list_check_iff in H4. destruct H4 as (r4 & l4 & _ & S4 & B4 & ->).
  apply malformed_param_check_exchange in H5. destruct H5 as (r5 & S5 & ->).
  apply malformed_param_check_exchange in H6. destruct H6 as (r6 & S6 & ->).
  exists r1, r2, r3, r4, r5, r6. split; [|split].
  - repeat (constructor; [split; eauto|]). constructor.
  - repeat (constructor; [assumption|]). constructor.
  - rewrite <- !app_assoc. reflexivity.
Qed.

(** [lessons_script_exchanges] applies to a backend on which the lessons
    script returns. *)
Lemma lessons_script_exchanges_witness :
  passes (TC003.test_get_lessons_with_valid_level_and_language_parameters
            Backends.default_env Flows.lessons_flow []) /\
  exists r1 r2 r3 r4 r5 r6,
    Forall (fun r => status_code r = 200 /\ exists l, body r = Some (JList l))
           [r1; r2; r3; r4] /\
    Forall (fun r => status_code r = 200 \/ status_code r = 400) [r5; r6] /\
    snd (TC003.test_get_lessons_with_valid_level_and_language_parameters
           Backends.default_env Flows.lessons_flow [])
    = ([] ++ [(TC003.lessons_request Backends.default_env
                 [("level", "B1"); ("language", "English")], Replied r1);
              (TC003.lessons_request Backends.default_env [("level", "B1")], Replied r2);
              (TC003.lessons_request Backends.default_env [("language", "English")],
               Replied r3);
              (TC003.lessons_request Backends.default_env [], Replied r4);
              (TC003.lessons_request Backends.default_env
                 [("level", "Z9"); ("language", "English")], Replied r5);
              (TC003.lessons_request Backends.default_env
                 [("level", "B1"); ("language", "1234$%")], Replied r6)])%list.
Proof.
  assert (Hp : passes (TC003.test_get_lessons_with_valid_level_and_language_parameters
                         Backends.default_env Flows.lessons_flow []))
    by (apply passes_run; vm_compute; reflexivity).
  split; [exact Hp|].
  exact (lessons_script_exchanges Backends.default_env Flows.lessons_flow [] Hp).
Defined.

(** ** TC004: the precursor, the whole script, its failures *)

(** X8.  The precursor fetch returns an id exactly when GET [/lessons] is
    answered with a status outside [400,600) and a list whose first item is
    an object with a non-empty string ["lessonId"]; the id is that string.
    An empty-string ["lessonId"] is refused like a missing one. *)
Lemma fetch_valid_lesson_id_iff (env : Env) (backend : Backend) (tr tr' : list Exchange)
    (v : json) :
  TC004.fetch_valid_lesson_id env backend tr = (Ok v, tr') <->
  exists r s,
    backend tr (TC004.lessons_request env) = Replied r /\
    ~ 400 <= status_code r < 600 /\
    TC004.first_lesson_id (body r) = Some s /\
    s <> "" /\
    v = JStr s /\
    tr' = (tr ++ [(TC004.lessons_request env, Replied r)])%list.
Proof.
  unfold TC004.fetch_valid_lesson_id, requests_get.
  change (mkRequest GET (TC004.BASE_URL env ++ "/lessons") [] [] NoPayload TC004.TIMEOUT)
    with (TC004.lessons_request env).
  split.
  - intros H.
    apply bind_ok in H. destruct H as (r & t1 & Hs & H).
    apply send_ok in Hs. destruct Hs as [Hb ->].
    apply bind_ok in H. destruct H as ([] & t2 & Hr & H).
    apply lift_ok in Hr. destruct Hr as [Hr ->].
    apply bind_ok in H. destruct H as (j & t3 & Hj & H).
    apply lift_ok in Hj. destruct Hj as [Hj ->]. apply response_json_ok in Hj.
    apply bind_ok in H. destruct H as ([] & t4 & Hl & H).
    apply assert_ok in Hl. destruct Hl as [Hl ->].
    destruct j as [ | | | | |l| ]; try discriminate Hl.
    apply bind_ok in H. destruct H as (n & t5 & Hn & H).
    apply lift_ok in Hn. destruct Hn as [Hn ->]. cbn in Hn. injection Hn as <-.
    apply bind_ok in H. destruct H as ([] & t6 & Hp & H).
    apply assert_ok in Hp. destruct Hp as [Hp ->].
    destruct l as [|first rest]; [discriminate Hp|].
    apply bind_ok in H. destruct H as (x & t7 & Hx & H).
    apply lift_ok in Hx. destruct Hx as [Hx ->]. cbn in Hx. injection Hx as <-.
    apply bind_ok in H. destruct H as (id & t8 & Hid & H).
    apply lift_ok in Hid. destruct Hid as [Hid ->].
    apply py_get_ok in Hid. destruct Hid as (d & -> & ->).
    apply bind_ok in H. destruct H as ([] & t9 & Ha & H).
    apply assert_ok in Ha. destruct Ha as [Ha ->].
    apply ret_ok in H. destruct H as [-> ->].
    apply andb_true_iff in Ha. destruct Ha as [Ht Hi].
    destruct (lookup "lessonId" d) as [w|] eqn:E; [|discriminate Hi].
    destruct w as [ | | | |s| | ]; try discriminate Hi.
    exists r, s. repeat split; try assumption.
    + unfold raise_for_status in Hr.
      destruct ((400 <=? status_code r) && (status_code r <? 600)) eqn:Er; [discriminate Hr|].
      intros [Hlo Hhi]. apply Z.leb_le in Hlo. apply Z.ltb_lt in Hhi.
      rewrite Hlo, Hhi in Er. discriminate Er.
    + rewrite Hj. cbn. now rewrite E.
    + intros ->. discriminate Ht.
  - intros (r & s & Hb & Hst & Hf & Hne & -> & ->).
    unfold bind, lift, assert_, ret, raise, raise_for_status, response_json.
    rewrite (send_replied _ _ _ _ Hb).
    replace ((400 <=? status_code r) && (status_code r <? 600)) with false.
    2:{ symmetry. apply andb_false_iff.
        destruct (Z.leb_spec 400 (status_code r)); [|now left].
        right. apply Z.ltb_ge. lia. }
    unfold TC004.first_lesson_id in Hf.
    destruct (body r) as [j|]; [|discriminate Hf].
    destruct j as [ | | | | |l| ]; try discriminate Hf.
    destruct l as [|first rest]; [discriminate Hf|].
    destruct first as [ | | | | | |d]; try discriminate Hf.
    destruct (lookup "lessonId" d) as [w|] eqn:E; [|discriminate Hf].
    destruct w as [ | | | |s'| | ]; try discriminate Hf.
    injection Hf as ->.
    cbn [isinstance_list py_len py_first py_get].
    replace (0 <? Z.of_nat (Datatypes.length (JDict d :: rest))) with true
      by (symmetry; apply Z.ltb_lt; cbn [Datatypes.length]; lia).
    rewrite E. cbn [truthy isinstance_str].
    destruct s; [congruence|]. reflexivity.
Qed.

Lemma valid_start_check_ok (env : Env) (backend : Backend) (s : string) t t' :
  TC004.valid_start_check env backend (JStr s) t = (Ok tt, t') ->
  exists r, status_code r = 200 /\
            t' = (t ++ [(TC004.start_request env s, Replied r)])%list.
Proof.
  unfold TC004.valid_start_check, requests_post. intros H. repeat inv_ok.
  match goal with Hb : backend _ _ = Replied ?r |- _ => exists r end.
  split; [now apply Z.eqb_eq | reflexivity].
Qed.

Lemma invalid_start_check_ok (env : Env) (backend : Backend) x t t' :
  TC004.invalid_start_check env backend x t = (Ok tt, t') ->
  exists r, (status_code r = 400 \/ status_code r = 404) /\
            t' = (t ++ [(TC004.start_request env x, Replied r)])%list.
Proof.
  unfold TC004.invalid_start_check, requests_post. intros H. repeat inv_ok.
  match goal with Hb : backend _ _ = Replied ?r, Hc : (_ || _) = true |- _ =>
    exists r; apply orb_true_iff in Hc; destruct Hc as [Hc|Hc]; apply Z.eqb_eq in Hc end;
    (split; [auto | reflexivity]).
Qed.

(** X9.  A passing run of the lesson-start script made exactly five
    exchanges: GET [/lessons]; the start of the lesson whose id is the
    ["lessonId"] of the first lesson, answered with status 200; and the
    start of the three invalid ids, in order, each answered with status 400
    or 404. *)
Theorem start_lesson_script_exchanges (env : Env) (backend : Backend)
    (tr : list Exchange) :
  passes (TC004.test_start_lesson_with_valid_and_invalid_lessonid env backend tr) ->
  exists r s r1 rs,
    TC004.first_lesson_id (body r) = Some s /\
    s <> "" /\
    status_code r1 = 200 /\
    List.length rs = 3%nat /\
    Forall (fun r => status_code r = 400 \/ status_code r = 404) rs /\
    snd (TC004.test_start_lesson_with_valid_and_invalid_lessonid env backend tr)
    = (tr ++ (TC004.lessons_request env, Replied r)
          :: (TC004.start_request env s, Replied r1)
          :: combine (map (TC004.start_request env) TC004.invalid_lesson_ids)
                     (map Replied rs))%list.
Proof.
  intros H. apply passes_inv in H. destruct H as ([] & tr' & H).
  rewrite H. cbn [snd].
  unfold TC004.test_start_lesson_with_valid_and_invalid_lessonid in H.
  apply try_except_ok in H. destruct H as [H|(e & t & h & _ & Hh & Hk)].
  2:{ exfalso. unfold TC004.handlers in Hh.
      destruct (is_RequestException e); [injection Hh as <-; discriminate Hk|].
      destruct (is_AssertionError e); [injection Hh as <-; discriminate Hk|discriminate Hh]. }
  apply bind_ok in H. destruct H as (v & t1 & Hf & H).
  apply fetch_valid_lesson_id_iff in Hf.
  destruct Hf as (r & s & Hb & Hst & Hid & Hne & -> & ->).
  apply bind_ok in H. destruct H as ([] & t2 & Hv & H).
  apply valid_start_check_ok in Hv. destruct Hv as (r1 & Hs1 & ->).
  apply (for_each_exchanges (fun r => status_code r = 400 \/ status_code r = 404)
           (TC004.start_request env)) in H;
    [|apply invalid_start_check_ok].
  destruct H as (rs & Hlen & HP & ->).
  exists r, s, r1, rs. repeat split; try assumption.
  rewrite <- !app_assoc. reflexivity.
Qed.

(** [start_lesson_script_exchanges] applies to a backend on which the
    lesson-start script returns. *)
Lemma start_lesson_script_exchanges_witness :
  passes (TC004.test_start_lesson_with_valid_and_invalid_lessonid
            Backends.default_env Flows.start_flow []) /\
  exists r s r1 rs,
    TC004.first_lesson_id (body r) = Some s /\
    s <> "" /\
    status_code r1 = 200 /\
    List.length rs = 3%nat /\
    Forall (fun r => status_code r = 400 \/ status_code r = 404) rs /\
    snd (TC004.test_start_lesson_with_valid_and_invalid_lessonid
           Backends.default_env Flows.start_flow [])
    = ([] ++ (TC004.lessons_request Backends.default_env, Replied r)
          :: (TC004.start_request Backends.default_env s, Replied r1)
          :: combine (map (TC004.start_request Backends.default_env)
                        TC004.invalid_lesson_ids)
                     (map Replied rs))%list.
Proof.
  assert (Hp : passes (TC004.test_start_lesson_with_valid_and_invalid_lessonid
                         Backends.default_env Flows.start_flow []))
    by (apply passes_run; vm_compute; reflexivity).
  split; [exact Hp|].
  exact (start_lesson_script_exchanges Backends.default_env Flows.start_flow [] Hp).
Defined.

(** What the [try] block of TC004 may raise before its handlers. *)
Lemma fetch_valid_lesson_id_raises (env : Env) (backend : Backend) :
  raises_only (fun e => is_RequestException e = true \/ is_AssertionError e = true \/
                        e = AttributeError \/ e = ValueError \/ e = RecursionError)
    (TC004.fetch_valid_lesson_id env backend).
Proof.
  intros tr e tr'.
  unfold TC004.fetch_valid_lesson_id, requests_get, bind, send, lift, raise_for_status,
    response_json, assert_, ret, raise.
  destruct (backend tr _) as [r|d]; [|intros H; injection H as <- _; now left].
  destruct r as [st b f]. cbn [status_code body decode_failure].
  destruct ((400 <=? st) && (st <? 600)); [intros H; injection H as <- _; now left|].
  destruct b as [v|]; [|destruct f; intros H; injection H as <- _; cbn; now auto 6].
  destruct v; try (cbn; intros H; injection H as <- _; now auto).
  destruct l as [|x l]; [cbn; intros H; injection H as <- _; now auto|].
  cbn [isinstance_list py_len].
  replace (0 <? Z.of_nat (Datatypes.length (x :: l))) with true
    by (symmetry; apply Z.ltb_lt; cbn [Datatypes.length]; lia).
  cbn [py_first].
  destruct x; try (cbn; intros H; injection H as <- _; now auto).
  cbn [py_get].
  destruct (truthy _ && isinstance_str _); [discriminate|].
  intros H; injection H as <- _; now auto.
Qed.

(** X10.  Whatever the backend answers, the lesson-start script fails only
    with an [AssertionError], with an [AttributeError] when the first
    lesson is not an object, or with what the decoder of line 13 raises
    besides a [JSONDecodeError]: a [ValueError] or a [RecursionError],
    which pass both [except] clauses.  No [RequestException] leaves the
    script. *)
Theorem start_lesson_failure_classes (env : Env) (backend : Backend)
    (tr tr' : list Exchange) (e : exn) :
  TC004.test_start_lesson_with_valid_and_invalid_lessonid env backend tr = (Raised e, tr') ->
  class_name e = "AssertionError" \/ class_name e = "AttributeError" \/
  class_name e = "ValueError" \/ class_name e = "RecursionError".
Proof.
  revert tr e tr'.
  change (raises_only (fun e => class_name e = "AssertionError" \/
                                class_name e = "AttributeError" \/
                                class_name e = "ValueError" \/
                                class_name e = "RecursionError")
            (TC004.test_start_lesson_with_valid_and_invalid_lessonid env backend)).
  unfold TC004.test_start_lesson_with_valid_and_invalid_lessonid.
  apply raises_only_try
    with (Q := fun e => is_RequestException e = true \/ is_AssertionError e = true \/
                        e = AttributeError \/ e = ValueError \/ e = RecursionError).
  - apply raises_only_bind; [apply fetch_valid_lesson_id_raises|]. intros v.
    apply raises_only_bind.
    + unfold TC004.valid_start_check, requests_post.
      apply raises_only_bind; [apply raises_only_send; now left|].
      intros r. apply raises_only_assert. right; now left.
    + intros _. apply raises_only_for_each. intros x.
      unfold TC004.invalid_start_check, requests_post.
      apply raises_only_bind; [apply raises_only_send; now left|].
      intros r. apply raises_only_assert. right; now left.
  - intros e He. unfold TC004.handlers.
    destruct (is_RequestException e) eqn:E1.
    { apply raises_only_raise. now left. }
    destruct (is_AssertionError e) eqn:E2.
    { apply raises_only_raise. now left. }
    destruct He as [He|[He|[He|[He|He]]]]; try congruence; subst e; cbn; auto.
Qed.

(** [start_lesson_failure_classes] applies to the run on a backend whose
    lessons hold an integer too long for the decoder. *)
Lemma start_lesson_failure_classes_witness :
  TC004.test_start_lesson_with_valid_and_invalid_lessonid
    Backends.default_env Flows.long_integer_lessons []
  = (Raised ValueError,
     [(TC004.lessons_request Backends.default_env, Flows.refused 200 IntegerTooLong)]) /\
  (class_name ValueError = "AssertionError" \/
   class_name ValueError = "AttributeError" \/
   class_name ValueError = "ValueError" \/
   class_name ValueError = "RecursionError").
Proof.
  split; [reflexivity|].
  exact (start_lesson_failure_classes Backends.default_env Flows.long_integer_lessons
           [] _ _ eq_refl).
Defined.

(** ** TC005 and TC006: the gamification state and the achievements *)

Lemma field_check_int_ok d k t v t' :
  TC005.field_check (JDict d) (k, TC005.T_int) t = (Ok v, t') <->
  (exists x, lookup k d = Some x /\ ((exists z, x = JInt z) \/ (exists b, x = JBool b)))
  /\ t' = t /\ v = tt.
Proof.
  unfold TC005.field_check. split.
  - intros H. repeat inv_ok. destruct v.
    match goal with Hi : TC005.isinstance_of ?x _ = true, Hl : lookup k _ = Some ?x |- _ =>
      split; [exists x; split; [exact Hl|]|auto];
      destruct x; try discriminate Hi; eauto end.
  - intros ((x & Hl & Hx) & -> & ->).
    unfold bind, lift, assert_, ret. cbn [py_in py_getitem]. unfold has_key. rewrite Hl.
    destruct Hx as [(z & ->)|(b & ->)]; reflexivity.
Qed.

Lemma field_check_list_ok d k t v t' :
  TC005.field_check (JDict d) (k, TC005.T_list) t = (Ok v, t') <->
  (exists l, lookup k d = Some (JList l)) /\ t' = t /\ v = tt.
Proof.
  unfold TC005.field_check. split.
  - intros H. repeat inv_ok. destruct v.
    match goal with Hi : TC005.isinstance_of ?x _ = true |- _ =>
      destruct x; try discriminate Hi end. eauto.
  - intros ((l & Hl) & -> & ->).
    unfold bind, lift, assert_, ret. cbn [py_in py_getitem]. unfold has_key. rewrite Hl.
    reflexivity.
Qed.

(** X11.  The gamification-state script returns exactly when GET
    [/gamification/state] is answered with a status outside [400,600) and
    an object whose ["xp"], ["level"], ["streak"], ["hearts"] and ["gems"]
    are integers or booleans ([isinstance(True, int)] holds) and whose
    ["achievements"] is a list of strings.  The script has no [except]
    clause: when the decoder refuses the body, what it raises (a
    [JSONDecodeError], a [ValueError] or a [RecursionError]) ends the
    script. *)
Theorem gamification_state_iff (env : Env) (backend : Backend) (tr : list Exchange) :
  (passes (TC005.test_get_user_gamification_state env backend tr) <->
   exists r d achievements,
     backend tr (TC005.state_request env) = Replied r /\
     ~ 400 <= status_code r < 600 /\
     body r = Some (JDict d) /\
     (forall k, In k ["xp"; "level"; "streak"; "hearts"; "gems"] ->
                exists x, lookup k d = Some x /\
                          ((exists z, x = JInt z) \/ (exists b, x = JBool b))) /\
     lookup "achievements" d = Some (JList achievements) /\
     Forall (fun a => exists s, a = JStr s) achievements)
  /\ (forall r,
        backend tr (TC005.state_request env) = Replied r ->
        ~ 400 <= status_code r < 600 ->
        body r = None ->
        TC005.test_get_user_gamification_state env backend tr
        = (Raised (decode_error (decode_failure r)),
           (tr ++ [(TC005.state_request env, Replied r)])%list) /\
        (class_name (decode_error (decode_failure r)) = "JSONDecodeError" \/
         class_name (decode_error (decode_failure r)) = "ValueError" \/
         class_name (decode_error (decode_failure r)) = "RecursionError")).
Proof.
  unfold TC005.test_get_user_gamification_state, requests_get.
  change (mkRequest GET (TC005.url env) [] TC005.headers NoPayload TC005.TIMEOUT)
    with (TC005.state_request env).
  split; [split|].
  - intros H. apply passes_inv in H. destruct H as ([] & tr' & H).
    apply bind_ok in H. destruct H as (r & t1 & Hf & H).
    apply fetch_ok in Hf. destruct Hf as (Hb & Hs & ->).
    apply bind_ok in H. destruct H as (j & t2 & Hj & H).
    apply lift_ok in Hj. destruct Hj as [Hj ->]. apply response_json_ok in Hj.
    apply bind_ok in H. destruct H as ([] & t3 & Hd & H).
    apply assert_ok in Hd. destruct Hd as [Hd ->].
    destruct j as [ | | | | | |d]; try discriminate Hd.
    apply bind_ok in H. destruct H as ([] & t4 & Hl & H).
    unfold TC005.expected_fields in Hl. cbn [for_each] in Hl.
    apply bind_ok in Hl. destruct Hl as (? & ? & F1 & Hl). apply field_check_int_ok in F1.
    destruct F1 as (F1 & -> & ->).
    apply bind_ok in Hl. destruct Hl as (? & ? & F2 & Hl). apply field_check_int_ok in F2.
    destruct F2 as (F2 & -> & ->).
    apply bind_ok in Hl. destruct Hl as (? & ? & F3 & Hl). apply field_check_int_ok in F3.
    destruct F3 as (F3 & -> & ->).
    apply bind_ok in Hl. destruct Hl as (? & ? & F4 & Hl). apply field_check_int_ok in F4.
    destruct F4 as (F4 & -> & ->).
    apply bind_ok in Hl. destruct Hl as (? & ? & F5 & Hl). apply field_check_int_ok in F5.
    destruct F5 as (F5 & -> & ->).
    apply bind_ok in Hl. destruct Hl as (? & ? & F6 & Hl). apply field_check_list_ok in F6.
    destruct F6 as ((l & F6) & -> & ->).
    apply bind_ok in H. destruct H as (a & t5 & Ha & H).
    apply lift_ok in Ha. destruct Ha as [Ha ->]. cbn in Ha. rewrite F6 in Ha.
    injection Ha as <-.
    apply bind_ok in H. destruct H as (items & t6 & Hi & H).
    apply lift_ok in Hi. destruct Hi as [Hi ->]. cbn in Hi. injection Hi as <-.
    exists r, d, l. repeat split; try assumption.
    + intros k [<-|[<-|[<-|[<-|[<-|[]]]]]]; assumption.
    + eapply for_each_Forall; [|exact H]. intros x t v t' Hx.
      unfold TC005.achievement_check in Hx. apply assert_ok in Hx. destruct Hx as [Hx _].
      destruct x; try discriminate Hx. eauto.
  - intros (r & d & l & Hb & Hs & Hbody & Hint & Hl & Hall).
    apply passes_intro with (a := tt)
      (tr' := (tr ++ [(TC005.state_request env, Replied r)])%list).
    rewrite (bind_eq _ _ _ _ _ (proj2 (fetch_ok _ _ _ _ _ _)
                                  (conj Hb (conj Hs eq_refl)))).
    unfold response_json. rewrite Hbody.
    erewrite bind_eq by reflexivity.
    erewrite bind_eq by reflexivity.
    erewrite bind_eq.
    2:{ apply for_each_all_ok. unfold TC005.expected_fields.
        intros item [<-|[<-|[<-|[<-|[<-|[<-|[]]]]]]];
          first [ apply field_check_int_ok; split; [apply Hint; cbn; auto 8 | auto]
                | apply field_check_list_ok; eauto ]. }
    unfold bind, lift. cbn [py_getitem]. rewrite Hl. cbn [py_iter].
    apply for_each_all_ok. intros x Hx. rewrite Forall_forall in Hall.
    destruct (Hall x Hx) as (s & ->). reflexivity.
  - intros r Hb Hs Hbody.
    rewrite (bind_eq _ _ _ _ _ (proj2 (fetch_ok _ _ _ _ _ _)
                                  (conj Hb (conj Hs eq_refl)))).
    unfold bind, lift, response_json. rewrite Hbody.
    split; [reflexivity | destruct (decode_failure r); cbn; auto].
Qed.

(** [gamification_state_iff] applies to an answer whose ["xp"] is [true]:
    the script returns. *)
Lemma gamification_state_iff_witness :
  passes (TC005.test_get_user_gamification_state
            Backends.default_env Flows.state_with_bool []).
Proof.
  apply (proj2 (proj1 (gamification_state_iff Backends.default_env Flows.state_with_bool []))).
  eexists _, _, _. split; [reflexivity|]. cbn [status_code body mkResponse].
  split; [lia|]. split; [reflexivity|]. split.
  - intros k [<-|[<-|[<-|[<-|[<-|[]]]]]]; eexists; (split; [reflexivity|eauto]).
  - split; [reflexivity|]. repeat constructor. now exists "first-lesson".
Defined.

(** A state nested too deep ends TC005 with the decoder's
    [RecursionError]. *)
Lemma gamification_state_too_deep :
  TC005.test_get_user_gamification_state Backends.default_env Flows.deep_state []
  = (Raised RecursionError,
     [(TC005.state_request Backends.default_env, Flows.refused 200 NestingTooDeep)]).
Proof. reflexivity. Qed.

Lemma has_field_of_true cls d k :
  TC006.has_field_of cls (JDict d) k = Ok true <->
  exists v, lookup k d = Some v /\ cls v = true.
Proof.
  unfold TC006.has_field_of. cbn. unfold has_key.
  destruct (lookup k d) as [v|]; split.
  - intros H. injection H as H. eauto.
  - intros (v' & E & H). injection E as <-. now rewrite H.
  - discriminate.
  - intros (v' & E & _). discriminate E.
Qed.

Lemma achievement_check_iff a t v t' :
  TC006.achievement_check a t = (Ok v, t') <->
  (exists d,
     a = JDict d /\
     (forall k, In k ["id"; "name"; "description"; "icon"] ->
                exists s, lookup k d = Some (JStr s)) /\
     exists b, lookup "unlocked" d = Some (JBool b))
  /\ t' = t.
Proof.
  unfold TC006.achievement_check. split.
  - intros H.
    apply bind_ok in H. destruct H as ([] & t1 & Hd & H).
    apply assert_ok in Hd. destruct Hd as [Hd ->].
    destruct a as [ | | | | | |d]; try discriminate Hd.
    repeat inv_ok.
    repeat match goal with
    | Hf : TC006.has_field_of _ _ _ = Ok true |- _ =>
        apply has_field_of_true in Hf; destruct Hf as (? & ? & Hf)
    end.
    repeat match goal with
    | Hs : isinstance_str ?x = true |- _ => destruct x; try discriminate Hs; clear Hs
    | Hb : TC006.isinstance_bool ?x = true |- _ => destruct x; try discriminate Hb; clear Hb
    end.
    split; [|reflexivity]. exists d. split; [reflexivity|]. split.
    + intros k [<-|[<-|[<-|[<-|[]]]]]; eauto.
    + eauto.
  - intros ((d & -> & Hs & (b & Hb)) & ->).
    assert (Hf : forall k, In k ["id"; "name"; "description"; "icon"] ->
                   TC006.has_field_of isinstance_str (JDict d) k = Ok true).
    { intros k Hk. apply has_field_of_true. destruct (Hs k Hk) as (s & E). eauto. }
    assert (Hu : TC006.has_field_of TC006.isinstance_bool (JDict d) "unlocked" = Ok true).
    { apply has_field_of_true. eauto. }
    unfold bind, lift, assert_, ret. cbn [isinstance_dict].
    rewrite !Hf by (cbn; auto 6). rewrite Hu. destruct v. reflexivity.
Qed.

(** X12.  The achievements script returns exactly when GET
    [/gamification/achievements] is answered with a status outside
    [400,600) and a list of objects whose ["id"], ["name"],
    ["description"] and ["icon"] are strings and whose ["unlocked"] is a
    boolean (a number is refused there). *)
Theorem achievements_list_iff (env : Env) (backend : Backend) (tr : list Exchange) :
  passes (TC006.test_get_user_achievements_list env backend tr) <->
  exists r items,
    backend tr (TC006.achievements_request env) = Replied r /\
    ~ 400 <= status_code r < 600 /\
    body r = Some (JList items) /\
    Forall (fun a =>
              exists d,
                a = JDict d /\
                (forall k, In k ["id"; "name"; "description"; "icon"] ->
                           exists s, lookup k d = Some (JStr s)) /\
                exists b, lookup "unlocked" d = Some (JBool b))
           items.
Proof.
  unfold TC006.test_get_user_achievements_list, requests_get.
  change (mkRequest GET (TC006.url env) [] TC006.headers NoPayload TC006.TIMEOUT)
    with (TC006.achievements_request env).
  split.
  - intros H. apply passes_inv in H. destruct H as ([] & tr' & H).
    apply bind_ok in H. destruct H as (r & t1 & Hf & H).
    apply fetch_ok in Hf. destruct Hf as (Hb & Hs & ->).
    apply bind_ok in H. destruct H as (j & t2 & Hj & H).
    apply lift_ok in Hj. destruct Hj as [Hj ->]. apply response_json_ok in Hj.
    apply bind_ok in H. destruct H as ([] & t3 & Hl & H).
    apply assert_ok in Hl. destruct Hl as [Hl ->].
    destruct j as [ | | | | |l| ]; try discriminate Hl.
    apply bind_ok in H. destruct H as (items & t4 & Hi & H).
    apply lift_ok in Hi. destruct Hi as [Hi ->]. cbn in Hi. injection Hi as <-.
    exists r, l. repeat split; try assumption.
    eapply for_each_Forall; [|exact H]. intros x t v t' Hx.
    apply achievement_check_iff in Hx. exact (proj1 Hx).
  - intros (r & l & Hb & Hs & Hbody & Hall).
    apply passes_intro with (a := tt)
      (tr' := (tr ++ [(TC006.achievements_request env, Replied r)])%list).
    rewrite (bind_eq _ _ _ _ _ (proj2 (fetch_ok _ _ _ _ _ _) (conj Hb (conj Hs eq_refl)))).
    unfold response_json. rewrite Hbody.
    erewrite bind_eq by reflexivity.
    erewrite bind_eq by reflexivity.
    erewrite bind_eq by reflexivity.
    apply for_each_all_ok. intros x Hx. rewrite Forall_forall in Hall.
    apply achievement_check_iff. split; [|reflexivity]. exact (Hall x Hx).
Qed.

(** ** TC007: the answers the script accepts *)

Lemma lookup_in_keys {A : Type} k (d : list (string * A)) v :
  lookup k d = Some v -> existsb (String.eqb k) (keys d) = true.
Proof.
  unfold keys. induction d as [|[k' x] d IH]; cbn [lookup map existsb fst]; [discriminate|].
  destruct (String.eqb_spec k' k) as [->|Hn].
  - intros _. now rewrite String.eqb_refl.
  - intros H. rewrite (IH H). apply orb_true_r.
Qed.

Lemma language_check_pass d t :
  (forall k, In k ["code"; "name"; "nativeName"; "flag"] ->
             exists s, lookup k d = Some (JStr s) /\ s <> "") ->
  TC007.language_check (JDict d) t = (Ok tt, t).
Proof.
  intros H.
  assert (Hf : forall k, In k ["code"; "name"; "nativeName"; "flag"] ->
                         TC007.nonempty_str_field (JDict d) k = Ok true).
  { intros k Hk. destruct (H k Hk) as (s & Hl & Hne).
    unfold TC007.nonempty_str_field. cbn. rewrite Hl. cbn.
    destruct s; [congruence|reflexivity]. }
  assert (Hs : TC007.issubset TC007.required_keys (keys d) = true).
  { unfold TC007.issubset, TC007.required_keys. apply forallb_forall.
    intros k Hk. destruct (H k Hk) as (s & Hl & _). eapply lookup_in_keys; eassumption. }
  unfold TC007.language_check, bind, lift, assert_, ret. cbn [isinstance_dict].
  rewrite Hs.
  rewrite !Hf by (cbn; auto 6). reflexivity.
Qed.

Lemma found_codes_total languages :
  Forall (fun lang => exists d s, lang = JDict d /\ lookup "code" d = Some (JStr s))
         languages ->
  exists found,
    TC007.found_codes languages = Ok found /\
    forall d x, In (JDict d) languages -> lookup "code" d = Some x -> In x found.
Proof.
  induction 1 as [|lang rest (d & s & -> & Hc) _ (found & Hf & Hin)].
  - exists []. split; [reflexivity|]. intros d x [].
  - exists (JStr s :: found). cbn. rewrite Hc, Hf. split; [reflexivity|].
    intros d' x [E|E] Hx.
    + injection E as <-. left. congruence.
    + right. eapply Hin; eassumption.
Qed.

Lemma missing_codes_none found :
  (forall c, In c TC007.expected_language_codes -> In (JStr c) found) ->
  TC007.missing_codes found = [].
Proof.
  intros H. unfold TC007.missing_codes.
  destruct (filter _ TC007.expected_language_codes) as [|c l] eqn:E; [reflexivity|].
  assert (Hc : In c (c :: l)) by now left.
  rewrite <- E in Hc. apply filter_In in Hc. destruct Hc as [Hin Hn].
  apply negb_true_iff in Hn.
  assert (Ht : existsb (py_eq (JStr c)) found = true).
  { apply existsb_exists. exists (JStr c). split; [now apply H|].
    cbn. apply String.eqb_refl. }
  congruence.
Qed.

(** X13.  The supported-languages script returns, after one exchange,
    whenever GET [/languages] is answered with a status outside [400,600)
    and a list of objects that each hold a non-empty string under
    ["code"], ["name"], ["nativeName"] and ["flag"], the codes of which
    include en, es, fr, it, hr and zh: the conditions the script needs are
    also enough. *)
Theorem supported_languages_sufficient (env : Env) (backend : Backend)
    (tr : list Exchange) (r : Response) (languages : list json) :
  backend tr (TC007.languages_request env) = Replied r ->
  ~ 400 <= status_code r < 600 ->
  body r = Some (JList languages) ->
  Forall (fun lang =>
            exists d, lang = JDict d /\
                      forall k, In k ["code"; "name"; "nativeName"; "flag"] ->
                                exists s, lookup k d = Some (JStr s) /\ s <> "")
         languages ->
  (forall c, In c ["en"; "es"; "fr"; "it"; "hr"; "zh"] ->
             exists d, In (JDict d) languages /\ lookup "code" d = Some (JStr c)) ->
  TC007.test_get_supported_languages env backend tr
  = (Ok tt, (tr ++ [(TC007.languages_request env, Replied r)])%list).
Proof.
  intros Hb Hst Hbody Hall Hcodes.
  unfold TC007.test_get_supported_languages, requests_get.
  change (mkRequest GET (TC007.url env) [] TC007.headers NoPayload TC007.TIMEOUT)
    with (TC007.languages_request env).
  unfold bind at 1. unfold try_except, bind at 1.
  rewrite (send_replied _ _ _ _ Hb).
  unfold bind, lift, ret, raise_for_status, response_json.
  replace ((400 <=? status_code r) && (status_code r <? 600)) with false.
  2:{ symmetry. apply andb_false_iff.
      destruct (Z.leb_spec 400 (status_code r)); [|now left].
      right. apply Z.ltb_ge. lia. }
  rewrite Hbody. cbn [isinstance_list assert_ py_iter]. unfold assert_ at 1. unfold ret.
  rewrite for_each_all_ok.
  2:{ intros x Hx. rewrite Forall_forall in Hall. destruct (Hall x Hx) as (d & -> & Hd).
      now apply language_check_pass. }
  destruct (found_codes_total languages) as (found & Hf & Hin).
  { eapply Forall_impl; [|exact Hall]. cbn. intros lang (d & -> & Hd).
    destruct (Hd "code") as (s & Hs & _); [now left|]. eauto. }
  rewrite Hf.
  rewrite missing_codes_none; [reflexivity|].
  intros c Hc. destruct (Hcodes c Hc) as (d & Hd & Hl). eapply Hin; eassumption.
Qed.

(** [supported_languages_sufficient] applies to the backend that answers
    with the six languages. *)
Lemma supported_languages_sufficient_witness :
  TC007.test_get_supported_languages Backends.default_env Backends.languages_backend []
  = (Ok tt,
     ([] ++ [(TC007.languages_request Backends.default_env,
              Replied (mkResponse 200 (Some Backends.six_languages)))])%list).
Proof.
  refine (supported_languages_sufficient Backends.default_env Backends.languages_backend []
            (mkResponse 200 (Some Backends.six_languages)) _ eq_refl _ eq_refl _ _).
  - cbn [status_code mkResponse]. lia.
  - repeat (constructor;
            [eexists; split; [reflexivity|];
             intros k [<-|[<-|[<-|[<-|[]]]]]; eexists; (split; [reflexivity|discriminate])|]).
    constructor.
  - intros c [<-|[<-|[<-|[<-|[<-|[<-|[]]]]]]]; eexists;
      (split; [cbn; repeat ((left; reflexivity) + right) | reflexivity]).
Defined.

(** ** TC008: the whole script *)

Lemma echo_check_unchanged resp_json item t v t' :
  TC008.echo_check resp_json item t = (Ok v, t') -> t' = t.
Proof.
  unfold TC008.echo_check. destruct item as [key value]. intros H.
  repeat inv_ok. reflexivity.
Qed.

Lemma invalid_update_check_ok (env : Env) (backend : Backend) item t t' :
  TC008.invalid_update_check env backend item t = (Ok tt, t') ->
  exists r, 400 <= status_code r < 500 /\
            t' = (t ++ [(TC008.put_request env (snd item), Replied r)])%list.
Proof.
  unfold TC008.invalid_update_check, requests_put. destruct item as [idx p].
  intros H. repeat inv_ok.
  match goal with Hb : backend _ _ = Replied ?r |- _ => exists r end.
  split; [now apply range_4xx | reflexivity].
Qed.

(** X14.  A passing run of the settings script made exactly six exchanges:
    the valid update, answered with status 200, then the five invalid
    payloads in the order of [invalid_payloads], each answered with a
    status in [400,500). *)
Theorem settings_script_exchanges (env : Env) (backend : Backend) (tr : list Exchange) :
  passes (TC008.test_update_user_language_settings env backend tr) ->
  exists r0 rs,
    status_code r0 = 200 /\
    List.length rs = 5%nat /\
    Forall (fun r => 400 <= status_code r < 500) rs /\
    snd (TC008.test_update_user_language_settings env backend tr)
    = (tr ++ (TC008.put_request env (JDict TC008.valid_payload), Replied r0)
          :: combine (map (TC008.put_request env) TC008.invalid_payloads)
                     (map Replied rs))%list.
Proof.
  intros H. apply passes_inv in H. destruct H as ([] & tr' & H).
  rewrite H. cbn [snd].
  unfold TC008.test_update_user_language_settings in H.
  apply try_reraise_ok in H.
  apply bind_ok in H. destruct H as ([] & t1 & Hv & H).
  unfold TC008.valid_update_check, requests_put in Hv.
  apply bind_ok in Hv. destruct Hv as (r0 & t0 & Hs & Hv).
  apply send_ok in Hs. destruct Hs as [_ ->].
  apply bind_ok in Hv. destruct Hv as ([] & t2 & Hst & Hv).
  apply assert_ok in Hst. destruct Hst as [Hst ->].
  apply bind_ok in Hv. destruct Hv as (j & t3 & Hj & Hv).
  apply lift_ok in Hj. destruct Hj as [_ ->].
  apply for_each_unchanged in Hv; [|apply echo_check_unchanged]. subst t1.
  apply (for_each_exchanges (fun r => 400 <= status_code r < 500)
           (fun item => TC008.put_request env (snd item))) in H;
    [|apply invalid_update_check_ok].
  destruct H as (rs & Hlen & HP & ->).
  exists r0, rs. repeat split.
  - now apply Z.eqb_eq.
  - rewrite Hlen. reflexivity.
  - exact HP.
  - rewrite <- (map_map snd (TC008.put_request env)), map_snd_enumerate.
    now rewrite <- app_assoc.
Qed.

(** [settings_script_exchanges] applies to a backend on which the settings
    script returns. *)
Lemma settings_script_exchanges_witness :
  passes (TC008.test_update_user_language_settings
            Backends.default_env Backends.settings_backend []) /\
  exists r0 rs,
    status_code r0 = 200 /\
    List.length rs = 5%nat /\
    Forall (fun r => 400 <= status_code r < 500) rs /\
    snd (TC008.test_update_user_language_settings
           Backends.default_env Backends.settings_backend [])
    = ([] ++ (TC008.put_request Backends.default_env (JDict TC008.valid_payload), Replied r0)
          :: combine (map (TC008.put_request Backends.default_env) TC008.invalid_payloads)
                     (map Replied rs))%list.
Proof.
  assert (Hp : passes (TC008.test_update_user_language_settings
                         Backends.default_env Backends.settings_backend []))
    by (apply passes_run; vm_compute; reflexivity).
  split; [exact Hp|].
  exact (settings_script_exchanges Backends.default_env Backends.settings_backend [] Hp).
Defined.

(** ** TC009: the valid upload and the request without a file *)

Lemma in_unit_interval_int z :
  TC009.in_unit_interval (JInt z) = true <-> 0 <= z <= 1.
Proof.
  unfold TC009.in_unit_interval, num_leb, num_cmp, TC009.float_zero, TC009.float_one,
    float_cmp_Z. cbn [as_number option_map].
  replace (0 <=? -52) with false by reflexivity.
  change (- -52) with 52. change (2 ^ 52) with 4503599627370496.
  destruct (Z.compare_spec 0 z) as [E|E|E];
    destruct (Z.compare_spec 4503599627370496 (z * 4503599627370496)) as [F|F|F];
    cbn; split; intros H; try discriminate H; try reflexivity; lia.
Qed.

Lemma in_unit_interval_bool b : TC009.in_unit_interval (JBool b) = true.
Proof. destruct b; reflexivity. Qed.

(** X15.  The upload of the valid audio file is accepted exactly when it is
    answered with status 200 and an object whose ["text"] is a string and
    whose ["confidence"] is a number between 0 and 1.  A boolean
    confidence is accepted, an integer confidence only if it is 0 or 1; a
    NaN and a string are refused. *)
Theorem valid_audio_check_iff (env : Env) (backend : Backend) (tr : list Exchange) :
  let rq := mkRequest POST (TC009.url env) [] [] (Files TC009.files_valid) 30 in
  (passes (TC009.valid_audio_check env backend tr) <->
   exists r d text c,
     backend tr rq = Replied r /\
     status_code r = 200 /\
     body r = Some (JDict d) /\
     lookup "text" d = Some (JStr text) /\
     lookup "confidence" d = Some c /\
     TC009.in_unit_interval c = true)
  /\ (forall b, TC009.in_unit_interval (JBool b) = true)
  /\ (forall z, TC009.in_unit_interval (JInt z) = true <-> 0 <= z <= 1)
  /\ TC009.in_unit_interval (JFloat S754_nan) = false
  /\ (forall s, TC009.in_unit_interval (JStr s) = false).
Proof.
  intros rq. split; [|split; [apply in_unit_interval_bool|split;
                       [apply in_unit_interval_int|split; reflexivity]]].
  unfold TC009.valid_audio_check, TC009.reraise, requests_post.
  change (mkRequest POST (TC009.url env) [] TC009.headers (Files TC009.files_valid)
            TC009.TIMEOUT) with rq.
  split.
  - intros H. apply passes_inv in H. destruct H as ([] & tr' & H).
    repeat inv_ok.
    match goal with Ht : isinstance_str ?t = true |- _ =>
      destruct t as [ | | | |text| | ]; try discriminate Ht end.
    match goal with
    | Hb : backend tr _ = Replied ?r, Hd : body ?r = Some (JDict ?d),
      Hc : lookup "confidence" ?d = Some ?c |- _ => exists r, d, text, c
    end.
    repeat split; try assumption. now apply Z.eqb_eq.
  - intros (r & d & text & c & Hb & Hs & Hbody & Ht & Hc & Hi).
    apply passes_intro with (a := tt) (tr' := (tr ++ [(rq, Replied r)])%list).
    unfold try_except, bind, lift, assert_, ret, response_json.
    rewrite (send_replied _ _ _ _ Hb), Hs, Hbody. cbn [Z.eqb Pos.eqb py_in py_getitem].
    unfold has_key. rewrite Ht, Hc. cbn [isinstance_str].
    rewrite Hi.
    replace (isinstance_float_int c) with true; [reflexivity|].
    unfold TC009.in_unit_interval in Hi. destruct c; try discriminate Hi; reflexivity.
Qed.

(** X16.  The request without a file is accepted exactly when it is
    answered with a status in [400,500). *)
Theorem missing_audio_check_iff (env : Env) (backend : Backend) (tr : list Exchange) :
  let rq := mkRequest POST (TC009.url env) [] [] (Files []) 30 in
  passes (TC009.missing_audio_check env backend tr) <->
  exists r, backend tr rq = Replied r /\ 400 <= status_code r < 500.
Proof.
  intros rq.
  unfold TC009.missing_audio_check, TC009.reraise, requests_post.
  change (mkRequest POST (TC009.url env) [] TC009.headers (Files []) TC009.TIMEOUT) with rq.
  split.
  - intros H. apply passes_inv in H. destruct H as ([] & tr' & H).
    repeat inv_ok.
    match goal with Hb : backend tr _ = Replied ?r |- _ => exists r; split; [exact Hb|] end.
    now apply range_4xx.
  - intros (r & Hb & Hlo & Hhi).
    apply passes_intro with (a := tt) (tr' := (tr ++ [(rq, Replied r)])%list).
    unfold try_except, bind, assert_, ret.
    rewrite (send_replied _ _ _ _ Hb).
    replace (status_code r =? 500) with false by (symmetry; apply Z.eqb_neq; lia).
    replace (400 <=? status_code r) with true by (symmetry; apply Z.leb_le; lia).
    replace (status_code r <? 500) with true by (symmetry; apply Z.ltb_lt; lia).
    reflexivity.
Qed.

(** ** TC010: the whole script and its failures *)

Lemma refused_check_exchange (env : Env) (backend : Backend) p what during t t' :
  TC010.refused_check env backend p what during t = (Ok tt, t') ->
  exists r, 400 <= status_code r /\
            t' = (t ++ [(TC010.synthesize_request env p, Replied r)])%list.
Proof.
  unfold TC010.refused_check, TC010.on_exception, requests_post. intros H. repeat inv_ok.
  match goal with Hb : backend _ _ = Replied ?r |- _ => exists r end.
  split; [now apply Z.leb_le | reflexivity].
Qed.

Lemma valid_synthesis_check_exchange (env : Env) (backend : Backend) t t' :
  TC010.valid_synthesis_check env backend t = (Ok tt, t') ->
  exists r d s,
    status_code r = 200 /\ body r = Some (JDict d) /\
    lookup "audioUrl" d = Some (JStr s) /\ startswith s "http" = true /\
    t' = (t ++ [(TC010.synthesize_request env TC010.valid_payload, Replied r)])%list.
Proof.
  unfold TC010.valid_synthesis_check, TC010.on_exception, requests_post.
  intros H. repeat inv_ok.
  match goal with
  | Hb : backend _ _ = Replied ?r, Hd : body ?r = Some (JDict ?d),
    Ha : match ?a with _ => _ end = true |- _ =>
      destruct a as [ | | | |s| | ]; try discriminate Ha; exists r, d, s
  end.
  repeat split; try assumption. now apply Z.eqb_eq.
Qed.

(** X18.  A passing run of the synthesis script made exactly six exchanges:
    the valid request, answered with status 200 and an object whose
    ["audioUrl"] is a string that starts with ["http"], then the five
    requests that must be refused (missing text, missing language, missing
    voice, invalid language, invalid voice), each answered with a status of
    at least 400. *)
Theorem synthesis_script_exchanges (env : Env) (backend : Backend) (tr : list Exchange) :
  passes (TC010.test_text_to_speech_synthesis env backend tr) ->
  exists r0 d s rs,
    status_code r0 = 200 /\ body r0 = Some (JDict d) /\
    lookup "audioUrl" d = Some (JStr s) /\ startswith s "http" = true /\
    List.length rs = 5%nat /\
    Forall (fun r => 400 <= status_code r) rs /\
    snd (TC010.test_text_to_speech_synthesis env backend tr)
    = (tr ++ (TC010.synthesize_request env TC010.valid_payload, Replied r0)
          :: combine (map (TC010.synthesize_request env)
                        [TC010.missing_text_payload; TC010.missing_language_payload;
                         TC010.missing_voice_payload; TC010.invalid_language_payload;
                         TC010.invalid_voice_payload])
                     (map Replied rs))%list.
Proof.
  intros H. apply passes_inv in H. destruct H as ([] & tr' & H).
  rewrite H. cbn [snd].
  unfold TC010.test_text_to_speech_synthesis in H.
  apply bind_ok in H. destruct H as ([] & t0 & H0 & H).
  apply bind_ok in H. destruct H as ([] & t1 & H1 & H).
  apply bind_ok in H. destruct H as ([] & t2 & H2 & H).
  apply bind_ok in H. destruct H as ([] & t3 & H3 & H).
  apply bind_ok in H. destruct H as ([] & t4 & H4 & H5).
  apply valid_synthesis_check_exchange in H0.
  destruct H0 as (r0 & d & s & S0 & B0 & L0 & P0 & ->).
  apply refused_check_exchange in H1. destruct H1 as (r1 & S1 & ->).
  apply refused_check_exchange in H2. destruct H2 as (r2 & S2 & ->).
  apply refused_check_exchange in H3. destruct H3 as (r3 & S3 & ->).
  apply refused_check_exchange in H4. destruct H4 as (r4 & S4 & ->).
  apply refused_check_exchange in H5. destruct H5 as (r5 & S5 & ->).
  exists r0, d, s, [r1; r2; r3; r4; r5].
  repeat (split; [assumption|]). split; [reflexivity|]. split.
  - repeat (constructor; [assumption|]). constructor.
  - rewrite <- !app_assoc. reflexivity.
Qed.

(** [synthesis_script_exchanges] applies to a backend on which the
    synthesis script returns. *)
Lemma synthesis_script_exchanges_witness :
  passes (TC010.test_text_to_speech_synthesis Backends.default_env Backends.server_errors [])
  /\
  exists r0 d s rs,
    status_code r0 = 200 /\ body r0 = Some (JDict d) /\
    lookup "audioUrl" d = Some (JStr s) /\ startswith s "http" = true /\
    List.length rs = 5%nat /\
    Forall (fun r => 400 <= status_code r) rs /\
    snd (TC010.test_text_to_speech_synthesis Backends.default_env Backends.server_errors [])
    = ([] ++ (TC010.synthesize_request Backends.default_env TC010.valid_payload, Replied r0)
          :: combine (map (TC010.synthesize_request Backends.default_env)
                        [TC010.missing_text_payload; TC010.missing_language_payload;
                         TC010.missing_voice_payload; TC010.invalid_language_payload;
                         TC010.invalid_voice_payload])
                     (map Replied rs))%list.
Proof.
  assert (Hp : passes (TC010.test_text_to_speech_synthesis
                         Backends.default_env Backends.server_errors []))
    by (apply passes_run; vm_compute; reflexivity).
  split; [exact Hp|].
  exact (synthesis_script_exchanges Backends.default_env Backends.server_errors [] Hp).
Defined.

(** X19.  Every failure of the synthesis script is an [AssertionError]
    whose message is a fixed prefix followed by the exception that caused
    it: each block ends in [except Exception], so a [TypeError] or a
    transport failure is reported as an assertion failure too. *)
Theorem synthesis_script_failure_class (env : Env) (backend : Backend)
    (tr tr' : list Exchange) (e : exn) :
  TC010.test_text_to_speech_synthesis env backend tr = (Raised e, tr') ->
  exists prefix cause, e = AssertionError [Lit prefix; Exc cause].
Proof.
  revert tr e tr'.
  change (raises_only (fun e => exists prefix cause, e = AssertionError [Lit prefix; Exc cause])
            (TC010.test_text_to_speech_synthesis env backend)).
  unfold TC010.test_text_to_speech_synthesis, TC010.valid_synthesis_check,
    TC010.refused_check, TC010.on_exception.
  repeat (apply raises_only_bind; [|intros _]);
    apply raises_only_any_try; intros e; eauto.
Qed.

(** [synthesis_script_failure_class] applies to the run on an unreachable
    backend. *)
Lemma synthesis_script_failure_class_witness :
  TC010.test_text_to_speech_synthesis Backends.default_env Backends.unreachable []
  = (Raised (AssertionError [Lit "Exception during valid synthesis request: ";
                             Exc (ConnectionError "connection refused")]),
     [(TC010.synthesize_request Backends.default_env TC010.valid_payload,
       Unreachable "connection refused")]) /\
  exists prefix cause,
    AssertionError [Lit "Exception during valid synthesis request: ";
                    Exc (ConnectionError "connection refused")]
    = AssertionError [Lit prefix; Exc cause].
Proof.
  split; [reflexivity|].
  exact (synthesis_script_failure_class Backends.default_env Backends.unreachable [] _ _
           eq_refl).
Defined.

(** ** All scripts: transport failures, timeouts and URLs *)

(** X20.  When the backend cannot be reached, every script ends after its
    first request.  Nine scripts report the failure as an [AssertionError]
    that carries the connection error; the sign-up script has no handler
    and lets the [ConnectionError] through. *)
Theorem transport_failure (env : Env) (backend : Backend) (uuid : string)
    (tr : list Exchange) (detail : string) :
  (forall rq, backend tr rq = Unreachable detail) ->
  let failed prefix rq :=
    (@Raised unit (AssertionError (prefix ++ [Exc (ConnectionError detail)])),
     (tr ++ [(rq, Unreachable detail)])%list) in
  TC001.test_signin_with_valid_and_invalid_credentials env backend tr
  = failed [Lit "Request with valid credentials failed: "]
      (TC001.signin_request env (TC001.valid_payload env)) /\
  TC002.test_signup_with_valid_and_invalid_data env backend uuid tr
  = (Raised (ConnectionError detail),
     (tr ++ [(TC002.signup_request env (TC002.valid_user env uuid),
              Unreachable detail)])%list) /\
  TC003.test_get_lessons_with_valid_level_and_language_parameters env backend tr
  = failed [Lit "Request failed: "] (TC003.lessons_request env TC003.params_valid) /\
  TC004.test_start_lesson_with_valid_and_invalid_lessonid env backend tr
  = failed [Lit "HTTP request failed: "] (TC004.lessons_request env) /\
  TC005.test_get_user_gamification_state env backend tr
  = failed [Lit "Request to "; Lit (TC005.url env); Lit " failed: "]
      (TC005.state_request env) /\
  TC006.test_get_user_achievements_list env backend tr
  = failed [Lit "Request to /gamification/achievements failed: "]
      (TC006.achievements_request env) /\
  TC007.test_get_supported_languages env backend tr
  = failed [Lit "GET /languages request failed: "] (TC007.languages_request env) /\
  TC008.test_update_user_language_settings env backend tr
  = failed [Lit "Request failed: "] (TC008.put_request env (JDict TC008.valid_payload)) /\
  TC009.test_speech_to_text_conversion env backend tr
  = failed [Lit "Valid audio upload failed: "]
      (mkRequest POST (TC009.url env) [] [] (Files TC009.files_valid) 30) /\
  TC010.test_text_to_speech_synthesis env backend tr
  = failed [Lit "Exception during valid synthesis request: "]
      (TC010.synthesize_request env TC010.valid_payload).
Proof.
  intros H failed. subst failed. cbv beta.
  repeat split.
  - unfold TC001.test_signin_with_valid_and_invalid_credentials,
      TC001.valid_credentials_check, requests_post, bind, try_except.
    now rewrite (send_unreachable _ _ _ _ (H _)).
  - unfold TC002.test_signup_with_valid_and_invalid_data, TC002.valid_signup_check,
      requests_post, bind.
    now rewrite (send_unreachable _ _ _ _ (H _)).
  - unfold TC003.test_get_lessons_with_valid_level_and_language_parameters,
      TC003.level_filter_check, requests_get, bind, try_except.
    now rewrite (send_unreachable _ _ _ _ (H _)).
  - unfold TC004.test_start_lesson_with_valid_and_invalid_lessonid,
      TC004.fetch_valid_lesson_id, requests_get, bind, try_except.
    now rewrite (send_unreachable _ _ _ _ (H _)).
  - unfold TC005.test_get_user_gamification_state, requests_get, bind, try_except.
    now rewrite (send_unreachable _ _ _ _ (H _)).
  - unfold TC006.test_get_user_achievements_list, requests_get, bind, try_except.
    now rewrite (send_unreachable _ _ _ _ (H _)).
  - unfold TC007.test_get_supported_languages, requests_get, bind, try_except.
    now rewrite (send_unreachable _ _ _ _ (H _)).
  - unfold TC008.test_update_user_language_settings, TC008.valid_update_check,
      requests_put, bind, try_except.
    now rewrite (send_unreachable _ _ _ _ (H _)).
  - unfold TC009.test_speech_to_text_conversion, TC009.valid_audio_check,
      requests_post, bind, try_except.
    now rewrite (send_unreachable _ _ _ _ (H _)).
  - unfold TC010.test_text_to_speech_synthesis, TC010.valid_synthesis_check,
      requests_post, bind, try_except.
    now rewrite (send_unreachable _ _ _ _ (H _)).
Qed.

(** [transport_failure] applies to the unreachable backend; here, its
    conclusion for the sign-up script. *)
Lemma transport_failure_witness :
  (forall rq, Backends.unreachable [] rq = Unreachable "connection refused") /\
  TC002.test_signup_with_valid_and_invalid_data
    Backends.default_env Backends.unreachable "0000" []
  = (Raised (ConnectionError "connection refused"),
     ([] ++ [(TC002.signup_request Backends.default_env
                (TC002.valid_user Backends.default_env "0000"),
              Unreachable "connection refused")])%list).
Proof.
  split; [reflexivity|].
  exact (proj1 (proj2 (transport_failure Backends.default_env Backends.unreachable "0000" []
                         "connection refused" (fun rq => eq_refl)))).
Defined.

(** X21.  Every request a script sends, whatever the outcome of the run,
    carries the timeout of 30 seconds and a URL that starts with the base
    URL of the environment. *)
Theorem requests_timeout_and_base_url (env : Env) (backend : Backend) (uuid : string) :
  let well_formed rq :=
    timeout rq = 30 /\
    String.prefix (os_getenv env "TEST_BASE_URL" "http://localhost:8081") (url rq) = true in
  sends_only well_formed (TC001.test_signin_with_valid_and_invalid_credentials env backend) /\
  sends_only well_formed (TC002.test_signup_with_valid_and_invalid_data env backend uuid) /\
  sends_only well_formed
    (TC003.test_get_lessons_with_valid_level_and_language_parameters env backend) /\
  sends_only well_formed (TC004.test_start_lesson_with_valid_and_invalid_lessonid env backend) /\
  sends_only well_formed (TC005.test_get_user_gamification_state env backend) /\
  sends_only well_formed (TC006.test_get_user_achievements_list env backend) /\
  sends_only well_formed (TC007.test_get_supported_languages env backend) /\
  sends_only well_formed (TC008.test_update_user_language_settings env backend) /\
  sends_only well_formed (TC009.test_speech_to_text_conversion env backend) /\
  sends_only well_formed (TC010.test_text_to_speech_synthesis env backend).
Proof.
  intros well_formed. subst well_formed.
  repeat split.
  - unfold TC001.test_signin_with_valid_and_invalid_credentials,
      TC001.valid_credentials_check, TC001.invalid_email_check, TC001.invalid_password_check,
      TC001.error_structure_check, requests_post.
    repeat sends_step.
  - unfold TC002.test_signup_with_valid_and_invalid_data, TC002.valid_signup_check,
      TC002.invalid_signup_check, requests_post.
    repeat sends_step.
  - unfold TC003.test_get_lessons_with_valid_level_and_language_parameters,
      TC003.level_filter_check, TC003.list_check, TC003.malformed_param_check,
      TC003.lesson_check, requests_get.
    repeat sends_step.
  - unfold TC004.test_start_lesson_with_valid_and_invalid_lessonid,
      TC004.fetch_valid_lesson_id, TC004.valid_start_check, TC004.invalid_start_check,
      requests_get, requests_post.
    apply sends_only_try.
    + repeat sends_step.
    + intros e h. unfold TC004.handlers.
      destruct (is_RequestException e); [intros H; injection H as <-; apply sends_only_raise|].
      destruct (is_AssertionError e); [intros H; injection H as <-; apply sends_only_raise|].
      discriminate.
  - unfold TC005.test_get_user_gamification_state, TC005.achievement_check, requests_get.
    repeat sends_step.
  - unfold TC006.test_get_user_achievements_list, TC006.achievement_check, requests_get.
    repeat sends_step.
  - unfold TC007.test_get_supported_languages, TC007.language_check, requests_get.
    repeat sends_step.
  - unfold TC008.test_update_user_language_settings, TC008.valid_update_check,
      requests_put.
    repeat sends_step.
  - unfold TC009.test_speech_to_text_conversion, TC009.valid_audio_check,
      TC009.invalid_audio_check, TC009.missing_audio_check, TC009.reraise, requests_post.
    repeat sends_step.
  - unfold TC010.test_text_to_speech_synthesis, TC010.valid_synthesis_check,
      TC010.refused_check, TC010.on_exception, requests_post.
    repeat sends_step.
Qed.
